(** * Evidence Evaluation Engine of the PROOF learning tracker

  A shallow embedding of the deterministic Proof Card rules of the
  repository, in both places where the source has them:

  - [Client]: [src/lib/proofCardRules.ts], the client-side preview;
  - [Server]: the analyze-learning edge function kept in
    [supabase/functions/run-python/index.ts], whose [serve] handler is
    authoritative.

  JavaScript numbers are IEEE-754 binary64 values.  Counters (array
  lengths, set sizes, [observedSessionCount++]) are integers and are kept
  as [nat]; the confidence score is computed in binary64 arithmetic, which
  [Binary64] models on exact rationals with round-to-nearest-even written
  out.  The module is cross-checked against Rocq's primitive floats at the
  end of the file. *)

From Stdlib Require Import ZArith QArith Qround Qpower Qminmax Lia Lqa.
From Stdlib Require Import Bool List String Ascii DecimalString.
From Stdlib Require Import ListSet Sorting.Mergesort Sorting.Sorted Sorting.Permutation.
From Stdlib Require Import OrderedTypeEx Floats.
Import ListNotations.

Set Warnings "-register-all,-inexact-float".

Local Open Scope string_scope.
Local Open Scope nat_scope.
Local Open Scope list_scope.

(* ================================================================== *)
(** * Part I: definitions                                              *)
(* ================================================================== *)

(** ** binary64 arithmetic on the non-negative normal range *)

Module Binary64.

Local Open Scope Q_scope.

(** Round a rational to the nearest integer, ties to even. *)
Definition rne (q : Q) : Z :=
  let f := Qfloor q in
  match Qcompare (q - inject_Z f) (1 # 2) with
  | Lt => f
  | Gt => (f + 1)%Z
  | Eq => if Z.even f then f else (f + 1)%Z
  end.

(** [ilog2 x] is the binary exponent of [x > 0]: [2^e <= x < 2^(e+1)]. *)
Definition ilog2 (x : Q) : Z :=
  let k := (Z.log2 (Qnum x) - Z.log2 (Zpos (Qden x)))%Z in
  if Qle_bool (2 ^ k) x then k else (k - 1)%Z.

(** Nearest value with a 53-bit significand.  Overflow to infinity and
    subnormals are not modelled: the engine only divides array lengths by
    10, 20 and 5 and adds constants between 0.05 and 0.6. *)
Definition round_pos (x : Q) : Q :=
  let u := (2 ^ (ilog2 x - 52))%Q in
  Qred (inject_Z (rne (x / u)) * u).

Definition round64 (x : Q) : Q :=
  match Qcompare x 0 with
  | Eq => 0%Q
  | Gt => round_pos x
  | Lt => (- round_pos (- x))%Q
  end.

(** A decimal literal of the program text. *)
Definition lit (q : Q) : Q := round64 q.

(** An integer counter used as a number. *)
Definition of_nat (n : nat) : Q := round64 (inject_Z (Z.of_nat n)).

Definition fadd (x y : Q) : Q := round64 (x + y).
Definition fdiv (x y : Q) : Q := round64 (x / y).

(** [x < y] on numbers. *)
Definition ltb (x y : Q) : bool := negb (Qle_bool y x).

(** The rational denoted by a finite [spec_float], to compare [round64]
    with the primitive floats of the kernel. *)
Definition SF2Q (f : SpecFloat.spec_float) : option Q :=
  match f with
  | SpecFloat.S754_zero _ => Some 0%Q
  | SpecFloat.S754_finite s m e =>
      Some (Qred ((if s then (-1)%Q else 1%Q) * inject_Z (Zpos m) * 2 ^ e))
  | _ => None
  end.

Definition of_float (f : float) : option Q := SF2Q (Prim2SF f).

End Binary64.

(** ** The JavaScript values the handler touches *)

Module Js.

Inductive JsValue : Type :=
| JsUndefined
| JsNull
| JsBool (b : bool)
| JsNumber (n : Q)
| JsString (s : string)
| JsArray (items : list JsValue)
| JsObject (fields : list (string * JsValue)).

(** Result of evaluating an expression that may throw. *)
Inductive Completion (A : Type) : Type :=
| Normal (a : A)
| Throw (message : string).
Arguments Normal {A} a.
Arguments Throw {A} message.

Definition bind {A B} (c : Completion A) (k : A -> Completion B) : Completion B :=
  match c with
  | Normal a => k a
  | Throw m => Throw m
  end.

(** [Boolean(v)] *)
Definition truthy (v : JsValue) : bool :=
  match v with
  | JsUndefined | JsNull => false
  | JsBool b => b
  | JsNumber n => negb (Qeq_bool n 0)
  | JsString s => negb (String.eqb s "")
  | JsArray _ | JsObject _ => true
  end.

(** [a || b] *)
Definition or (a b : JsValue) : JsValue := if truthy a then a else b.

Fixpoint lookup (name : string) (fields : list (string * JsValue)) : JsValue :=
  match fields with
  | [] => JsUndefined
  | (k, v) :: rest => if String.eqb k name then v else lookup name rest
  end.

(** [v.name], for a name that is not a built-in property of arrays or
    strings (the handler reads choices, message, content,
    evidence_summary, limitations and observed_growth_trends). *)
Definition get (v : JsValue) (name : string) : Completion JsValue :=
  match v with
  | JsUndefined =>
      Throw ("Cannot read properties of undefined (reading '" ++ name ++ "')")%string
  | JsNull =>
      Throw ("Cannot read properties of null (reading '" ++ name ++ "')")%string
  | JsObject fields => Normal (lookup name fields)
  | _ => Normal JsUndefined
  end.

(** [v?.name] *)
Definition opt_get (v : JsValue) (name : string) : JsValue :=
  match v with
  | JsObject fields => lookup name fields
  | _ => JsUndefined
  end.

(** [v?.[0]] *)
Definition opt_index0 (v : JsValue) : JsValue :=
  match v with
  | JsArray (x :: _) => x
  | JsObject fields => lookup "0" fields
  | JsString (String c _) => JsString (String c EmptyString)
  | _ => JsUndefined
  end.

(** [s.split('T')[0]]: the text before the first T. *)
Fixpoint split_T_0 (s : string) : string :=
  match s with
  | EmptyString => EmptyString
  | String c rest =>
      if Ascii.eqb c "T" then EmptyString else String c (split_T_0 rest)
  end.

(** [field?.split('T')[0]] on an optional string field. *)
Definition opt_split_T_0 (field : option string) : option string :=
  option_map split_T_0 field.

(** Truthiness of an optional string: present and not empty. *)
Definition truthy_str (s : option string) : bool :=
  match s with
  | Some t => negb (String.eqb t "")
  | None => false
  end.

(** An integer inside a template literal. *)
Definition number_text (n : nat) : string :=
  NilEmpty.string_of_uint (Nat.to_uint n).

(** [Set.prototype.add]: insertion order is kept, duplicates are not added. *)
Definition Set_add (x : string) (s : list string) : list string :=
  set_add string_dec x s.

End Js.
Import Js.

Notation "x <- c ;; k" := (Js.bind c (fun x => k))
(at level 61, c at next level, right associativity).

(** ** Activity records

    The engine reads these fields of an activity; every one of them may be
    absent ([None] stands for both undefined and null).  The database row
    carries [created_at] and [duration_minutes]; the summary sent to the edge
    function carries [date].  Of the learning signals only
    [error_correction_cycles] is read (writing sessions do not have it). *)

Record LearningSignals := {
  error_correction_cycles : option Z
}.

Record Activity := {
  title : option string;
  type : option string;
  date : option string;
  created_at : option string;
  evidence_source : option string;
  learning_signals : option LearningSignals;
  duration_minutes : option Z
}.

(** [interface UnlockRequirements], declared identically in both files. *)
Record UnlockRequirements := {
  multiple_days : bool;
  multiple_sessions : bool;
  observed_evidence : bool;
  growth_signal : bool;
  consistency : bool
}.

(** [activity.evidence_source === 'observed_in_proof' ||
     activity.learning_signals != null] *)
Definition isObserved (activity : Activity) : bool :=
  match evidence_source activity with
  | Some s => String.eqb s "observed_in_proof"
  | None => false
  end
  || match learning_signals activity with
     | Some _ => true
     | None => false
     end.

(** [activity.learning_signals?.error_correction_cycles > 0] *)
Definition hasCorrectionCycle (activity : Activity) : bool :=
  match learning_signals activity with
  | Some signals =>
      match error_correction_cycles signals with
      | Some n => (0 <? n)%Z
      | None => false
      end
  | None => false
  end.

(** ** src/lib/proofCardRules.ts *)

Module Client.

Record EvidenceMetrics := {
  uniqueDays : nat;
  sessionCount : nat;
  hasObservedEvidence : bool;
  observedSessionCount : nat;
  totalDuration : Z;
  hasErrorCorrectionCycles : bool;
  activityTypes : list string
}.

Definition MIN_UNIQUE_DAYS : nat := 3.
Definition MIN_SESSIONS : nat := 3.
Definition MIN_OBSERVED_SESSIONS : nat := 1.
Definition MIN_DURATION_MINUTES : nat := 30.

(** [activity.created_at?.split('T')[0] || activity.date?.split('T')[0]] *)
Definition dateStr (activity : Activity) : option string :=
  let fromCreated := opt_split_T_0 (created_at activity) in
  if truthy_str fromCreated then fromCreated else opt_split_T_0 (date activity).

(** The variables the loop of [calculateEvidenceMetrics] updates. *)
Record Locals := {
  uniqueDates : list string;
  seenObservedEvidence : bool;
  observedCount : nat;
  durationSum : Z;
  seenErrorCorrection : bool;
  typeSet : list string
}.

Definition loopBody (st : Locals) (activity : Activity) : Locals := {|
  uniqueDates :=
    match dateStr activity with
    | Some d => if negb (String.eqb d "") then Set_add d (uniqueDates st)
                else uniqueDates st
    | None => uniqueDates st
    end;
  seenObservedEvidence :=
    if isObserved activity then true else seenObservedEvidence st;
  observedCount :=
    if isObserved activity then S (observedCount st) else observedCount st;
  durationSum :=
    match duration_minutes activity with
    | Some d => if (d =? 0)%Z then durationSum st else (durationSum st + d)%Z
    | None => durationSum st
    end;
  seenErrorCorrection :=
    if hasCorrectionCycle activity then true else seenErrorCorrection st;
  typeSet :=
    match type activity with
    | Some t => if negb (String.eqb t "") then Set_add t (typeSet st)
                else typeSet st
    | None => typeSet st
    end
|}.

Definition calculateEvidenceMetrics (activities : list Activity) : EvidenceMetrics :=
  let st := fold_left loopBody activities
              {| uniqueDates := []; seenObservedEvidence := false;
                 observedCount := 0; durationSum := 0%Z;
                 seenErrorCorrection := false; typeSet := [] |} in
  {| uniqueDays := List.length (uniqueDates st);
     sessionCount := List.length activities;
     hasObservedEvidence := seenObservedEvidence st;
     observedSessionCount := observedCount st;
     totalDuration := durationSum st;
     hasErrorCorrectionCycles := seenErrorCorrection st;
     activityTypes := typeSet st |}.

Definition evaluateUnlockRequirements (metrics : EvidenceMetrics) : UnlockRequirements := {|
  multiple_days := (MIN_UNIQUE_DAYS <=? uniqueDays metrics)%nat;
  multiple_sessions := (MIN_SESSIONS <=? sessionCount metrics)%nat;
  observed_evidence := hasObservedEvidence metrics;
  growth_signal :=
    hasErrorCorrectionCycles metrics || (2 <=? observedSessionCount metrics)%nat;
  consistency :=
    (1 <=? List.length (activityTypes metrics))%nat
    && (MIN_SESSIONS <=? sessionCount metrics)%nat
|}.

Definition shouldUnlock (requirements : UnlockRequirements) : bool :=
  multiple_days requirements
  && multiple_sessions requirements
  && observed_evidence requirements
  && growth_signal requirements
  && consistency requirements.

Definition getMissingRequirements
    (requirements : UnlockRequirements) (metrics : EvidenceMetrics) : list string :=
  let missing := [] in
  let missing :=
    if negb (multiple_days requirements)
    then missing ++ [("Evidence spans only " ++ number_text (uniqueDays metrics)
                      ++ " day(s). Need at least " ++ number_text MIN_UNIQUE_DAYS
                      ++ " distinct days.")%string]
    else missing in
  let missing :=
    if negb (multiple_sessions requirements)
    then missing ++ [("Only " ++ number_text (sessionCount metrics)
                      ++ " session(s) recorded. Need at least "
                      ++ number_text MIN_SESSIONS ++ " sessions.")%string]
    else missing in
  let missing :=
    if negb (observed_evidence requirements)
    then missing ++ ["No observed learning process evidence. Use a Learning Space to generate process signals."]
    else missing in
  let missing :=
    if negb (growth_signal requirements)
    then missing ++ ["No clear growth signal detected. Continue practicing to demonstrate improvement over time."]
    else missing in
  let missing :=
    if negb (consistency requirements)
    then missing ++ ["Insufficient consistent practice detected across sessions."]
    else missing in
  missing.

Definition calculateConfidenceScore (metrics : EvidenceMetrics) : Q :=
  let score := Binary64.lit (2 # 10) in
  let score :=
    Binary64.fadd score
      (Qmin (Binary64.fdiv (Binary64.of_nat (uniqueDays metrics)) (Binary64.lit 10))
            (Binary64.lit (15 # 100))) in
  let score :=
    Binary64.fadd score
      (Qmin (Binary64.fdiv (Binary64.of_nat (sessionCount metrics)) (Binary64.lit 20))
            (Binary64.lit (1 # 10))) in
  let score :=
    Binary64.fadd score
      (Qmin (Binary64.fdiv (Binary64.of_nat (observedSessionCount metrics)) (Binary64.lit 5))
            (Binary64.lit (1 # 10))) in
  let score :=
    if hasErrorCorrectionCycles metrics
    then Binary64.fadd score (Binary64.lit (5 # 100))
    else score in
  Qmin score (Binary64.lit (6 # 10)).

Definition getConfidenceLevel (score : Q) : string :=
  if Binary64.ltb score (Binary64.lit (3 # 10)) then "emerging"
  else if Binary64.ltb score (Binary64.lit (45 # 100)) then "developing"
  else "early_evidence".

End Client.

(** ** supabase/functions/run-python/index.ts (analyze-learning handler) *)

(** [Array.prototype.sort] without a comparator orders strings by code
    unit; dates are ASCII, where this is the byte order of [String.leb]. *)
Module StringOrder <: Orders.TotalLeBool.
Definition t := string.
Definition leb := String.leb.
Definition leb_total : forall x y, leb x y = true \/ leb y x = true :=
  String.leb_total.
End StringOrder.

Module StringSort := Sort StringOrder.

Module Server.

Record EvidenceMetrics := {
  uniqueDays : nat;
  sessionCount : nat;
  hasObservedEvidence : bool;
  observedSessionCount : nat;
  hasErrorCorrectionCycles : bool;
  activityTypes : list string
}.

Definition MIN_UNIQUE_DAYS : nat := 3.
Definition MIN_SESSIONS : nat := 3.
Definition MIN_OBSERVED_SESSIONS : nat := 1.

(** [activity.date?.split('T')[0]] *)
Definition dateStr (activity : Activity) : option string :=
  opt_split_T_0 (date activity).

Record Locals := {
  uniqueDates : list string;
  seenObservedEvidence : bool;
  observedCount : nat;
  seenErrorCorrection : bool;
  typeSet : list string
}.

Definition loopBody (st : Locals) (activity : Activity) : Locals := {|
  uniqueDates :=
    match dateStr activity with
    | Some d => if negb (String.eqb d "") then Set_add d (uniqueDates st)
                else uniqueDates st
    | None => uniqueDates st
    end;
  typeSet :=
    match type activity with
    | Some t => if negb (String.eqb t "") then Set_add t (typeSet st)
                else typeSet st
    | None => typeSet st
    end;
  seenObservedEvidence :=
    if isObserved activity then true else seenObservedEvidence st;
  observedCount :=
    if isObserved activity then S (observedCount st) else observedCount st;
  seenErrorCorrection :=
    if hasCorrectionCycle activity then true else seenErrorCorrection st
|}.

Definition calculateEvidenceMetrics (activities : list Activity) : EvidenceMetrics :=
  let st := fold_left loopBody activities
              {| uniqueDates := []; seenObservedEvidence := false;
                 observedCount := 0; seenErrorCorrection := false;
                 typeSet := [] |} in
  {| uniqueDays := List.length (uniqueDates st);
     sessionCount := List.length activities;
     hasObservedEvidence := seenObservedEvidence st;
     observedSessionCount := observedCount st;
     hasErrorCorrectionCycles := seenErrorCorrection st;
     activityTypes := typeSet st |}.

Definition evaluateUnlockRequirements (metrics : EvidenceMetrics) : UnlockRequirements := {|
  multiple_days := (MIN_UNIQUE_DAYS <=? uniqueDays metrics)%nat;
  multiple_sessions := (MIN_SESSIONS <=? sessionCount metrics)%nat;
  observed_evidence := hasObservedEvidence metrics;
  growth_signal :=
    hasErrorCorrectionCycles metrics || (2 <=? observedSessionCount metrics)%nat;
  consistency :=
    (1 <=? List.length (activityTypes metrics))%nat
    && (MIN_SESSIONS <=? sessionCount metrics)%nat
|}.

Definition shouldUnlock (requirements : UnlockRequirements) : bool :=
  multiple_days requirements
  && multiple_sessions requirements
  && observed_evidence requirements
  && growth_signal requirements
  && consistency requirements.

Definition getMissingRequirements
    (requirements : UnlockRequirements) (metrics : EvidenceMetrics) : list string :=
  let missing := [] in
  let missing :=
    if negb (multiple_days requirements)
    then missing ++ [("Evidence spans only " ++ number_text (uniqueDays metrics)
                      ++ " day(s). Need at least " ++ number_text MIN_UNIQUE_DAYS
                      ++ " distinct days.")%string]
    else missing in
  let missing :=
    if negb (multiple_sessions requirements)
    then missing ++ [("Only " ++ number_text (sessionCount metrics)
                      ++ " session(s) recorded. Need at least "
                      ++ number_text MIN_SESSIONS ++ " sessions.")%string]
    else missing in
  let missing :=
    if negb (observed_evidence requirements)
    then missing ++ ["No observed learning process evidence. Use a Learning Space to generate process signals."]
    else missing in
  let missing :=
    if negb (growth_signal requirements)
    then missing ++ ["No clear growth signal detected. Continue practicing to demonstrate improvement over time."]
    else missing in
  let missing :=
    if negb (consistency requirements)
    then missing ++ ["Insufficient consistent practice detected across sessions."]
    else missing in
  missing.

Definition calculateConfidenceScore (metrics : EvidenceMetrics) : Q :=
  let score := Binary64.lit (2 # 10) in
  let score :=
    Binary64.fadd score
      (Qmin (Binary64.fdiv (Binary64.of_nat (uniqueDays metrics)) (Binary64.lit 10))
            (Binary64.lit (15 # 100))) in
  let score :=
    Binary64.fadd score
      (Qmin (Binary64.fdiv (Binary64.of_nat (sessionCount metrics)) (Binary64.lit 20))
            (Binary64.lit (1 # 10))) in
  let score :=
    Binary64.fadd score
      (Qmin (Binary64.fdiv (Binary64.of_nat (observedSessionCount metrics)) (Binary64.lit 5))
            (Binary64.lit (1 # 10))) in
  let score :=
    if hasErrorCorrectionCycles metrics
    then Binary64.fadd score (Binary64.lit (5 # 100))
    else score in
  Qmin score (Binary64.lit (6 # 10)).

Definition getConfidenceLevel (score : Q) : string :=
  if Binary64.ltb score (Binary64.lit (3 # 10)) then "emerging"
  else if Binary64.ltb score (Binary64.lit (45 # 100)) then "developing"
  else "early_evidence".

(** *** The request, the collaborator and the responses *)

(** [content] of a generate_proof_card request. *)
Record Content := {
  skill_name : string;
  category : string;
  activities : option (list Activity)
}.

(** What the handler puts in its prompt: the metrics and the first ten
    activities, reduced to five fields each. *)
Record ActivitySample := {
  sample_title : option string;
  sample_type : option string;
  sample_date : option string;
  sample_evidence_source : option string;
  has_signals : bool
}.

Record AiRequest := {
  prompt_skill : string;
  prompt_category : string;
  prompt_sessions : nat;
  prompt_unique_days : nat;
  prompt_observed_sessions : nat;
  prompt_error_correction : bool;
  prompt_activities : list ActivitySample
}.

(** How the call to the AI gateway ends: [fetch] rejects, or it resolves
    to a response with its [ok] flag and what [response.json()] gives. *)
Inductive FetchReply : Type :=
| Rejected (message : string)
| Resolved (ok : bool) (json : Completion JsValue).

Record CurrentProgress := {
  days_count : nat;
  sessions_count : nat;
  has_observed_evidence : bool
}.

Record LockedResponse := {
  locked_status : string;
  locked_requirements_met : UnlockRequirements;
  missing_requirements : list string;
  current_progress : CurrentProgress;
  what_would_unlock : string;
  encouragement : string
}.

Record UnlockedResponse := {
  status : string;
  requirements_met : UnlockRequirements;
  evidence_summary : JsValue;
  growth_trend : string;
  confidence_score : Q;
  confidence_level : string;
  explanation : string;
  time_span : string;
  session_count : nat;
  observed_growth_trends : JsValue;
  limitations : JsValue
}.

(** The body of the HTTP response; [Failure] is the catch handler's
    [{ error }] with its status code. *)
Inductive Response : Type :=
| Locked (body : LockedResponse)
| Unlocked (body : UnlockedResponse)
| Failure (code : Z) (error : string).

(** The handler as a program over the one effect it has. *)
Inductive Handler : Type :=
| Respond (r : Response)
| Fetch (request : AiRequest) (k : FetchReply -> Handler).

(** Run a handler against a collaborator; the second component counts the
    calls made to it. *)
Fixpoint run (h : Handler) (collaborator : AiRequest -> FetchReply) : Response * nat :=
  match h with
  | Respond r => (r, 0)
  | Fetch request k =>
      let (r, calls) := run (k (collaborator request)) collaborator in
      (r, S calls)
  end.

(** [activities.map(a => a.date?.split('T')[0]).filter(Boolean)] *)
Definition dateParts (activities : list Activity) : list string :=
  flat_map (fun a => match dateStr a with
                     | Some d => if negb (String.eqb d "") then [d] else []
                     | None => []
                     end) activities.

Definition timeSpan (activities : list Activity) : string :=
  let dates := StringSort.sort (dateParts activities) in
  if (1 <? List.length dates)%nat
  then (nth 0 dates "undefined" ++ " to "
        ++ nth (List.length dates - 1) dates "undefined")%string
  else match dates with
       | d :: _ => d
       | [] => "Recent"
       end.

Definition sample (a : Activity) : ActivitySample := {|
  sample_title := title a;
  sample_type := type a;
  sample_date := date a;
  sample_evidence_source := evidence_source a;
  has_signals := match learning_signals a with Some _ => true | None => false end
|}.

(** What the prompt of the request to the gateway is made of. *)
Definition aiRequest (content : Content) (metrics : EvidenceMetrics)
    (activities : list Activity) : AiRequest := {|
  prompt_skill := skill_name content;
  prompt_category := category content;
  prompt_sessions := sessionCount metrics;
  prompt_unique_days := uniqueDays metrics;
  prompt_observed_sessions := observedSessionCount metrics;
  prompt_error_correction := hasErrorCorrectionCycles metrics;
  prompt_activities := map sample (firstn 10 activities)
|}.

Definition lockedResponse (requirements : UnlockRequirements) (metrics : EvidenceMetrics)
  : LockedResponse := {|
  locked_status := "locked";
  locked_requirements_met := requirements;
  missing_requirements := getMissingRequirements requirements metrics;
  current_progress := {|
    days_count := uniqueDays metrics;
    sessions_count := sessionCount metrics;
    has_observed_evidence := hasObservedEvidence metrics |};
  what_would_unlock := "Continue practicing this skill over multiple days with observed learning sessions. Use the Code or Writing Learning Spaces to generate process evidence.";
  encouragement := "Your learning is being tracked. Proof Cards require sustained evidence over time—slowness is a feature, not a bug. Keep practicing!"
|}.

(** [EVIDENCE_EXPLANATION_PROMPT] is read at line 284, while the body of
    the request to the gateway is built.  The module declares no such
    binding and imports none, so evaluating the identifier throws a
    ReferenceError, before [fetch] is called. *)
Definition EVIDENCE_EXPLANATION_PROMPT : Completion string :=
  Throw "EVIDENCE_EXPLANATION_PROMPT is not defined".

Section Handler.

(** Built-ins of the runtime: [JSON.parse] applied to a value (with the
    conversion of its argument to a string), and the conversion of a value
    inside a template literal, which throws a TypeError for an object that
    cannot be converted to a primitive. *)
Variable JSON_parse : JsValue -> Completion JsValue.
Variable ToString : JsValue -> Completion string.

(** The response built when [response.ok] is false. *)
Definition defaultResponse (content : Content) (requirements : UnlockRequirements)
    (metrics : EvidenceMetrics) (confidenceScore : Q) (confidenceLevel timeSpan : string)
  : UnlockedResponse := {|
  status := "unlocked";
  requirements_met := requirements;
  evidence_summary :=
    JsString ("Observed " ++ number_text (sessionCount metrics)
              ++ " learning sessions for " ++ skill_name content ++ " across "
              ++ number_text (uniqueDays metrics) ++ " days with process evidence.");
  growth_trend := if hasErrorCorrectionCycles metrics then "improving" else "stable";
  confidence_score := confidenceScore;
  confidence_level := confidenceLevel;
  explanation :=
    "Evidence is " ++ confidenceLevel ++ ". Based on "
    ++ number_text (observedSessionCount metrics)
    ++ " observed sessions with process signals.";
  time_span := timeSpan;
  session_count := sessionCount metrics;
  observed_growth_trends :=
    JsArray [JsString "Learning process observed"; JsString "Consistent practice detected"];
  limitations :=
    JsString "Early evidence. Confidence will increase with continued practice over time."
|}.

(** The response built from the collaborator's JSON, field by field in the
    order of the object literal; reading a property of [null] throws, and so
    may the conversion of [aiParsed.limitations || ""] in the template
    literal of [explanation]. *)
Definition unlockedResponse (content : Content) (requirements : UnlockRequirements)
    (metrics : EvidenceMetrics) (confidenceScore : Q) (confidenceLevel timeSpan : string)
    (aiParsed : JsValue) : Completion UnlockedResponse :=
  summary <- get aiParsed "evidence_summary" ;;
  caveat <- get aiParsed "limitations" ;;
  caveatText <- ToString (Js.or caveat (JsString "")) ;;
  trends <- get aiParsed "observed_growth_trends" ;;
  Normal {|
    status := "unlocked";
    requirements_met := requirements;
    evidence_summary :=
      Js.or summary
        (JsString ("Observed " ++ number_text (sessionCount metrics)
                   ++ " learning sessions for " ++ skill_name content ++ " across "
                   ++ number_text (uniqueDays metrics) ++ " days."));
    growth_trend := if hasErrorCorrectionCycles metrics then "improving" else "stable";
    confidence_score := confidenceScore;
    confidence_level := confidenceLevel;
    explanation :=
      "Confidence is " ++ confidenceLevel ++ " based on "
      ++ number_text (observedSessionCount metrics) ++ " observed sessions across "
      ++ number_text (uniqueDays metrics) ++ " days. "
      ++ caveatText;
    time_span := timeSpan;
    session_count := sessionCount metrics;
    observed_growth_trends :=
      Js.or trends (JsArray [JsString "Learning process observed"]);
    limitations :=
      Js.or caveat
        (JsString "Early evidence. Confidence will increase with continued practice.")
  |}.

(** [aiData.choices?.[0]?.message?.content] *)
Definition aiContent (aiData : JsValue) : Completion JsValue :=
  choices <- get aiData "choices" ;;
  Normal (opt_get (opt_get (opt_index0 choices) "message") "content").

(** The generate_proof_card branch of [serve], from the read of
    LOVABLE_API_KEY to the response; [try ... catch] turns whatever is
    thrown into a 500.  The arguments of [fetch] are evaluated before the
    call: the read of [EVIDENCE_EXPLANATION_PROMPT] in the body comes
    first. *)
Definition serve (LOVABLE_API_KEY : option string) (content : Content) : Handler :=
  if negb (truthy_str LOVABLE_API_KEY)
  then Respond (Failure 500 "LOVABLE_API_KEY is not configured")
  else
    let activities := match activities content with Some l => l | None => [] end in
    let metrics := calculateEvidenceMetrics activities in
    let requirements := evaluateUnlockRequirements metrics in
    let canUnlock := shouldUnlock requirements in
    if negb canUnlock
    then Respond (Locked (lockedResponse requirements metrics))
    else
      let confidenceScore := calculateConfidenceScore metrics in
      let confidenceLevel := getConfidenceLevel confidenceScore in
      let timeSpan := timeSpan activities in
      match EVIDENCE_EXPLANATION_PROMPT with
      | Throw message => Respond (Failure 500 message)
      | Normal _ =>
          Fetch (aiRequest content metrics activities)
            (fun response =>
               match response with
               | Rejected message => Respond (Failure 500 message)
               | Resolved false _ =>
                   Respond (Unlocked (defaultResponse content requirements metrics
                                        confidenceScore confidenceLevel timeSpan))
               | Resolved true json =>
                   match
                     (aiData <- json ;;
                      aiContent <- aiContent aiData ;;
                      let aiParsed :=
                        match JSON_parse aiContent with
                        | Normal v => v
                        | Throw _ => JsObject []
                        end in
                      unlockedResponse content requirements metrics
                        confidenceScore confidenceLevel timeSpan aiParsed)
                   with
                   | Normal body => Respond (Unlocked body)
                   | Throw message => Respond (Failure 500 message)
                   end
               end)
      end.

End Handler.

End Server.

(** ** The GenerateProofCard component (src/unnamed/part_005): what the client sends

    [skillActivities.map(a => ({ title, description, type, date:
    a.created_at, evidence_source, learning_signals, insights }))]: the
    database row becomes a summary dated by its [created_at]. *)
Definition summaryOf (a : Activity) : Activity := {|
  title := title a;
  type := type a;
  date := created_at a;
  created_at := None;
  evidence_source := evidence_source a;
  learning_signals := learning_signals a;
  duration_minutes := None
|}.

(** [isValidUnlockedResponse] of the same component: what a consumer
    requires of a payload before it treats it as unlocked. *)
Definition isValidUnlockedResponse (response : Server.Response) : bool :=
  match response with
  | Server.Unlocked body =>
      String.eqb (Server.status body) "unlocked"
      && match Server.evidence_summary body with
         | JsString s => (0 <? String.length s)
         | _ => false
         end
      && Binary64.ltb 0 (Server.confidence_score body)
  | _ => false
  end.

(** ** Vocabulary of the statements *)

(** The five requirements, in the order in which the checklist reports them. *)
Inductive Requirement : Type :=
| Days | Sessions | ObservedEvidence | GrowthSignal | Consistency.

Definition met (r : UnlockRequirements) (q : Requirement) : bool :=
  match q with
  | Days => multiple_days r
  | Sessions => multiple_sessions r
  | ObservedEvidence => observed_evidence r
  | GrowthSignal => growth_signal r
  | Consistency => consistency r
  end.

(** The requirements with [q] flipped to false and the others kept. *)
Definition unmeet (q : Requirement) (r : UnlockRequirements) : UnlockRequirements := {|
  multiple_days := match q with Days => false | _ => multiple_days r end;
  multiple_sessions := match q with Sessions => false | _ => multiple_sessions r end;
  observed_evidence := match q with ObservedEvidence => false | _ => observed_evidence r end;
  growth_signal := match q with GrowthSignal => false | _ => growth_signal r end;
  consistency := match q with Consistency => false | _ => consistency r end
|}.

Definition is_digit (c : ascii) : bool :=
  (48 <=? nat_of_ascii c)%nat && (nat_of_ascii c <=? 57)%nat.

(** A text that states a number has a decimal digit in it. *)
Fixpoint has_digit (s : string) : bool :=
  match s with
  | EmptyString => false
  | String c rest => is_digit c || has_digit rest
  end.

(** The formula of the confidence score as the specification writes it:
    four clamped terms and an optional bonus added to the base, the sum
    clamped to 0.6, every operation being a binary64 operation. *)
Definition spec_confidence
    (uniqueDays sessionCount observedSessionCount : nat)
    (hasErrorCorrectionCycles : bool) : Q :=
  Qmin
    (Binary64.fadd
       (Binary64.fadd
          (Binary64.fadd
             (Binary64.fadd (Binary64.lit (2 # 10))
                (Qmin (Binary64.fdiv (Binary64.of_nat uniqueDays) (Binary64.lit 10))
                      (Binary64.lit (15 # 100))))
             (Qmin (Binary64.fdiv (Binary64.of_nat sessionCount) (Binary64.lit 20))
                   (Binary64.lit (1 # 10))))
          (Qmin (Binary64.fdiv (Binary64.of_nat observedSessionCount) (Binary64.lit 5))
                (Binary64.lit (1 # 10))))
       (if hasErrorCorrectionCycles then Binary64.lit (5 # 100) else Binary64.lit 0))
    (Binary64.lit (6 # 10)).

(** The same computation on the primitive floats of the kernel. *)
Definition float_min (x y : float) : float :=
  if PrimFloat.ltb x y then x else y.

Definition float_of_nat (n : nat) : float :=
  PrimFloat.of_uint63 (Uint63.of_Z (Z.of_nat n)).

Definition float_confidence
    (uniqueDays sessionCount observedSessionCount : nat)
    (hasErrorCorrectionCycles : bool) : float :=
  let score := 0.2%float in
  let score := (score + float_min (float_of_nat uniqueDays / 10) 0.15)%float in
  let score := (score + float_min (float_of_nat sessionCount / 20) 0.1)%float in
  let score := (score + float_min (float_of_nat observedSessionCount / 5) 0.1)%float in
  let score := if hasErrorCorrectionCycles then (score + 0.05)%float else score in
  float_min score 0.6%float.

(** The earliest and the latest of a non-empty list of dates. *)
Fixpoint minimum (d : string) (rest : list string) : string :=
  match rest with
  | [] => d
  | x :: r => let m := minimum x r in if String.leb d m then d else m
  end.

Fixpoint maximum (d : string) (rest : list string) : string :=
  match rest with
  | [] => d
  | x :: r => let m := maximum x r in if String.leb m d then d else m
  end.




(** The fields of a response that the rules decide. *)
Record DeterministicFields := {
  unlock_decision : bool;
  decided_requirements : UnlockRequirements;
  decided_score : option Q;
  decided_level : option string;
  decided_trend : option string
}.

Definition deterministic_fields (r : Server.Response) : option DeterministicFields :=
  match r with
  | Server.Locked body =>
      Some {| unlock_decision := false;
              decided_requirements := Server.locked_requirements_met body;
              decided_score := None; decided_level := None; decided_trend := None |}
  | Server.Unlocked body =>
      Some {| unlock_decision := String.eqb (Server.status body) "unlocked";
              decided_requirements := Server.requirements_met body;
              decided_score := Some (Server.confidence_score body);
              decided_level := Some (Server.confidence_level body);
              decided_trend := Some (Server.growth_trend body) |}
  | Server.Failure _ _ => None
  end.

(** The same fields computed from the activity list alone. *)
Definition rule_fields (activities : list Activity) : DeterministicFields :=
  let metrics := Server.calculateEvidenceMetrics activities in
  let requirements := Server.evaluateUnlockRequirements metrics in
  if Server.shouldUnlock requirements
  then {| unlock_decision := true;
          decided_requirements := requirements;
          decided_score := Some (Server.calculateConfidenceScore metrics);
          decided_level :=
            Some (Server.getConfidenceLevel (Server.calculateConfidenceScore metrics));
          decided_trend :=
            Some (if Server.hasErrorCorrectionCycles metrics
                  then "improving" else "stable") |}
  else {| unlock_decision := false;
          decided_requirements := requirements;
          decided_score := None; decided_level := None; decided_trend := None |}.

Definition nullish (v : JsValue) : bool :=
  match v with
  | JsUndefined | JsNull => true
  | _ => false
  end.

(** The activity list of a request: [content.activities || []]. *)
Definition submitted (content : Server.Content) : list Activity :=
  match Server.activities content with
  | Some l => l
  | None => []
  end.

(** The counters on which the model is compared with the kernel's floats. *)
Definition score_grid : list (nat * nat * nat * bool) :=
  flat_map (fun d =>
    flat_map (fun s =>
      flat_map (fun o => [(d, s, o, false); (d, s, o, true)])
        (seq 0 6)) (seq 0 6)) (seq 0 6).

Definition same_as_float (q : Q) (f : float) : bool :=
  match Binary64.of_float f with
  | Some r => Qeq_bool q r
  | None => false
  end.

(** ** Inputs used in the examples *)

Module Examples.

(** [JSON.parse] on the texts the examples use: it agrees with the built-in
    on the texts of the empty object and of null and on a text that is not
    JSON. *)
Definition JSON_parse (text : JsValue) : Completion JsValue :=
  match text with
  | JsString "{}" => Normal (JsObject [])
  | JsString "null" => Normal JsNull
  | _ => Throw "Unexpected token in JSON"
  end.

Definition ToString (v : JsValue) : Completion string :=
  match v with
  | JsString s => Normal s
  | JsObject _ => Throw "Cannot convert object to primitive value"
  | _ => Normal ""
  end.

(** An activity summary as the client sends it. *)
Definition summary (day : string) (source : option string)
    (signals : option LearningSignals) : Activity := {|
  title := Some "Practice session";
  type := Some "code";
  date := Some day;
  created_at := None;
  evidence_source := source;
  learning_signals := signals;
  duration_minutes := None
|}.

(** The same activity as a database row: dated by [created_at]. *)
Definition row (day : string) (source : option string)
    (signals : option LearningSignals) : Activity := {|
  title := Some "Practice session";
  type := Some "code";
  date := None;
  created_at := Some day;
  evidence_source := source;
  learning_signals := signals;
  duration_minutes := Some 25%Z
|}.

Definition corrected_once : option LearningSignals :=
  Some {| error_correction_cycles := Some 1%Z |}.

Definition writing_signals : option LearningSignals :=
  Some {| error_correction_cycles := None |}.

(** Three days, one observed session with an error-correction cycle. *)
Definition at_threshold : list Activity :=
  [ summary "2025-01-03T09:30:00.000Z" (Some "observed_in_proof") corrected_once;
    summary "2025-01-01T18:00:00.000Z" (Some "submitted") None;
    summary "2025-01-02T18:00:00.000Z" (Some "submitted") None ].

(** Three days, two observed sessions, no error-correction cycle. *)
Definition two_observed : list Activity :=
  [ summary "2025-01-03T09:30:00.000Z" (Some "observed_in_proof") writing_signals;
    summary "2025-01-01T18:00:00.000Z" (Some "observed_in_proof") writing_signals;
    summary "2025-01-02T18:00:00.000Z" (Some "submitted") None ].

(** The rows of [at_threshold] before the client renames [created_at]. *)
Definition rows_at_threshold : list Activity :=
  [ row "2025-01-03T09:30:00.000Z" (Some "observed_in_proof") corrected_once;
    row "2025-01-01T18:00:00.000Z" (Some "submitted") None;
    row "2025-01-02T18:00:00.000Z" (Some "submitted") None ].

Definition request (activities : list Activity) : Server.Content := {|
  Server.skill_name := "Python";
  Server.category := "Programming";
  Server.activities := Some activities
|}.

(** The gateway answers 503. *)
Definition unavailable (_ : Server.AiRequest) : Server.FetchReply :=
  Server.Resolved false (Throw "not read").

(** The gateway answers 200 with a message that is not JSON. *)
Definition chatty (_ : Server.AiRequest) : Server.FetchReply :=
  Server.Resolved true
    (Normal (JsObject
       [("choices",
         JsArray [JsObject
           [("message",
             JsObject [("content", JsString "Sure! Here is the summary.")])]])])).

End Examples.

(** ** The rest of the handler's bookkeeping *)

(** The requests a handler sends to the collaborator, in order. *)
Fixpoint requests (h : Server.Handler)
    (collaborator : Server.AiRequest -> Server.FetchReply) : list Server.AiRequest :=
  match h with
  | Server.Respond _ => []
  | Server.Fetch request k => request :: requests (k (collaborator request)) collaborator
  end.

(** The type tags that the loop adds to its set: those present and not empty. *)
Definition typeParts (activities : list Activity) : list string :=
  flat_map (fun a => match type a with
                     | Some t => if negb (String.eqb t "") then [t] else []
                     | None => []
                     end) activities.

(** [getConfidenceLabel] of the ProofCardEnhanced component
    (src/unnamed/part_000), which receives the saved [confidence_score]. *)
Definition getConfidenceLabel (confidence : Q) : string :=
  if negb (Binary64.ltb confidence (Binary64.lit (5 # 10))) then "Developing"
  else if negb (Binary64.ltb confidence (Binary64.lit (3 # 10))) then "Emerging"
  else "Early Evidence".

(** [getRequirementProgress] of the GenerateProofCard component
    (src/unnamed/part_005):
    [(Object.values(locked.requirements_met).filter(Boolean).length / 5) * 100],
    the value of the progress bar of the locked view. *)
Definition fmul (x y : Q) : Q := Binary64.round64 (x * y).

Definition Object_values (r : UnlockRequirements) : list bool :=
  [multiple_days r; multiple_sessions r; observed_evidence r; growth_signal r;
   consistency r].

Definition getRequirementProgress (locked : Server.LockedResponse) : Q :=
  let met :=
    List.length (filter (fun b => b)
                   (Object_values (Server.locked_requirements_met locked))) in
  fmul (Binary64.fdiv (Binary64.of_nat met) (Binary64.lit 5)) (Binary64.lit 100).

(** ** supabase/functions/run-python/index.ts: the run-python handler *)

Module RunPython.

(** How the call to the Piston API ends: [fetch] rejects, or it resolves
    to a response with its [ok] flag, what [text()] gives and what [json()]
    gives. *)
Inductive PistonReply : Type :=
| Rejected (message : string)
| Resolved (ok : bool) (text : Completion string) (json : Completion JsValue).

(** The body of the response: the result of a run (status 200), or one of
    the three error bodies with its status. *)
Inductive Response : Type :=
| Ran (stdout stderr exitCode : JsValue) (success : bool)
| Refused (code : Z) (error stdout stderr : string).

(** The handler as a program over the call it makes; the call carries the
    content of main.py. *)
Inductive Handler : Type :=
| Respond (r : Response)
| Execute (content : string) (k : PistonReply -> Handler).

Fixpoint run (h : Handler) (piston : string -> PistonReply) : Response * list string :=
  match h with
  | Respond r => (r, [])
  | Execute content k =>
      let (r, sent) := run (k (piston content)) piston in
      (r, content :: sent)
  end.

(** [a ?? b] *)
Definition coalesce (a b : JsValue) : JsValue :=
  match a with
  | JsUndefined | JsNull => b
  | _ => a
  end.

(** [v === 0] *)
Definition is_zero (v : JsValue) : bool :=
  match v with
  | JsNumber n => Qeq_bool n 0
  | _ => false
  end.

(** The catch handler's body. *)
Definition caught (errorMessage : string) : Response :=
  Refused 500 errorMessage "" ("Execution error: " ++ errorMessage).

(** The part of the handler after a successful call: the fields of the
    Piston result.  [result.run] throws on a null result; [result.compile]
    is read after it, on a result that is then not null. *)
Definition executed (result : JsValue) : Completion Response :=
  ran <- get result "run" ;;
  let stdout := Js.or (opt_get ran "stdout") (JsString "") in
  let stderr :=
    Js.or (Js.or (opt_get ran "stderr")
                 (opt_get (opt_get result "compile") "stderr")) (JsString "") in
  let exitCode := coalesce (opt_get ran "code") (JsNumber 0) in
  Normal (Ran stdout stderr exitCode (is_zero exitCode && negb (Js.truthy stderr))).

(** The handler of a POST request; [code] is what
    [const { code } = await req.json()] binds, or what it throws. *)
Definition serve (code : Completion JsValue) : Handler :=
  match code with
  | Throw message => Respond (caught message)
  | Normal (JsString (String c rest)) =>
      Execute (String c rest)
        (fun pistonResponse =>
           match pistonResponse with
           | Rejected message => Respond (caught message)
           | Resolved false (Throw message) _ => Respond (caught message)
           | Resolved false (Normal _) _ =>
               Respond (Refused 503 "Code execution service unavailable" ""
                          "The code execution service is temporarily unavailable. Please try again later.")
           | Resolved true _ (Throw message) => Respond (caught message)
           | Resolved true _ (Normal result) =>
               match executed result with
               | Normal r => Respond r
               | Throw message => Respond (caught message)
               end
           end)
  | Normal _ => Respond (Refused 400 "Code is required" "" "No code provided")
  end.

(** [!!data.stderr || !data.success] in [runCode] of the CodeSession
    component, on the body of a 200 response. *)
Definition hadError (stderr : JsValue) (success : bool) : bool :=
  Js.truthy stderr || negb success.

End RunPython.

(** ** src/lib/signals: the coding signal extractor

    [Date.now()] is an argument ([now], in milliseconds); counters are
    integers. *)

Module Coding.

Record CodingSignals := {
  edit_count : nat;
  run_count : nat;
  error_count : nat;
  successful_runs : nat;
  error_correction_cycles : nat;
  time_between_runs_avg_seconds : option Z;
  session_duration_seconds : Z;
  final_code_length : nat
}.

Record CodingSessionState := {
  editCount : nat;
  runCount : nat;
  errorCount : nat;
  successfulRuns : nat;
  errorCorrectionCycles : nat;
  runTimestamps : list Z;
  lastRunHadError : bool;
  sessionStartTime : Z
}.

Definition createInitialCodingState (now : Z) : CodingSessionState := {|
  editCount := 0;
  runCount := 0;
  errorCount := 0;
  successfulRuns := 0;
  errorCorrectionCycles := 0;
  runTimestamps := [];
  lastRunHadError := false;
  sessionStartTime := now
|}.

Definition recordEdit (state : CodingSessionState) : CodingSessionState := {|
  editCount := editCount state + 1;
  runCount := runCount state;
  errorCount := errorCount state;
  successfulRuns := successfulRuns state;
  errorCorrectionCycles := errorCorrectionCycles state;
  runTimestamps := runTimestamps state;
  lastRunHadError := lastRunHadError state;
  sessionStartTime := sessionStartTime state
|}.

Definition recordRun (state : CodingSessionState) (hadError : bool) (now : Z)
  : CodingSessionState := {|
  editCount := editCount state;
  runCount := runCount state + 1;
  runTimestamps := runTimestamps state ++ [now];
  errorCount := if hadError then errorCount state + 1 else errorCount state;
  successfulRuns := if hadError then successfulRuns state else successfulRuns state + 1;
  errorCorrectionCycles :=
    if hadError then errorCorrectionCycles state
    else if lastRunHadError state then errorCorrectionCycles state + 1
         else errorCorrectionCycles state;
  lastRunHadError := hadError;
  sessionStartTime := sessionStartTime state
|}.

(** A timestamp as a number, and the subtraction of numbers. *)
Definition number (z : Z) : Q := Binary64.round64 (inject_Z z).
Definition fsub (x y : Q) : Q := Binary64.round64 (x - y).

(** [Math.floor] and [Math.round] (ties toward plus infinity) of a number,
    as integers. *)
Definition Math_floor (x : Q) : Z := Qfloor x.
Definition Math_round (x : Q) : Z := Qfloor (x + (1 # 2)).

(** The loop [for (let i = 1; i < length; i++) intervals.push(...)]. *)
Fixpoint intervals (timestamps : list Z) : list Q :=
  match timestamps with
  | previous :: (current :: _) as rest =>
      Binary64.fdiv (fsub (number current) (number previous)) (Binary64.lit 1000)
      :: intervals rest
  | _ => []
  end.

Definition extractSignals (state : CodingSessionState) (finalCodeLength : nat) (now : Z)
  : CodingSignals :=
  let sessionDuration :=
    Math_floor (Binary64.fdiv (fsub (number now) (number (sessionStartTime state)))
                  (Binary64.lit 1000)) in
  let avgTimeBetweenRuns :=
    if (1 <? List.length (runTimestamps state))%nat
    then
      let intervals := intervals (runTimestamps state) in
      Some (Math_round
              (Binary64.fdiv (fold_left Binary64.fadd intervals 0%Q)
                 (Binary64.of_nat (List.length intervals))))
    else None in
  {| edit_count := editCount state;
     run_count := runCount state;
     error_count := errorCount state;
     successful_runs := successfulRuns state;
     error_correction_cycles := errorCorrectionCycles state;
     time_between_runs_avg_seconds := avgTimeBetweenRuns;
     session_duration_seconds := sessionDuration;
     final_code_length := finalCodeLength |}.

(** The events of a session, and the state they lead to. *)
Inductive Event : Type :=
| Edit
| Run (hadError : bool) (now : Z).

Definition step (state : CodingSessionState) (e : Event) : CodingSessionState :=
  match e with
  | Edit => recordEdit state
  | Run hadError now => recordRun state hadError now
  end.

Definition replay (start : Z) (events : list Event) : CodingSessionState :=
  fold_left step events (createInitialCodingState start).

(** The outcomes of the runs of a session, in order ([true]: had an error). *)
Definition outcomes (events : list Event) : list bool :=
  flat_map (fun e => match e with
                     | Run hadError _ => [hadError]
                     | Edit => []
                     end) events.

(** The number of runs without error that come right after a run with an
    error; [previous] is the outcome of the run before the list. *)
Fixpoint corrections (previous : bool) (outcomes : list bool) : nat :=
  match outcomes with
  | [] => 0
  | hadError :: rest =>
      (if previous && negb hadError then 1 else 0) + corrections hadError rest
  end.

End Coding.

(** The signals of a coding session as the aggregator reads them off the
    stored activity. *)
Definition storedSignals (signals : Coding.CodingSignals) : LearningSignals := {|
  error_correction_cycles := Some (Z.of_nat (Coding.error_correction_cycles signals))
|}.

(** ** The writing signal extractor

    [recordRevision] reads the text through [countWords],
    [countParagraphs], [countHeadings] (regular expressions over the text
    and the HTML of the editor) and [.length] (UTF-16 code units).  They are
    kept as parameters: what is proved below holds whatever they count. *)

Module Writing.

Record WritingSignals := {
  revision_count : nat;
  paragraph_rewrites : nat;
  structural_changes : nat;
  word_count_changes : list nat;
  time_between_revisions_avg_seconds : option Z;
  session_duration_seconds : Z;
  final_word_count : nat;
  auto_save_count : nat
}.

Record WritingSessionState := {
  revisionCount : nat;
  paragraphRewrites : nat;
  structuralChanges : nat;
  wordCountChanges : list nat;
  revisionTimestamps : list Z;
  autoSaveCount : nat;
  sessionStartTime : Z;
  lastContent : string;
  lastParagraphCount : nat;
  lastHeadingCount : nat
}.

Definition createInitialWritingState (now : Z) : WritingSessionState := {|
  revisionCount := 0;
  paragraphRewrites := 0;
  structuralChanges := 0;
  wordCountChanges := [];
  revisionTimestamps := [];
  autoSaveCount := 0;
  sessionStartTime := now;
  lastContent := "";
  lastParagraphCount := 0;
  lastHeadingCount := 0
|}.

(** [Math.abs(a - b)] on counts. *)
Definition Math_abs_diff (a b : nat) : nat := (a - b) + (b - a).

Definition recordAutoSave (state : WritingSessionState) : WritingSessionState := {|
  revisionCount := revisionCount state;
  paragraphRewrites := paragraphRewrites state;
  structuralChanges := structuralChanges state;
  wordCountChanges := wordCountChanges state;
  revisionTimestamps := revisionTimestamps state;
  autoSaveCount := autoSaveCount state + 1;
  sessionStartTime := sessionStartTime state;
  lastContent := lastContent state;
  lastParagraphCount := lastParagraphCount state;
  lastHeadingCount := lastHeadingCount state
|}.

Section Counters.

Variable countWords : string -> nat.
Variable countParagraphs : string -> nat.
Variable countHeadings : string -> nat.
Variable length : string -> nat.

Definition recordRevision (state : WritingSessionState) (newContent newHtml : string)
    (now : Z) : WritingSessionState :=
  let oldWordCount := countWords (lastContent state) in
  let newWordCount := countWords newContent in
  let wordDiff := Math_abs_diff newWordCount oldWordCount in
  if (wordDiff <? 5)
     && (Math_abs_diff (length newContent) (length (lastContent state)) <? 20)
  then state
  else
    let newParagraphCount := countParagraphs newHtml in
    let newHeadingCount := countHeadings newHtml in
    {| revisionCount := revisionCount state + 1;
       revisionTimestamps := revisionTimestamps state ++ [now];
       wordCountChanges := wordCountChanges state ++ [newWordCount];
       lastContent := newContent;
       lastParagraphCount := newParagraphCount;
       lastHeadingCount := newHeadingCount;
       structuralChanges :=
         if (2 <=? Math_abs_diff newParagraphCount (lastParagraphCount state))
            || negb (newHeadingCount =? lastHeadingCount state)
         then structuralChanges state + 1
         else structuralChanges state;
       paragraphRewrites :=
         if (Math_abs_diff newParagraphCount (lastParagraphCount state) <? 2)
            && (20 <=? wordDiff)
         then paragraphRewrites state + 1
         else paragraphRewrites state;
       autoSaveCount := autoSaveCount state;
       sessionStartTime := sessionStartTime state |}.

Definition extractSignals (state : WritingSessionState) (finalContent : string)
    (now : Z) : WritingSignals :=
  let sessionDuration :=
    Coding.Math_floor
      (Binary64.fdiv
         (Coding.fsub (Coding.number now) (Coding.number (sessionStartTime state)))
         (Binary64.lit 1000)) in
  let avgTimeBetweenRevisions :=
    if (1 <? List.length (revisionTimestamps state))%nat
    then
      let intervals := Coding.intervals (revisionTimestamps state) in
      Some (Coding.Math_round
              (Binary64.fdiv (fold_left Binary64.fadd intervals 0%Q)
                 (Binary64.of_nat (List.length intervals))))
    else None in
  {| revision_count := revisionCount state;
     paragraph_rewrites := paragraphRewrites state;
     structural_changes := structuralChanges state;
     word_count_changes := wordCountChanges state;
     time_between_revisions_avg_seconds := avgTimeBetweenRevisions;
     session_duration_seconds := sessionDuration;
     final_word_count := countWords finalContent;
     auto_save_count := autoSaveCount state |}.

(** The events of a session, and the state they lead to. *)
Inductive Event : Type :=
| Revision (newContent newHtml : string) (now : Z)
| AutoSave.

Definition step (state : WritingSessionState) (e : Event) : WritingSessionState :=
  match e with
  | Revision newContent newHtml now => recordRevision state newContent newHtml now
  | AutoSave => recordAutoSave state
  end.

Definition replay (start : Z) (events : list Event) : WritingSessionState :=
  fold_left step events (createInitialWritingState start).

(** What the counters of a state say about each other. *)
Definition invariant (s : WritingSessionState) : Prop :=
  List.length (wordCountChanges s) = revisionCount s
  /\ List.length (revisionTimestamps s) = revisionCount s
  /\ structuralChanges s <= revisionCount s
  /\ paragraphRewrites s <= revisionCount s
  /\ last (wordCountChanges s) (countWords "") = countWords (lastContent s).

End Counters.

End Writing.

(** The signals of a writing session as the aggregator reads them off the
    stored activity: the object has no [error_correction_cycles]. *)
Definition storedWritingSignals (signals : Writing.WritingSignals) : LearningSignals := {|
  error_correction_cycles := None
|}.

(* ================================================================== *)
(** * Part II: properties                                              *)
(* ================================================================== *)

(** ** Rounding is monotone and idempotent *)

Module Binary64Facts.

Import Binary64.
Local Open Scope Q_scope.

Lemma rne_floor (q : Q) : (Qfloor q <= rne q <= Qfloor q + 1)%Z.
Proof.
  unfold rne. cbv zeta.
  destruct (Qcompare _ _); [destruct (Z.even _)| |]; lia.
Qed.

Lemma rne_mono (p q : Q) : p <= q -> (rne p <= rne q)%Z.
Proof.
  intros Hpq.
  pose proof (Qfloor_resp_le _ _ Hpq) as Hf.
  pose proof (rne_floor p) as Hp. pose proof (rne_floor q) as Hq.
  destruct (Z.eq_dec (Qfloor p) (Qfloor q)) as [E|NE]; [|lia].
  unfold rne in *. cbv zeta in *. rewrite E in *.
  destruct (Qcompare_spec (p - inject_Z (Qfloor q)) (1 # 2)) as [H1|H1|H1];
  destruct (Qcompare_spec (q - inject_Z (Qfloor q)) (1 # 2)) as [H2|H2|H2];
  try destruct (Z.even _); try lia; exfalso; lra.
Qed.

Lemma rne_inject (n : Z) : rne (inject_Z n) = n.
Proof.
  unfold rne. cbv zeta. rewrite Qfloor_Z.
  destruct (Qcompare_spec (inject_Z n - inject_Z n) (1 # 2)) as [H|H|H];
    [exfalso; lra | reflexivity | exfalso; lra].
Qed.

Lemma pow2_pos (k : Z) : 0 < 2 ^ k.
Proof. apply Qpower_0_lt. reflexivity. Qed.

Lemma pow2_succ (k : Z) : 2 ^ (k + 1) == 2 * 2 ^ k.
Proof. rewrite Qpower_plus by discriminate. simpl. ring. Qed.

Lemma pow2_Z (k : Z) : (0 <= k)%Z -> inject_Z (2 ^ k) == 2 ^ k.
Proof. intros. apply (Zpower_Qpower 2 k). assumption. Qed.

Lemma ilog2_spec (x : Q) : 0 < x -> 2 ^ ilog2 x <= x /\ x < 2 ^ (ilog2 x + 1).
Proof.
  intros Hx. unfold ilog2. cbv zeta.
  set (a := Qnum x). set (b := Qden x).
  assert (Ha : (0 < a)%Z).
  { unfold Qlt in Hx. simpl in Hx. subst a. lia. }
  pose proof (Z.log2_spec a Ha) as [La Ua].
  pose proof (Z.log2_spec (Zpos b) (Pos2Z.is_pos b)) as [Lb Ub].
  pose proof (Z.log2_nonneg a) as Na. pose proof (Z.log2_nonneg (Zpos b)) as Nb.
  set (la := Z.log2 a) in *. set (lb := Z.log2 (Zpos b)) in *.
  assert (Hx' : x == inject_Z a / inject_Z (Zpos b)).
  { subst a b. rewrite <- Qmake_Qdiv. destruct x; reflexivity. }
  assert (Hb : 0 < inject_Z (Zpos b)) by reflexivity.
  assert (HLa : 2 ^ la <= inject_Z a).
  { rewrite <- pow2_Z by lia. rewrite <- Zle_Qle. exact La. }
  assert (HUa : inject_Z a < 2 * 2 ^ la).
  { rewrite <- pow2_succ, <- pow2_Z by lia. rewrite <- Zlt_Qlt.
    replace (la + 1)%Z with (Z.succ la) by lia. exact Ua. }
  assert (HLb : 2 ^ lb <= inject_Z (Zpos b)).
  { rewrite <- pow2_Z by lia. rewrite <- Zle_Qle. exact Lb. }
  assert (HUb : inject_Z (Zpos b) < 2 * 2 ^ lb).
  { rewrite <- pow2_succ, <- pow2_Z by lia. rewrite <- Zlt_Qlt.
    replace (lb + 1)%Z with (Z.succ lb) by lia. exact Ub. }
  pose proof (pow2_pos la) as Pla. pose proof (pow2_pos lb) as Plb.
  assert (Hk : 2 ^ (la - lb) * 2 ^ lb == 2 ^ la).
  { rewrite <- Qpower_plus by discriminate. replace (la - lb + lb)%Z with la by lia. reflexivity. }
  pose proof (pow2_pos (la - lb)) as Pk.
  assert (Hxb : x * inject_Z (Zpos b) == inject_Z a).
  { rewrite Hx'. field. intro E. rewrite E in Hb. discriminate Hb. }
  destruct (Qle_bool (2 ^ (la - lb)) x) eqn:Hc.
  - apply Qle_bool_iff in Hc. split; [exact Hc|].
    rewrite pow2_succ.
    apply Qnot_le_lt. intro Hn.
    assert (2 * 2 ^ la <= inject_Z a); [|lra].
    rewrite <- Hxb, <- Hk.
    nra.
  - assert (Hlt : x < 2 ^ (la - lb)).
    { apply Qnot_le_lt. intro Hn. apply Qle_bool_iff in Hn. congruence. }
    replace (la - lb - 1 + 1)%Z with (la - lb)%Z by lia.
    split; [|exact Hlt].
    assert (Hh : 2 * 2 ^ (la - lb - 1) == 2 ^ (la - lb)).
    { rewrite <- pow2_succ. replace (la - lb - 1 + 1)%Z with (la - lb)%Z by lia. reflexivity. }
    apply Qnot_lt_le. intro Hn.
    assert (inject_Z a < 2 ^ la); [|lra].
    rewrite <- Hxb, <- Hk, <- Hh. 
    pose proof (pow2_pos (la - lb - 1)).
    nra.
Qed.

Lemma ilog2_mono (x y : Q) : 0 < x -> x <= y -> (ilog2 x <= ilog2 y)%Z.
Proof.
  intros Hx Hxy.
  destruct (ilog2_spec x Hx) as [Lx _].
  destruct (ilog2_spec y) as [_ Uy]; [lra|].
  assert (H : 2 ^ ilog2 x < 2 ^ (ilog2 y + 1)) by lra.
  apply Qpower_lt_compat_l_inv in H; [lia | reflexivity].
Qed.

Lemma round_pos_eq (x : Q) :
  round_pos x == inject_Z (rne (x / 2 ^ (ilog2 x - 52))) * 2 ^ (ilog2 x - 52).
Proof. unfold round_pos. cbv zeta. apply Qred_correct. Qed.

Lemma pow2_split (e : Z) : 2 ^ e == 2 ^ 52 * 2 ^ (e - 52).
Proof.
  rewrite <- Qpower_plus by discriminate.
  replace (52 + (e - 52))%Z with e by lia. reflexivity.
Qed.

Lemma mantissa_range (x : Q) :
  0 < x -> 2 ^ 52 <= x / 2 ^ (ilog2 x - 52) /\ x / 2 ^ (ilog2 x - 52) <= 2 ^ 53.
Proof.
  intros Hx. destruct (ilog2_spec x Hx) as [L U].
  pose proof (pow2_pos (ilog2 x - 52)) as Pu.
  rewrite pow2_succ, (pow2_split (ilog2 x)) in U.
  rewrite (pow2_split (ilog2 x)) in L.
  set (u := 2 ^ (ilog2 x - 52)) in *.
  assert (E : x / u * u == x) by (field; lra).
  change (2 ^ 53) with (2 * 2 ^ 52).
  split.
  - apply Qnot_lt_le. intro Hn. assert (x / u * u < 2 ^ 52 * u) by nra. lra.
  - apply Qnot_lt_le. intro Hn. assert (2 * 2 ^ 52 * u < x / u * u) by nra. lra.
Qed.

Lemma round_pos_range (x : Q) :
  0 < x -> 2 ^ ilog2 x <= round_pos x /\ round_pos x <= 2 ^ (ilog2 x + 1).
Proof.
  intros Hx. destruct (mantissa_range x Hx) as [L U].
  pose proof (pow2_pos (ilog2 x - 52)) as Pu.
  rewrite round_pos_eq, pow2_succ, (pow2_split (ilog2 x)).
  set (u := 2 ^ (ilog2 x - 52)) in *.
  assert (Lm : inject_Z (2 ^ 52) <= inject_Z (rne (x / u))).
  { rewrite <- Zle_Qle. rewrite <- (rne_inject (2 ^ 52)). apply rne_mono. exact L. }
  assert (Um : inject_Z (rne (x / u)) <= inject_Z (2 ^ 53)).
  { rewrite <- Zle_Qle. rewrite <- (rne_inject (2 ^ 53)). apply rne_mono. exact U. }
  change (inject_Z (2 ^ 52)) with (2 ^ 52) in Lm.
  change (inject_Z (2 ^ 53)) with (2 * 2 ^ 52) in Um.
  split; nra.
Qed.

Lemma round_pos_mono (x y : Q) : 0 < x -> x <= y -> round_pos x <= round_pos y.
Proof.
  intros Hx Hxy.
  assert (Hy : 0 < y) by lra.
  pose proof (ilog2_mono x y Hx Hxy) as He.
  destruct (Z.eq_dec (ilog2 x) (ilog2 y)) as [E|NE].
  - rewrite !round_pos_eq, E.
    pose proof (pow2_pos (ilog2 y - 52)) as Pu.
    set (u := 2 ^ (ilog2 y - 52)) in *.
    assert (Hd : x / u <= y / u).
    { unfold Qdiv. apply Qmult_le_compat_r; [exact Hxy|]. apply Qlt_le_weak, Qinv_lt_0_compat, Pu. }
    apply rne_mono in Hd. rewrite Zle_Qle in Hd. nra.
  - destruct (round_pos_range x Hx) as [_ Ux].
    destruct (round_pos_range y Hy) as [Ly _].
    assert (2 ^ (ilog2 x + 1) <= 2 ^ ilog2 y); [|lra].
    apply Qpower_le_compat_l; [lia | discriminate].
Qed.

Lemma round64_nonneg (x : Q) : 0 <= x -> 0 <= round64 x.
Proof.
  intros Hx. unfold round64.
  destruct (Qcompare_spec x 0) as [H|H|H]; [lra | exfalso; lra |].
  destruct (round_pos_range x H) as [L _].
  pose proof (pow2_pos (ilog2 x)). lra.
Qed.

Lemma round64_mono (x y : Q) : 0 <= x -> x <= y -> round64 x <= round64 y.
Proof.
  intros Hx Hxy. unfold round64 at 1.
  destruct (Qcompare_spec x 0) as [H|H|H].
  - apply round64_nonneg. lra.
  - exfalso; lra.
  - unfold round64. destruct (Qcompare_spec y 0) as [H'|H'|H']; try (exfalso; lra).
    apply round_pos_mono; assumption.
Qed.

Lemma rne_compat (p q : Q) : p == q -> rne p = rne q.
Proof.
  intros E. apply Z.le_antisymm; apply rne_mono; rewrite E; apply Qle_refl.
Qed.

Lemma ilog2_unique (x : Q) (k : Z) :
  2 ^ k <= x -> x < 2 ^ (k + 1) -> ilog2 x = k.
Proof.
  intros L U.
  assert (Hx : 0 < x) by (pose proof (pow2_pos k); lra).
  destruct (ilog2_spec x Hx) as [L' U'].
  assert (H1 : 2 ^ k < 2 ^ (ilog2 x + 1)) by lra.
  assert (H2 : 2 ^ ilog2 x < 2 ^ (k + 1)) by lra.
  apply Qpower_lt_compat_l_inv in H1; [|reflexivity].
  apply Qpower_lt_compat_l_inv in H2; [|reflexivity].
  lia.
Qed.

Lemma round_pos_compat (x y : Q) : 0 < x -> x == y -> round_pos x == round_pos y.
Proof.
  intros Hx E. apply Qle_antisym; apply round_pos_mono; lra.
Qed.

Lemma round_pos_idem (x : Q) : 0 < x -> round_pos (round_pos x) == round_pos x.
Proof.
  intros Hx.
  destruct (mantissa_range x Hx) as [Lq Uq].
  pose proof (pow2_pos (ilog2 x - 52)) as Pu.
  pose proof (round_pos_eq x) as Er.
  set (e := ilog2 x) in *. set (u := 2 ^ (e - 52)) in *.
  set (m := rne (x / u)) in *.
  assert (Lm : (2 ^ 52 <= m)%Z).
  { rewrite <- (rne_inject (2 ^ 52)). apply rne_mono. exact Lq. }
  assert (Um : (m <= 2 ^ 53)%Z).
  { rewrite <- (rne_inject (2 ^ 53)). apply rne_mono. exact Uq. }
  assert (He : 2 ^ e == 2 ^ 52 * u) by apply pow2_split.
  assert (He1 : 2 ^ (e + 1) == 2 * 2 ^ 52 * u) by (rewrite pow2_succ, He; ring).
  assert (LmQ : 2 ^ 52 <= inject_Z m).
  { change (2 ^ 52) with (inject_Z (2 ^ 52)). rewrite <- Zle_Qle. exact Lm. }
  destruct (Z.eq_dec m (2 ^ 53)) as [Em|Nm].
  - (* the significand overflowed to the next binade *)
    assert (Ev : round_pos x == 2 ^ (e + 1)).
    { rewrite Er, He1, Em. change (inject_Z (2 ^ 53)) with (2 * 2 ^ 52). ring. }
    assert (Hl : ilog2 (round_pos x) = (e + 1)%Z).
    { apply ilog2_unique.
      - rewrite Ev. apply Qle_refl.
      - rewrite Ev, (pow2_succ (e + 1)). pose proof (pow2_pos (e + 1)). lra. }
    rewrite (round_pos_eq (round_pos x)), Hl.
    assert (Hu : 2 ^ (e + 1 - 52) == 2 * u).
    { replace (e + 1 - 52)%Z with (e - 52 + 1)%Z by lia. apply pow2_succ. }
    assert (Hq : round_pos x / 2 ^ (e + 1 - 52) == inject_Z (2 ^ 52)).
    { rewrite Hu, Ev, He1. change (inject_Z (2 ^ 52)) with (2 ^ 52). field. lra. }
    rewrite (rne_compat _ _ Hq), rne_inject, Hu, Ev, He1.
    change (inject_Z (2 ^ 52)) with (2 ^ 52). ring.
  - assert (UmQ : inject_Z m + 1 <= 2 * 2 ^ 52).
    { change (2 * 2 ^ 52) with (inject_Z (2 ^ 53)).
      change 1 with (inject_Z 1). rewrite <- inject_Z_plus, <- Zle_Qle. lia. }
    assert (Hl : ilog2 (round_pos x) = e).
    { apply ilog2_unique.
      - rewrite Er, He. nra.
      - rewrite Er, He1. nra. }
    rewrite (round_pos_eq (round_pos x)), Hl. fold u.
    assert (Hq : round_pos x / u == inject_Z m).
    { rewrite Er. field. lra. }
    rewrite (rne_compat _ _ Hq), rne_inject, Er. reflexivity.
Qed.

Lemma round64_zero : round64 0 = 0.
Proof. reflexivity. Qed.

Lemma round64_compat (x y : Q) : 0 <= x -> x == y -> round64 x == round64 y.
Proof.
  intros Hx E. apply Qle_antisym; apply round64_mono; lra.
Qed.

Lemma round64_pos (x : Q) : 0 < x -> round64 x = round_pos x /\ 0 < round_pos x.
Proof.
  intros Hx. unfold round64.
  destruct (Qcompare_spec x 0) as [H|H|H]; try (exfalso; lra).
  split; [reflexivity|].
  destruct (round_pos_range x Hx) as [L _]. pose proof (pow2_pos (ilog2 x)). lra.
Qed.

Lemma round64_idem (x : Q) : 0 <= x -> round64 (round64 x) == round64 x.
Proof.
  intros Hx. destruct (Qle_lt_or_eq _ _ Hx) as [P|Z0].
  - destruct (round64_pos x P) as [E1 P1]. rewrite E1.
    destruct (round64_pos _ P1) as [E2 _]. rewrite E2.
    apply round_pos_idem, P.
  - assert (E : round64 x == round64 0) by (apply round64_compat; [exact Hx | symmetry; exact Z0]).
    rewrite round64_zero in E.
    rewrite (round64_compat _ 0); [rewrite round64_zero; symmetry; exact E | apply round64_nonneg, Hx | exact E].
Qed.

Lemma fadd_nonneg (x y : Q) : 0 <= x -> 0 <= y -> 0 <= fadd x y.
Proof. intros. apply round64_nonneg. lra. Qed.

Lemma fadd_mono (x x' y y' : Q) :
  0 <= x -> 0 <= y -> x <= x' -> y <= y' -> fadd x y <= fadd x' y'.
Proof. intros. apply round64_mono; lra. Qed.

Lemma fadd_zero_r (x : Q) : 0 <= x -> fadd (round64 x) 0 == round64 x.
Proof.
  intros Hx. unfold fadd.
  rewrite (round64_compat (round64 x + 0) (round64 x)).
  - apply round64_idem, Hx.
  - pose proof (round64_nonneg x Hx). lra.
  - ring.
Qed.

Lemma of_nat_nonneg (n : nat) : 0 <= of_nat n.
Proof.
  apply round64_nonneg. change 0 with (inject_Z 0). rewrite <- Zle_Qle. lia.
Qed.

Lemma of_nat_mono (n k : nat) : of_nat n <= of_nat (n + k).
Proof.
  apply round64_mono.
  - change 0 with (inject_Z 0). rewrite <- Zle_Qle. lia.
  - rewrite <- Zle_Qle. lia.
Qed.

Lemma fdiv_nonneg (x y : Q) : 0 <= x -> 0 < y -> 0 <= fdiv x y.
Proof.
  intros Hx Hy. apply round64_nonneg.
  unfold Qdiv. apply Qmult_le_0_compat; [exact Hx|].
  apply Qlt_le_weak, Qinv_lt_0_compat, Hy.
Qed.

Lemma fdiv_mono (x x' y : Q) : 0 <= x -> x <= x' -> 0 < y -> fdiv x y <= fdiv x' y.
Proof.
  intros Hx Hxx Hy.
  assert (Hi : 0 <= / y) by (apply Qlt_le_weak, Qinv_lt_0_compat, Hy).
  apply round64_mono.
  - unfold Qdiv. apply Qmult_le_0_compat; assumption.
  - unfold Qdiv. apply Qmult_le_compat_r; assumption.
Qed.

End Binary64Facts.

(** ** The unlock rules *)

Lemma shouldUnlock_met (r : UnlockRequirements) :
  Server.shouldUnlock r = true <-> forall q, met r q = true.
Proof.
  unfold Server.shouldUnlock. split.
  - intros H q. repeat (apply andb_true_iff in H; destruct H as [H ?]).
    destruct q; assumption.
  - intros H.
    rewrite (H Days : multiple_days r = true), (H Sessions : multiple_sessions r = true),
      (H ObservedEvidence : observed_evidence r = true),
      (H GrowthSignal : growth_signal r = true), (H Consistency : consistency r = true).
    reflexivity.
Qed.

Lemma shouldUnlock_unmeet (q : Requirement) (r : UnlockRequirements) :
  Server.shouldUnlock (unmeet q r) = false.
Proof.
  unfold Server.shouldUnlock.
  destruct q; simpl;
    repeat first [reflexivity | rewrite andb_false_r | rewrite andb_false_l].
Qed.

Lemma client_shouldUnlock (r : UnlockRequirements) :
  Client.shouldUnlock r = Server.shouldUnlock r.
Proof. reflexivity. Qed.

Lemma length_pos_iff {A} (l : list A) : (1 <=? List.length l) = true <-> l <> [].
Proof.
  destruct l; simpl; split; intro H; try reflexivity; try discriminate; congruence.
Qed.

(** C2. [shouldUnlock (evaluateUnlockRequirements metrics)] holds exactly
    when the five requirements hold, each requirement being its threshold
    test on the metrics, and turning any one requirement to false turns the
    decision to false; in the client module and in the edge function alike. *)
Theorem C2_unlock_iff_all_five :
  (forall m : Server.EvidenceMetrics,
     let r := Server.evaluateUnlockRequirements m in
     (multiple_days r = true <-> 3 <= Server.uniqueDays m)
     /\ (multiple_sessions r = true <-> 3 <= Server.sessionCount m)
     /\ (observed_evidence r = true <-> Server.hasObservedEvidence m = true)
     /\ (growth_signal r = true <->
           Server.hasErrorCorrectionCycles m = true \/ 2 <= Server.observedSessionCount m)
     /\ (consistency r = true <->
           Server.activityTypes m <> [] /\ 3 <= Server.sessionCount m)
     /\ (Server.shouldUnlock r = true <-> forall q, met r q = true))
  /\ (forall m : Client.EvidenceMetrics,
     let r := Client.evaluateUnlockRequirements m in
     (multiple_days r = true <-> 3 <= Client.uniqueDays m)
     /\ (multiple_sessions r = true <-> 3 <= Client.sessionCount m)
     /\ (observed_evidence r = true <-> Client.hasObservedEvidence m = true)
     /\ (growth_signal r = true <->
           Client.hasErrorCorrectionCycles m = true \/ 2 <= Client.observedSessionCount m)
     /\ (consistency r = true <->
           Client.activityTypes m <> [] /\ 3 <= Client.sessionCount m)
     /\ (Client.shouldUnlock r = true <-> forall q, met r q = true))
  /\ (forall (r : UnlockRequirements) (q : Requirement),
        Server.shouldUnlock (unmeet q r) = false
        /\ Client.shouldUnlock (unmeet q r) = false).
Proof.
  split; [|split].
  - intros m r. subst r.
    unfold Server.evaluateUnlockRequirements.
    cbn [multiple_days multiple_sessions observed_evidence growth_signal consistency].
    split; [apply Nat.leb_le|]. split; [apply Nat.leb_le|]. split; [reflexivity|].
    split; [rewrite orb_true_iff, Nat.leb_le; reflexivity|].
    split; [rewrite andb_true_iff, length_pos_iff, Nat.leb_le; reflexivity|].
    apply shouldUnlock_met.
  - intros m r. subst r.
    unfold Client.evaluateUnlockRequirements.
    cbn [multiple_days multiple_sessions observed_evidence growth_signal consistency].
    split; [apply Nat.leb_le|]. split; [apply Nat.leb_le|]. split; [reflexivity|].
    split; [rewrite orb_true_iff, Nat.leb_le; reflexivity|].
    split; [rewrite andb_true_iff, length_pos_iff, Nat.leb_le; reflexivity|].
    apply (shouldUnlock_met (Client.evaluateUnlockRequirements m)).
  - intros r q. split; apply shouldUnlock_unmeet.
Qed.

(** ** The confidence score *)

Module ScoreFacts.

Import Binary64 Binary64Facts.
Local Open Scope Q_scope.

(** Closed comparisons of rationals, by evaluation. *)
Ltac qdecide :=
  first [ apply Qle_bool_imp_le; vm_compute; reflexivity
        | apply Qlt_alt; vm_compute; reflexivity ].

Lemma fadd_eq (x y : Q) : fadd x y = round64 (x + y).
Proof. reflexivity. Qed.

Lemma lit_eq (q : Q) : lit q = round64 q.
Proof. reflexivity. Qed.

Lemma lit_zero : lit 0 = 0.
Proof. reflexivity. Qed.

Lemma lit_10_pos : 0 < lit 10. Proof. qdecide. Qed.
Lemma lit_20_pos : 0 < lit 20. Proof. qdecide. Qed.
Lemma lit_5_pos : 0 < lit 5. Proof. qdecide. Qed.
Lemma lit_015_nonneg : 0 <= lit (15 # 100). Proof. qdecide. Qed.
Lemma lit_01_nonneg : 0 <= lit (1 # 10). Proof. qdecide. Qed.
Lemma lit_02_nonneg : 0 <= lit (2 # 10). Proof. qdecide. Qed.
Lemma lit_005_nonneg : 0 <= lit (5 # 100). Proof. qdecide. Qed.
Lemma lit_02_le_06 : lit (2 # 10) <= lit (6 # 10). Proof. qdecide. Qed.

Opaque lit round64 fadd fdiv of_nat Qmin.

Lemma days_term_nonneg (n : nat) :
  0 <= Qmin (fdiv (of_nat n) (lit 10)) (lit (15 # 100)).
Proof.
  apply Q.min_glb; [|exact lit_015_nonneg].
  apply fdiv_nonneg; [apply of_nat_nonneg | exact lit_10_pos].
Qed.

Lemma sessions_term_nonneg (n : nat) :
  0 <= Qmin (fdiv (of_nat n) (lit 20)) (lit (1 # 10)).
Proof.
  apply Q.min_glb; [|exact lit_01_nonneg].
  apply fdiv_nonneg; [apply of_nat_nonneg | exact lit_20_pos].
Qed.

Lemma observed_term_nonneg (n : nat) :
  0 <= Qmin (fdiv (of_nat n) (lit 5)) (lit (1 # 10)).
Proof.
  apply Q.min_glb; [|exact lit_01_nonneg].
  apply fdiv_nonneg; [apply of_nat_nonneg | exact lit_5_pos].
Qed.

Lemma term_mono (n k : nat) (c d : Q) :
  0 < lit c ->
  Qmin (fdiv (of_nat n) (lit c)) (lit d) <= Qmin (fdiv (of_nat (n + k)) (lit c)) (lit d).
Proof.
  intros Hc. apply Q.min_le_compat_r.
  apply fdiv_mono; [apply of_nat_nonneg | apply of_nat_mono | exact Hc].
Qed.

(** Adding a non-negative number to a number does not go below it. *)
Lemma fadd_ge_l (x y : Q) : 0 <= x -> 0 <= y -> round64 x <= fadd (round64 x) y.
Proof.
  intros Hx Hy. rewrite <- (round64_idem x Hx) at 1. rewrite fadd_eq.
  apply round64_mono; [apply round64_nonneg, Hx | lra].
Qed.

Lemma fadd_ge_l' (a b y : Q) : 0 <= a + b -> 0 <= y -> fadd a b <= fadd (fadd a b) y.
Proof. intros H Hy. rewrite (fadd_eq a b). apply fadd_ge_l; assumption. Qed.

(** The partial sums of the score are non-negative. *)
Lemma sum1_nonneg (d : nat) :
  0 <= fadd (lit (2 # 10)) (Qmin (fdiv (of_nat d) (lit 10)) (lit (15 # 100))).
Proof. apply fadd_nonneg; [exact lit_02_nonneg | apply days_term_nonneg]. Qed.

Lemma sum2_nonneg (d s : nat) :
  0 <= fadd (fadd (lit (2 # 10)) (Qmin (fdiv (of_nat d) (lit 10)) (lit (15 # 100))))
            (Qmin (fdiv (of_nat s) (lit 20)) (lit (1 # 10))).
Proof. apply fadd_nonneg; [apply sum1_nonneg | apply sessions_term_nonneg]. Qed.

Lemma sum3_nonneg (d s o : nat) :
  0 <= fadd (fadd (fadd (lit (2 # 10)) (Qmin (fdiv (of_nat d) (lit 10)) (lit (15 # 100))))
                  (Qmin (fdiv (of_nat s) (lit 20)) (lit (1 # 10))))
            (Qmin (fdiv (of_nat o) (lit 5)) (lit (1 # 10))).
Proof. apply fadd_nonneg; [apply sum2_nonneg | apply observed_term_nonneg]. Qed.

Lemma score_monotone (d d' s s' o o' : nat) (e : bool) :
  (d <= d')%nat -> (s <= s')%nat -> (o <= o')%nat ->
  spec_confidence d s o e <= spec_confidence d' s' o' e.
Proof.
  intros Hd Hs Ho.
  replace d' with (d + (d' - d))%nat by lia.
  replace s' with (s + (s' - s))%nat by lia.
  replace o' with (o + (o' - o))%nat by lia.
  unfold spec_confidence.
  apply Q.min_le_compat_r.
  apply fadd_mono.
  - apply sum3_nonneg.
  - destruct e; [exact lit_005_nonneg | rewrite lit_zero; apply Qle_refl].
  - apply fadd_mono.
    + apply sum2_nonneg.
    + apply observed_term_nonneg.
    + apply fadd_mono.
      * apply sum1_nonneg.
      * apply sessions_term_nonneg.
      * apply fadd_mono;
          [exact lit_02_nonneg | apply days_term_nonneg | apply Qle_refl
          | apply term_mono, lit_10_pos].
      * apply term_mono, lit_20_pos.
    + apply term_mono, lit_5_pos.
  - apply Qle_refl.
Qed.

Lemma score_bounds (d s o : nat) (e : bool) :
  lit (2 # 10) <= spec_confidence d s o e /\ spec_confidence d s o e <= lit (6 # 10).
Proof.
  unfold spec_confidence. split; [|apply Q.le_min_r].
  apply Q.min_glb; [|exact lit_02_le_06].
  pose proof (days_term_nonneg d) as T1.
  pose proof (sessions_term_nonneg s) as T2.
  pose proof (observed_term_nonneg o) as T3.
  pose proof (sum1_nonneg d) as P1.
  pose proof (sum2_nonneg d s) as P2.
  pose proof (sum3_nonneg d s o) as P3.
  assert (T4 : 0 <= (if e then lit (5 # 100) else lit 0)).
  { destruct e; [exact lit_005_nonneg | rewrite lit_zero; apply Qle_refl]. }
  set (t1 := Qmin (fdiv (of_nat d) (lit 10)) (lit (15 # 100))) in *.
  set (t2 := Qmin (fdiv (of_nat s) (lit 20)) (lit (1 # 10))) in *.
  set (t3 := Qmin (fdiv (of_nat o) (lit 5)) (lit (1 # 10))) in *.
  set (t4 := if e then lit (5 # 100) else lit 0) in *.
  assert (S1 : lit (2 # 10) <= fadd (lit (2 # 10)) t1).
  { rewrite lit_eq. apply fadd_ge_l; [|exact T1]. apply Qle_bool_imp_le. reflexivity. }
  pose proof lit_02_nonneg as N2.
  set (s1 := fadd (lit (2 # 10)) t1) in *.
  assert (S2 : s1 <= fadd s1 t2) by (apply fadd_ge_l'; [lra | exact T2]).
  set (s2 := fadd s1 t2) in *.
  assert (S3 : s2 <= fadd s2 t3) by (apply fadd_ge_l'; [lra | exact T3]).
  set (s3 := fadd s2 t3) in *.
  assert (S4 : s3 <= fadd s3 t4) by (apply fadd_ge_l'; [lra | exact T4]).
  lra.
Qed.

Lemma server_score_spec (m : Server.EvidenceMetrics) :
  Server.calculateConfidenceScore m ==
  spec_confidence (Server.uniqueDays m) (Server.sessionCount m)
    (Server.observedSessionCount m) (Server.hasErrorCorrectionCycles m).
Proof.
  unfold Server.calculateConfidenceScore, spec_confidence.
  destruct (Server.hasErrorCorrectionCycles m); [reflexivity|].
  apply Q.min_compat; [|reflexivity].
  rewrite lit_zero. symmetry.
  rewrite (fadd_eq (fadd _ _) (Qmin (fdiv (of_nat (Server.observedSessionCount m)) _) _)).
  apply fadd_zero_r.
  pose proof (sum2_nonneg (Server.uniqueDays m) (Server.sessionCount m)).
  pose proof (observed_term_nonneg (Server.observedSessionCount m)).
  lra.
Qed.

Lemma client_score_server (m : Client.EvidenceMetrics) :
  Client.calculateConfidenceScore m =
  Server.calculateConfidenceScore
    {| Server.uniqueDays := Client.uniqueDays m;
       Server.sessionCount := Client.sessionCount m;
       Server.hasObservedEvidence := Client.hasObservedEvidence m;
       Server.observedSessionCount := Client.observedSessionCount m;
       Server.hasErrorCorrectionCycles := Client.hasErrorCorrectionCycles m;
       Server.activityTypes := Client.activityTypes m |}.
Proof. reflexivity. Qed.

End ScoreFacts.

(** C4. [calculateConfidenceScore] is the formula of the specification:
    the base 0.2, the three clamped terms and the bonus for error
    correction, added in this order, and the sum clamped to 0.6; in the
    client module and in the edge function alike. *)
Theorem C4_confidence_formula :
  (forall m : Server.EvidenceMetrics,
     Server.calculateConfidenceScore m ==
     spec_confidence (Server.uniqueDays m) (Server.sessionCount m)
       (Server.observedSessionCount m) (Server.hasErrorCorrectionCycles m))%Q
  /\ (forall m : Client.EvidenceMetrics,
     Client.calculateConfidenceScore m ==
     spec_confidence (Client.uniqueDays m) (Client.sessionCount m)
       (Client.observedSessionCount m) (Client.hasErrorCorrectionCycles m))%Q.
Proof.
  split; intros m.
  - apply ScoreFacts.server_score_spec.
  - rewrite ScoreFacts.client_score_server.
    apply (ScoreFacts.server_score_spec
             {| Server.uniqueDays := Client.uniqueDays m;
                Server.sessionCount := Client.sessionCount m;
                Server.hasObservedEvidence := Client.hasObservedEvidence m;
                Server.observedSessionCount := Client.observedSessionCount m;
                Server.hasErrorCorrectionCycles := Client.hasErrorCorrectionCycles m;
                Server.activityTypes := Client.activityTypes m |}).
Qed.

(** C5. Raising [uniqueDays], [sessionCount] or [observedSessionCount] by
    any amount, the other fields unchanged, does not lower the score, and
    every score lies between the number 0.2 and the number 0.6 (hence in the
    interval [0.2, 0.6] of the rationals); in both modules. *)
Theorem C5_confidence_monotone_and_bounded :
  (forall (d s o k : nat) (obs e : bool) (ty : list string),
     let m := fun d s o =>
       {| Server.uniqueDays := d; Server.sessionCount := s;
          Server.hasObservedEvidence := obs; Server.observedSessionCount := o;
          Server.hasErrorCorrectionCycles := e; Server.activityTypes := ty |} in
     Server.calculateConfidenceScore (m d s o)
       <= Server.calculateConfidenceScore (m (d + k)%nat s o)
     /\ Server.calculateConfidenceScore (m d s o)
       <= Server.calculateConfidenceScore (m d (s + k)%nat o)
     /\ Server.calculateConfidenceScore (m d s o)
       <= Server.calculateConfidenceScore (m d s (o + k)%nat))%Q
  /\ (forall (d s o k : nat) (obs e : bool) (dur : Z) (ty : list string),
     let m := fun d s o =>
       {| Client.uniqueDays := d; Client.sessionCount := s;
          Client.hasObservedEvidence := obs; Client.observedSessionCount := o;
          Client.totalDuration := dur;
          Client.hasErrorCorrectionCycles := e; Client.activityTypes := ty |} in
     Client.calculateConfidenceScore (m d s o)
       <= Client.calculateConfidenceScore (m (d + k)%nat s o)
     /\ Client.calculateConfidenceScore (m d s o)
       <= Client.calculateConfidenceScore (m d (s + k)%nat o)
     /\ Client.calculateConfidenceScore (m d s o)
       <= Client.calculateConfidenceScore (m d s (o + k)%nat))%Q
  /\ (forall m : Server.EvidenceMetrics,
     Binary64.lit (2 # 10) <= Server.calculateConfidenceScore m
     /\ Server.calculateConfidenceScore m <= Binary64.lit (6 # 10)
     /\ 2 # 10 <= Server.calculateConfidenceScore m
     /\ Server.calculateConfidenceScore m <= 6 # 10)%Q
  /\ (forall m : Client.EvidenceMetrics,
     Binary64.lit (2 # 10) <= Client.calculateConfidenceScore m
     /\ Client.calculateConfidenceScore m <= Binary64.lit (6 # 10)
     /\ 2 # 10 <= Client.calculateConfidenceScore m
     /\ Client.calculateConfidenceScore m <= 6 # 10)%Q.
Proof.
  assert (Mono : forall d d' s s' o o' obs e ty,
    d <= d' -> s <= s' -> o <= o' ->
    (Server.calculateConfidenceScore
       {| Server.uniqueDays := d; Server.sessionCount := s;
          Server.hasObservedEvidence := obs; Server.observedSessionCount := o;
          Server.hasErrorCorrectionCycles := e; Server.activityTypes := ty |}
     <= Server.calculateConfidenceScore
       {| Server.uniqueDays := d'; Server.sessionCount := s';
          Server.hasObservedEvidence := obs; Server.observedSessionCount := o';
          Server.hasErrorCorrectionCycles := e; Server.activityTypes := ty |})%Q).
  { intros. rewrite !ScoreFacts.server_score_spec. cbn [Server.uniqueDays
      Server.sessionCount Server.observedSessionCount Server.hasErrorCorrectionCycles].
    apply ScoreFacts.score_monotone; assumption. }
  assert (Bounds : forall m : Server.EvidenceMetrics,
    (Binary64.lit (2 # 10) <= Server.calculateConfidenceScore m
     /\ Server.calculateConfidenceScore m <= Binary64.lit (6 # 10)
     /\ 2 # 10 <= Server.calculateConfidenceScore m
     /\ Server.calculateConfidenceScore m <= 6 # 10)%Q).
  { intros m. rewrite ScoreFacts.server_score_spec.
    destruct (ScoreFacts.score_bounds (Server.uniqueDays m) (Server.sessionCount m)
                (Server.observedSessionCount m) (Server.hasErrorCorrectionCycles m))
      as [L U].
    assert (L0 : (2 # 10 <= Binary64.lit (2 # 10))%Q) by ScoreFacts.qdecide.
    assert (U0 : (Binary64.lit (6 # 10) <= 6 # 10)%Q) by ScoreFacts.qdecide.
    split; [exact L | split; [exact U | split; lra]]. }
  split; [|split; [|split]].
  - intros d s o k obs e ty m. subst m. cbv beta.
    repeat split; apply Mono; lia.
  - intros d s o k obs e dur ty m. subst m. cbv beta.
    rewrite !ScoreFacts.client_score_server.
    cbn [Client.uniqueDays Client.sessionCount Client.hasObservedEvidence
         Client.observedSessionCount Client.hasErrorCorrectionCycles Client.activityTypes].
    repeat split; apply Mono; lia.
  - exact Bounds.
  - intros m. rewrite ScoreFacts.client_score_server. apply Bounds.
Qed.

(** ** The aggregator *)

Lemma fold_left_invariant {A B} (P : A -> Prop) (f : A -> B -> A) (l : list B) (a : A) :
  P a -> (forall a b, P a -> P (f a b)) -> P (fold_left f l a).
Proof.
  intros Ha Hstep. revert a Ha.
  induction l as [|b l IH]; intros a Ha; simpl; [exact Ha|].
  apply IH, Hstep, Ha.
Qed.

(** The flag and the counter of observed sessions move together. *)
Lemma observed_flag_counter (activities : list Activity) :
  Server.hasObservedEvidence (Server.calculateEvidenceMetrics activities)
  = (0 <? Server.observedSessionCount (Server.calculateEvidenceMetrics activities)).
Proof.
  unfold Server.calculateEvidenceMetrics.
  cbn [Server.hasObservedEvidence Server.observedSessionCount].
  apply (fold_left_invariant
           (fun st => Server.seenObservedEvidence st = (0 <? Server.observedCount st))).
  - reflexivity.
  - intros st a H. unfold Server.loopBody.
    cbn [Server.seenObservedEvidence Server.observedCount].
    destruct (isObserved a); [reflexivity | exact H].
Qed.

(** What unlocking forces on the counters. *)
Lemma unlocked_counters (activities : list Activity) :
  let m := Server.calculateEvidenceMetrics activities in
  Server.shouldUnlock (Server.evaluateUnlockRequirements m) = true ->
  3 <= Server.uniqueDays m /\ 3 <= Server.sessionCount m
  /\ 1 <= Server.observedSessionCount m.
Proof.
  intros m H. pose proof (proj1 (shouldUnlock_met _) H) as A.
  pose proof (A Days) as Hd. pose proof (A Sessions) as Hs.
  pose proof (A ObservedEvidence) as Ho.
  cbn [met Server.evaluateUnlockRequirements multiple_days multiple_sessions
       observed_evidence] in Hd, Hs, Ho.
  apply Nat.leb_le in Hd. apply Nat.leb_le in Hs.
  unfold m in Ho. rewrite observed_flag_counter in Ho. apply Nat.ltb_lt in Ho.
  unfold Server.MIN_UNIQUE_DAYS in Hd. unfold Server.MIN_SESSIONS in Hs.
  fold m in Ho. lia.
Qed.

Lemma early_evidence_from (score : Q) :
  (5499999999999999 # 10000000000000000 <= score)%Q ->
  Server.getConfidenceLevel score = "early_evidence".
Proof.
  intros H. unfold Server.getConfidenceLevel, Binary64.ltb.
  assert (H1 : (Binary64.lit (3 # 10) <= 5499999999999999 # 10000000000000000)%Q)
    by ScoreFacts.qdecide.
  assert (H2 : (Binary64.lit (45 # 100) <= 5499999999999999 # 10000000000000000)%Q)
    by ScoreFacts.qdecide.
  assert (E1 : Qle_bool (Binary64.lit (3 # 10)) score = true)
    by (apply Qle_bool_iff; lra).
  assert (E2 : Qle_bool (Binary64.lit (45 # 100)) score = true)
    by (apply Qle_bool_iff; lra).
  rewrite E1, E2. reflexivity.
Qed.

(** C10, as the code has it.  For every activity list that unlocks, the
    score lies between 0.5499999999999999 and 0.6 and its level is
    early_evidence.  (In binary64 the sum 0.2 + 0.15 + 0.1 + 0.1 is one unit
    in the last place below 0.55.) *)
Theorem C10_unlocked_score_is_early_evidence (activities : list Activity) :
  let m := Server.calculateEvidenceMetrics activities in
  Server.shouldUnlock (Server.evaluateUnlockRequirements m) = true ->
  (5499999999999999 # 10000000000000000 <= Server.calculateConfidenceScore m)%Q
  /\ (Server.calculateConfidenceScore m <= 6 # 10)%Q
  /\ Server.getConfidenceLevel (Server.calculateConfidenceScore m) = "early_evidence".
Proof.
  intros m H.
  destruct (unlocked_counters activities H) as [Hd [Hs Ho]]. fold m in Hd, Hs, Ho.
  assert (L : (5499999999999999 # 10000000000000000
               <= Server.calculateConfidenceScore m)%Q).
  { rewrite ScoreFacts.server_score_spec.
    apply Qle_trans with
      (spec_confidence 3 3 1 (Server.hasErrorCorrectionCycles m)).
    - destruct (Server.hasErrorCorrectionCycles m); ScoreFacts.qdecide.
    - apply ScoreFacts.score_monotone; assumption. }
  split; [exact L | split].
  - rewrite ScoreFacts.server_score_spec.
    destruct (ScoreFacts.score_bounds (Server.uniqueDays m) (Server.sessionCount m)
                (Server.observedSessionCount m) (Server.hasErrorCorrectionCycles m))
      as [_ U].
    assert (U0 : (Binary64.lit (6 # 10) <= 6 # 10)%Q) by ScoreFacts.qdecide.
    lra.
  - apply early_evidence_from, L.
Qed.

Lemma C10_witness :
  Server.shouldUnlock
    (Server.evaluateUnlockRequirements
       (Server.calculateEvidenceMetrics Examples.at_threshold)) = true
  /\ Server.getConfidenceLevel
       (Server.calculateConfidenceScore
          (Server.calculateEvidenceMetrics Examples.at_threshold)) = "early_evidence".
Proof.
  split; [reflexivity|].
  apply (C10_unlocked_score_is_early_evidence Examples.at_threshold).
  reflexivity.
Defined.

(** C10 as stated fails: three days, three sessions, two of them observed
    and none with an error-correction cycle unlock the card, and the score
    the code computes is 4953959590107545 / 2^53, below 0.55. *)
Lemma C10_counterexample :
  Server.shouldUnlock
    (Server.evaluateUnlockRequirements
       (Server.calculateEvidenceMetrics Examples.two_observed)) = true
  /\ Server.calculateConfidenceScore
       (Server.calculateEvidenceMetrics Examples.two_observed)
     = (4953959590107545 # 9007199254740992)%Q
  /\ ~ (55 # 100 <= Server.calculateConfidenceScore
                      (Server.calculateEvidenceMetrics Examples.two_observed))%Q.
Proof.
  split; [reflexivity|]. split; [vm_compute; reflexivity|].
  apply Qlt_not_le. ScoreFacts.qdecide.
Qed.

(** ** Client-side preview against the edge function *)

(** The loop variables of the two aggregators, field by field. *)
Lemma loops_agree (activities : list Activity) (c : Client.Locals) (s : Server.Locals) :
  Forall (fun a => Client.dateStr a = Server.dateStr a) activities ->
  Client.uniqueDates c = Server.uniqueDates s ->
  Client.seenObservedEvidence c = Server.seenObservedEvidence s ->
  Client.observedCount c = Server.observedCount s ->
  Client.seenErrorCorrection c = Server.seenErrorCorrection s ->
  Client.typeSet c = Server.typeSet s ->
  let c' := fold_left Client.loopBody activities c in
  let s' := fold_left Server.loopBody activities s in
  Client.uniqueDates c' = Server.uniqueDates s'
  /\ Client.seenObservedEvidence c' = Server.seenObservedEvidence s'
  /\ Client.observedCount c' = Server.observedCount s'
  /\ Client.seenErrorCorrection c' = Server.seenErrorCorrection s'
  /\ Client.typeSet c' = Server.typeSet s'.
Proof.
  intros Hall. revert c s.
  induction Hall as [|a l Ha Hl IH]; intros c s E1 E2 E3 E4 E5; simpl.
  - repeat split; assumption.
  - apply IH; unfold Client.loopBody, Server.loopBody;
      cbn [Client.uniqueDates Client.seenObservedEvidence Client.observedCount
           Client.seenErrorCorrection Client.typeSet
           Server.uniqueDates Server.seenObservedEvidence Server.observedCount
           Server.seenErrorCorrection Server.typeSet].
    + rewrite Ha, E1. reflexivity.
    + rewrite E2. reflexivity.
    + rewrite E3. reflexivity.
    + rewrite E4. reflexivity.
    + rewrite E5. reflexivity.
Qed.

(** A record without [created_at] has the same day on both sides. *)
Lemma wire_shape_agrees (a : Activity) :
  created_at a = None -> Client.dateStr a = Server.dateStr a.
Proof.
  intros H. unfold Client.dateStr, Server.dateStr. rewrite H. reflexivity.
Qed.

(** C6, as the code has it.  On every list of activity records whose day
    is the same for both aggregators (records without [created_at], which
    is the shape the edge function receives), the client module and the
    edge function compute the same metrics, the same five requirements, the
    same decision and the same score. *)
Theorem C6_same_engine_on_wire_records (activities : list Activity) :
  Forall (fun a => Client.dateStr a = Server.dateStr a) activities ->
  let c := Client.calculateEvidenceMetrics activities in
  let s := Server.calculateEvidenceMetrics activities in
  (Client.uniqueDays c = Server.uniqueDays s
   /\ Client.sessionCount c = Server.sessionCount s
   /\ Client.hasObservedEvidence c = Server.hasObservedEvidence s
   /\ Client.observedSessionCount c = Server.observedSessionCount s
   /\ Client.hasErrorCorrectionCycles c = Server.hasErrorCorrectionCycles s
   /\ Client.activityTypes c = Server.activityTypes s)
  /\ Client.evaluateUnlockRequirements c = Server.evaluateUnlockRequirements s
  /\ Client.shouldUnlock (Client.evaluateUnlockRequirements c)
     = Server.shouldUnlock (Server.evaluateUnlockRequirements s)
  /\ Client.calculateConfidenceScore c = Server.calculateConfidenceScore s.
Proof.
  intros Hall c s.
  destruct (loops_agree activities
              {| Client.uniqueDates := []; Client.seenObservedEvidence := false;
                 Client.observedCount := 0; Client.durationSum := 0%Z;
                 Client.seenErrorCorrection := false; Client.typeSet := [] |}
              {| Server.uniqueDates := []; Server.seenObservedEvidence := false;
                 Server.observedCount := 0; Server.seenErrorCorrection := false;
                 Server.typeSet := [] |}
              Hall eq_refl eq_refl eq_refl eq_refl eq_refl)
    as [E1 [E2 [E3 [E4 E5]]]].
  assert (F : Client.uniqueDays c = Server.uniqueDays s
   /\ Client.sessionCount c = Server.sessionCount s
   /\ Client.hasObservedEvidence c = Server.hasObservedEvidence s
   /\ Client.observedSessionCount c = Server.observedSessionCount s
   /\ Client.hasErrorCorrectionCycles c = Server.hasErrorCorrectionCycles s
   /\ Client.activityTypes c = Server.activityTypes s).
  { unfold c, s, Client.calculateEvidenceMetrics, Server.calculateEvidenceMetrics.
    cbn [Client.uniqueDays Client.sessionCount Client.hasObservedEvidence
         Client.observedSessionCount Client.hasErrorCorrectionCycles Client.activityTypes
         Server.uniqueDays Server.sessionCount Server.hasObservedEvidence
         Server.observedSessionCount Server.hasErrorCorrectionCycles Server.activityTypes].
    rewrite E1, E2, E3, E4, E5. repeat split; reflexivity. }
  destruct F as [F1 [F2 [F3 [F4 [F5 F6]]]]].
  assert (R : Client.evaluateUnlockRequirements c = Server.evaluateUnlockRequirements s).
  { unfold Client.evaluateUnlockRequirements, Server.evaluateUnlockRequirements.
    rewrite F1, F2, F3, F4, F5, F6. reflexivity. }
  split; [repeat split; assumption|].
  split; [exact R|]. split; [rewrite R; reflexivity|].
  unfold Client.calculateConfidenceScore, Server.calculateConfidenceScore.
  rewrite F1, F2, F4, F5. reflexivity.
Qed.

Lemma C6_witness :
  Forall (fun a => Client.dateStr a = Server.dateStr a) Examples.at_threshold
  /\ Client.calculateConfidenceScore (Client.calculateEvidenceMetrics Examples.at_threshold)
     = Server.calculateConfidenceScore (Server.calculateEvidenceMetrics Examples.at_threshold).
Proof.
  assert (H : Forall (fun a => Client.dateStr a = Server.dateStr a) Examples.at_threshold)
    by (repeat constructor).
  split; [exact H|].
  apply (C6_same_engine_on_wire_records Examples.at_threshold H).
Defined.

(** C6 as stated fails: on database rows, dated by [created_at], the
    client module counts three days and unlocks while the edge function
    counts none and locks. *)
Lemma C6_counterexample :
  Client.uniqueDays (Client.calculateEvidenceMetrics Examples.rows_at_threshold) = 3
  /\ Server.uniqueDays (Server.calculateEvidenceMetrics Examples.rows_at_threshold) = 0
  /\ Client.shouldUnlock
       (Client.evaluateUnlockRequirements
          (Client.calculateEvidenceMetrics Examples.rows_at_threshold)) = true
  /\ Server.shouldUnlock
       (Server.evaluateUnlockRequirements
          (Server.calculateEvidenceMetrics Examples.rows_at_threshold)) = false
  /\ ~ (Client.calculateConfidenceScore
          (Client.calculateEvidenceMetrics Examples.rows_at_threshold)
        == Server.calculateConfidenceScore
             (Server.calculateEvidenceMetrics Examples.rows_at_threshold))%Q.
Proof.
  split; [reflexivity|]. split; [reflexivity|].
  split; [reflexivity|]. split; [reflexivity|].
  intro E. apply Qeq_alt in E. vm_compute in E. discriminate E.
Qed.

(** The two shapes meet in the deployed flow: the client module on
    database rows (which have no [date]) and the edge function on the
    summaries the client sends for them count the same. *)
Lemma loops_agree_on_summaries (rows : list Activity)
    (c : Client.Locals) (s : Server.Locals) :
  Forall (fun a => date a = None) rows ->
  Client.uniqueDates c = Server.uniqueDates s ->
  Client.seenObservedEvidence c = Server.seenObservedEvidence s ->
  Client.observedCount c = Server.observedCount s ->
  Client.seenErrorCorrection c = Server.seenErrorCorrection s ->
  Client.typeSet c = Server.typeSet s ->
  let c' := fold_left Client.loopBody rows c in
  let s' := fold_left Server.loopBody (map summaryOf rows) s in
  Client.uniqueDates c' = Server.uniqueDates s'
  /\ Client.seenObservedEvidence c' = Server.seenObservedEvidence s'
  /\ Client.observedCount c' = Server.observedCount s'
  /\ Client.seenErrorCorrection c' = Server.seenErrorCorrection s'
  /\ Client.typeSet c' = Server.typeSet s'.
Proof.
  intros Hall. revert c s.
  induction Hall as [|a l Ha Hl IH]; intros c s E1 E2 E3 E4 E5; cbn [map fold_left].
  - repeat split; assumption.
  - apply IH; unfold Client.loopBody, Server.loopBody;
      cbn [Client.uniqueDates Client.seenObservedEvidence Client.observedCount
           Client.seenErrorCorrection Client.typeSet
           Server.uniqueDates Server.seenObservedEvidence Server.observedCount
           Server.seenErrorCorrection Server.typeSet].
    + rewrite E1. unfold Client.dateStr, Server.dateStr, summaryOf. cbn [date created_at].
      rewrite Ha. destruct (created_at a) as [t|]; [|reflexivity].
      cbn [opt_split_T_0 option_map truthy_str].
      destruct (negb (String.eqb (split_T_0 t) "")) eqn:N; [rewrite N|]; reflexivity.
    + rewrite E2. reflexivity.
    + rewrite E3. reflexivity.
    + rewrite E4. reflexivity.
    + rewrite E5. reflexivity.
Qed.

Lemma client_rows_server_summaries (rows : list Activity) :
  Forall (fun a => date a = None) rows ->
  let c := Client.calculateEvidenceMetrics rows in
  let s := Server.calculateEvidenceMetrics (map summaryOf rows) in
  Client.uniqueDays c = Server.uniqueDays s
  /\ Client.sessionCount c = Server.sessionCount s
  /\ Client.hasObservedEvidence c = Server.hasObservedEvidence s
  /\ Client.observedSessionCount c = Server.observedSessionCount s
  /\ Client.hasErrorCorrectionCycles c = Server.hasErrorCorrectionCycles s
  /\ Client.activityTypes c = Server.activityTypes s.
Proof.
  intros Hall c s.
  destruct (loops_agree_on_summaries rows
              {| Client.uniqueDates := []; Client.seenObservedEvidence := false;
                 Client.observedCount := 0; Client.durationSum := 0%Z;
                 Client.seenErrorCorrection := false; Client.typeSet := [] |}
              {| Server.uniqueDates := []; Server.seenObservedEvidence := false;
                 Server.observedCount := 0; Server.seenErrorCorrection := false;
                 Server.typeSet := [] |}
              Hall eq_refl eq_refl eq_refl eq_refl eq_refl)
    as [E1 [E2 [E3 [E4 E5]]]].
  unfold c, s, Client.calculateEvidenceMetrics, Server.calculateEvidenceMetrics.
  cbn [Client.uniqueDays Client.sessionCount Client.hasObservedEvidence
       Client.observedSessionCount Client.hasErrorCorrectionCycles Client.activityTypes
       Server.uniqueDays Server.sessionCount Server.hasObservedEvidence
       Server.observedSessionCount Server.hasErrorCorrectionCycles Server.activityTypes].
  rewrite E1, E2, E3, E4, E5, length_map. repeat split; reflexivity.
Qed.

(** ** Dates: the set of days, sorting, earliest and latest *)

Module DateFacts.

Lemma compare_refl (a : string) : String.compare a a = Eq.
Proof. apply (proj2 (String_as_OT.cmp_eq a a)). reflexivity. Qed.

Lemma leb_refl (a : string) : String.leb a a = true.
Proof. unfold String.leb. rewrite compare_refl. reflexivity. Qed.

Lemma leb_trans (a b c : string) :
  String.leb a b = true -> String.leb b c = true -> String.leb a c = true.
Proof.
  unfold String.leb. intros H1 H2.
  destruct (String.compare a b) eqn:E1; try discriminate H1;
    destruct (String.compare b c) eqn:E2; try discriminate H2.
  - apply String_as_OT.cmp_eq in E1. apply String_as_OT.cmp_eq in E2. subst.
    rewrite compare_refl. reflexivity.
  - apply String_as_OT.cmp_eq in E1. subst. rewrite E2. reflexivity.
  - apply String_as_OT.cmp_eq in E2. subst. rewrite E1. reflexivity.
  - apply String_as_OT.cmp_lt in E1. apply String_as_OT.cmp_lt in E2.
    pose proof (String_as_OT.lt_trans _ _ _ E1 E2) as E3.
    apply String_as_OT.cmp_lt in E3. unfold String_as_OT.cmp in E3.
    rewrite E3. reflexivity.
Qed.

Lemma sort_strongly_sorted (l : list string) :
  StronglySorted (fun x y => String.leb x y = true) (StringSort.sort l).
Proof.
  apply (StringSort.StronglySorted_sort l).
  intros x y z. apply leb_trans.
Qed.

Lemma sorted_head_least (x : string) (l : list string) :
  StronglySorted (fun x y => String.leb x y = true) (x :: l) ->
  forall y, In y (x :: l) -> String.leb x y = true.
Proof.
  intros H y [E|Hy].
  - subst. apply leb_refl.
  - apply StronglySorted_inv in H. destruct H as [_ F].
    rewrite Forall_forall in F. apply F, Hy.
Qed.

Lemma sorted_last_greatest (l : list string) (dflt : string) :
  StronglySorted (fun x y => String.leb x y = true) l ->
  forall y, In y l -> String.leb y (last l dflt) = true.
Proof.
  induction 1 as [|a l Hs IH F]; intros y Hy; [destruct Hy|].
  destruct l as [|b l'].
  - destruct Hy as [E|[]]. subst. apply leb_refl.
  - change (last (a :: b :: l') dflt) with (last (b :: l') dflt).
    destruct Hy as [E|Hy].
    + subst y. rewrite Forall_forall in F.
      apply leb_trans with b; [apply F; left; reflexivity|].
      apply IH. left. reflexivity.
    + apply IH, Hy.
Qed.

Lemma nth_pred_length (l : list string) (dflt : string) :
  l <> [] -> nth (List.length l - 1) l dflt = last l dflt.
Proof.
  induction l as [|a l IH]; intros H; [congruence|].
  destruct l as [|b l']; [reflexivity|].
  change (last (a :: b :: l') dflt) with (last (b :: l') dflt).
  rewrite <- IH by discriminate.
  cbn [List.length]. replace (S (S (List.length l')) - 1) with (S (List.length l')) by lia.
  replace (S (List.length l') - 1) with (List.length l') by lia.
  reflexivity.
Qed.

Lemma last_In (l : list string) (dflt : string) : l <> [] -> In (last l dflt) l.
Proof.
  induction l as [|a l IH]; intros H; [congruence|].
  destruct l as [|b l']; [left; reflexivity|].
  right. apply IH. discriminate.
Qed.

Lemma minimum_spec (d : string) (rest : list string) :
  In (minimum d rest) (d :: rest)
  /\ forall y, In y (d :: rest) -> String.leb (minimum d rest) y = true.
Proof.
  revert d. induction rest as [|x r IH]; intros d.
  - split; [left; reflexivity|]. intros y [E|[]]. subst. apply leb_refl.
  - cbn [minimum]. destruct (IH x) as [Hin Hle].
    destruct (String.leb d (minimum x r)) eqn:E.
    + split; [left; reflexivity|].
      intros y [Ey|Hy]; [subst; apply leb_refl|].
      apply leb_trans with (minimum x r); [exact E | apply Hle, Hy].
    + split; [right; exact Hin|].
      intros y [Ey|Hy]; [|apply Hle, Hy].
      subst y. destruct (String.leb_total d (minimum x r)) as [T|T]; [congruence | exact T].
Qed.

Lemma maximum_spec (d : string) (rest : list string) :
  In (maximum d rest) (d :: rest)
  /\ forall y, In y (d :: rest) -> String.leb y (maximum d rest) = true.
Proof.
  revert d. induction rest as [|x r IH]; intros d.
  - split; [left; reflexivity|]. intros y [E|[]]. subst. apply leb_refl.
  - cbn [maximum]. destruct (IH x) as [Hin Hle].
    destruct (String.leb (maximum x r) d) eqn:E.
    + split; [left; reflexivity|].
      intros y [Ey|Hy]; [subst; apply leb_refl|].
      apply leb_trans with (maximum x r); [apply Hle, Hy | exact E].
    + split; [right; exact Hin|].
      intros y [Ey|Hy]; [|apply Hle, Hy].
      subst y. destruct (String.leb_total d (maximum x r)) as [T|T]; [exact T | congruence].
Qed.

(** The first and the last element of the sorted dates are the earliest
    and the latest date. *)
Lemma sort_first_last (d : string) (rest : list string) (dflt : string) :
  let dates := StringSort.sort (d :: rest) in
  nth 0 dates dflt = minimum d rest
  /\ nth (List.length dates - 1) dates dflt = maximum d rest.
Proof.
  intros dates.
  pose proof (StringSort.Permuted_sort (d :: rest)) as P. fold dates in P.
  pose proof (sort_strongly_sorted (d :: rest)) as S. fold dates in S.
  assert (Hne : dates <> []).
  { intro E. rewrite E in P. apply Permutation_sym, Permutation_nil in P. discriminate P. }
  destruct (minimum_spec d rest) as [Imin Lmin].
  destruct (maximum_spec d rest) as [Imax Lmax].
  split.
  - destruct dates as [|x l] eqn:E; [congruence|]. cbn [nth].
    apply String.leb_antisym.
    + apply (sorted_head_least x l S). apply (Permutation_in _ P), Imin.
    + apply Lmin. apply (Permutation_in _ (Permutation_sym P)). left. reflexivity.
  - rewrite (nth_pred_length dates dflt Hne).
    apply String.leb_antisym.
    + apply Lmax. apply (Permutation_in _ (Permutation_sym P)), last_In, Hne.
    + apply (sorted_last_greatest dates dflt S). apply (Permutation_in _ P), Imax.
Qed.

Lemma sort_length (l : list string) : List.length (StringSort.sort l) = List.length l.
Proof. symmetry. apply Permutation_length, StringSort.Permuted_sort. Qed.

(** The set of days built by the loop. *)
Lemma uniqueDates_fold (l : list Activity) (st : Server.Locals) :
  Server.uniqueDates (fold_left Server.loopBody l st)
  = fold_left (fun s d => Set_add d s) (Server.dateParts l) (Server.uniqueDates st).
Proof.
  revert st. induction l as [|a l IH]; intros st; [reflexivity|].
  cbn [fold_left]. rewrite IH.
  unfold Server.dateParts at 2. cbn [flat_map]. fold (Server.dateParts l).
  rewrite fold_left_app. f_equal.
  unfold Server.loopBody. cbn [Server.uniqueDates].
  destruct (Server.dateStr a) as [d|]; [|reflexivity].
  destruct (negb (String.eqb d "")); reflexivity.
Qed.

Lemma fold_add_In (l s : list string) (x : string) :
  In x (fold_left (fun s d => Set_add d s) l s) <-> In x l \/ In x s.
Proof.
  revert s. induction l as [|d l IH]; intros s; cbn [fold_left].
  - simpl. tauto.
  - rewrite IH. unfold Set_add. rewrite set_add_iff. simpl. intuition congruence.
Qed.

Lemma fold_add_NoDup (l s : list string) :
  NoDup s -> NoDup (fold_left (fun s d => Set_add d s) l s).
Proof.
  revert s. induction l as [|d l IH]; intros s H; cbn [fold_left]; [exact H|].
  apply IH, set_add_nodup, H.
Qed.

(** [uniqueDays] is the number of distinct days. *)
Lemma uniqueDays_distinct (activities : list Activity) :
  Server.uniqueDays (Server.calculateEvidenceMetrics activities)
  = List.length (nodup string_dec (Server.dateParts activities)).
Proof.
  unfold Server.calculateEvidenceMetrics. cbn [Server.uniqueDays].
  rewrite uniqueDates_fold. cbn [Server.uniqueDates].
  apply Permutation_length, NoDup_Permutation.
  - apply fold_add_NoDup. constructor.
  - apply NoDup_nodup.
  - intros x. rewrite fold_add_In, nodup_In. simpl. tauto.
Qed.

Lemma nodup_length_le (l : list string) :
  List.length (nodup string_dec l) <= List.length l.
Proof.
  induction l as [|a l IH]; [apply le_n|].
  cbn [nodup]. destruct (in_dec string_dec a l); cbn [List.length]; lia.
Qed.




End DateFacts.

(** ** The handler *)

Module ServeFacts.

Import Server.

Section Runtime.

Variable JSON_parse : JsValue -> Completion JsValue.
Variable ToString : JsValue -> Completion string.

Local Abbreviation serve := (Server.serve JSON_parse ToString).

(** Without the key the handler answers 500 before it looks at the request. *)
Lemma run_without_key (key : option string) (content : Content)
    (collaborator : AiRequest -> FetchReply) :
  truthy_str key = false ->
  run (serve key content) collaborator
  = (Failure 500 "LOVABLE_API_KEY is not configured", 0).
Proof.
  intros H. unfold Server.serve. rewrite H. reflexivity.
Qed.

(** The locked path returns without a call. *)
Lemma run_locked (key : option string) (content : Content)
    (collaborator : AiRequest -> FetchReply) :
  truthy_str key = true ->
  let metrics := calculateEvidenceMetrics (submitted content) in
  let requirements := evaluateUnlockRequirements metrics in
  shouldUnlock requirements = false ->
  run (serve key content) collaborator
  = (Locked (lockedResponse requirements metrics), 0).
Proof.
  intros H metrics requirements L. unfold Server.serve. rewrite H.
  fold (submitted content). fold metrics. fold requirements.
  rewrite L. reflexivity.
Qed.

(** The unlocked path stops where the body of the request is built: the
    read of the undeclared identifier throws, the catch handler answers, and
    [fetch] is not called. *)
Lemma run_unlockable (key : option string) (content : Content)
    (collaborator : AiRequest -> FetchReply) :
  truthy_str key = true ->
  shouldUnlock (evaluateUnlockRequirements
                  (calculateEvidenceMetrics (submitted content))) = true ->
  run (serve key content) collaborator
  = (Failure 500 "EVIDENCE_EXPLANATION_PROMPT is not defined", 0).
Proof.
  intros H U. unfold Server.serve. rewrite H.
  fold (submitted content). rewrite U. reflexivity.
Qed.

(** The three outcomes of the branch. *)
Lemma run_cases (key : option string) (content : Content)
    (collaborator : AiRequest -> FetchReply) :
  let metrics := calculateEvidenceMetrics (submitted content) in
  let requirements := evaluateUnlockRequirements metrics in
  run (serve key content) collaborator
  = (if negb (truthy_str key)
     then Failure 500 "LOVABLE_API_KEY is not configured"
     else if shouldUnlock requirements
          then Failure 500 "EVIDENCE_EXPLANATION_PROMPT is not defined"
          else Locked (lockedResponse requirements metrics), 0).
Proof.
  intros metrics requirements.
  destruct (truthy_str key) eqn:K; cbn [negb].
  - destruct (shouldUnlock requirements) eqn:U.
    + apply run_unlockable; assumption.
    + apply run_locked; assumption.
  - apply run_without_key, K.
Qed.

End Runtime.

End ServeFacts.

(** C3, as the code has it.  When LOVABLE_API_KEY is missing (undefined or
    empty) the handler throws before it evaluates the rules: whatever the
    request, the response is the 500 error of the catch handler and the
    collaborator is not called. *)
Theorem C3_missing_key_is_an_error
    (JSON_parse : JsValue -> Completion JsValue)
    (ToString : JsValue -> Completion string)
    (content : Server.Content) (collaborator : Server.AiRequest -> Server.FetchReply) :
  Server.run (Server.serve JSON_parse ToString None content) collaborator
  = (Server.Failure 500 "LOVABLE_API_KEY is not configured", 0)
  /\ Server.run (Server.serve JSON_parse ToString (Some "") content) collaborator
     = (Server.Failure 500 "LOVABLE_API_KEY is not configured", 0).
Proof.
  split; apply ServeFacts.run_without_key; reflexivity.
Qed.

(** C3 as stated fails: without the key an empty activity list, which the
    rules lock, and a list that the rules unlock both get the error
    response, not a Locked or an Unlocked payload. *)
Lemma C3_counterexample :
  Server.shouldUnlock
    (Server.evaluateUnlockRequirements (Server.calculateEvidenceMetrics [])) = false
  /\ fst (Server.run (Server.serve Examples.JSON_parse Examples.ToString None
                        (Examples.request [])) Examples.unavailable)
     = Server.Failure 500 "LOVABLE_API_KEY is not configured"
  /\ Server.shouldUnlock
       (Server.evaluateUnlockRequirements
          (Server.calculateEvidenceMetrics Examples.at_threshold)) = true
  /\ fst (Server.run (Server.serve Examples.JSON_parse Examples.ToString None
                        (Examples.request Examples.at_threshold)) Examples.unavailable)
     = Server.Failure 500 "LOVABLE_API_KEY is not configured".
Proof. repeat split; reflexivity. Qed.

(** C1, as the code has it.  Two runs on the same request that differ only
    in the collaborator give the same response, so the unlock decision,
    requirements_met, confidence_score, confidence_level and growth_trend are
    identical across them; whenever the response carries a decision, these
    fields are the ones computed from the activity list alone; and with
    LOVABLE_API_KEY configured a request that the rules lock gets the Locked
    response for every collaborator, without a call. *)
Theorem C1_collaborator_cannot_change_the_decision
    (JSON_parse : JsValue -> Completion JsValue)
    (ToString : JsValue -> Completion string)
    (key : option string) (content : Server.Content)
    (first second : Server.AiRequest -> Server.FetchReply) :
  let activities := submitted content in
  let metrics := Server.calculateEvidenceMetrics activities in
  let requirements := Server.evaluateUnlockRequirements metrics in
  let response := fun collaborator =>
    Server.run (Server.serve JSON_parse ToString key content) collaborator in
  response first = response second
  /\ deterministic_fields (fst (response first))
     = deterministic_fields (fst (response second))
  /\ (forall fields,
        deterministic_fields (fst (response first)) = Some fields ->
        fields = rule_fields activities)
  /\ (truthy_str key = true ->
      Server.shouldUnlock requirements = false ->
      response first = (Server.Locked (Server.lockedResponse requirements metrics), 0)
      /\ snd (response second) = 0).
Proof.
  intros activities metrics requirements response.
  assert (Same : response first = response second).
  { unfold response. rewrite !ServeFacts.run_cases. reflexivity. }
  split; [exact Same|]. split; [rewrite Same; reflexivity|]. split.
  - intros fields. unfold response. rewrite ServeFacts.run_cases. cbn [fst].
    fold activities metrics requirements.
    destruct (truthy_str key); cbn [negb deterministic_fields]; [|discriminate].
    destruct (Server.shouldUnlock requirements) eqn:U;
      cbn [deterministic_fields]; [discriminate|].
    intros E. injection E as <-.
    unfold rule_fields. fold metrics requirements. rewrite U. reflexivity.
  - intros K L. rewrite <- Same. unfold response.
    rewrite (ServeFacts.run_locked JSON_parse ToString key content first K L).
    split; reflexivity.
Qed.

Lemma C1_witness :
  truthy_str (Some "secret") = true
  /\ Server.shouldUnlock
       (Server.evaluateUnlockRequirements
          (Server.calculateEvidenceMetrics
             [Examples.summary "2025-01-01T18:00:00.000Z" (Some "observed_in_proof")
                Examples.corrected_once])) = false
  /\ Server.run
       (Server.serve Examples.JSON_parse Examples.ToString (Some "secret")
          (Examples.request
             [Examples.summary "2025-01-01T18:00:00.000Z" (Some "observed_in_proof")
                Examples.corrected_once])) Examples.chatty
     = (Server.Locked
          (Server.lockedResponse
             (Server.evaluateUnlockRequirements
                (Server.calculateEvidenceMetrics
                   [Examples.summary "2025-01-01T18:00:00.000Z"
                      (Some "observed_in_proof") Examples.corrected_once]))
             (Server.calculateEvidenceMetrics
                [Examples.summary "2025-01-01T18:00:00.000Z"
                   (Some "observed_in_proof") Examples.corrected_once])), 0).
Proof.
  split; [reflexivity|]. split; [reflexivity|].
  exact (proj1
           (proj2 (proj2 (proj2
              (C1_collaborator_cannot_change_the_decision
                 Examples.JSON_parse Examples.ToString (Some "secret")
                 (Examples.request
                    [Examples.summary "2025-01-01T18:00:00.000Z"
                       (Some "observed_in_proof") Examples.corrected_once])
                 Examples.chatty Examples.unavailable)))
              eq_refl eq_refl)).
Defined.

(** C1 as stated fails in its last clause: without the key an activity
    list that the rules lock gets the 500 error, which carries no decision
    and no requirements, not the Locked response. *)
Lemma C1_counterexample :
  Server.shouldUnlock
    (Server.evaluateUnlockRequirements (Server.calculateEvidenceMetrics [])) = false
  /\ Server.run
       (Server.serve Examples.JSON_parse Examples.ToString None
          (Examples.request [])) Examples.unavailable
     = (Server.Failure 500 "LOVABLE_API_KEY is not configured", 0)
  /\ deterministic_fields
       (fst (Server.run
               (Server.serve Examples.JSON_parse Examples.ToString None
                  (Examples.request [])) Examples.unavailable)) = None
  /\ (forall body,
        fst (Server.run
               (Server.serve Examples.JSON_parse Examples.ToString None
                  (Examples.request [])) Examples.unavailable)
        <> Server.Locked body).
Proof.
  split; [reflexivity|]. split; [reflexivity|]. split; [reflexivity|].
  intros body E. discriminate E.
Qed.

(** C7 fails on the code.  With the key configured, every request that the
    rules unlock is answered by the catch handler: status 500 with the
    message of the ReferenceError raised while the body of the request is
    built, and no call to the collaborator.  The fallback responses are not
    reached, whatever the collaborator would answer, and the response does
    not pass [isValidUnlockedResponse]. *)
Theorem C7_fallback_is_not_reached
    (JSON_parse : JsValue -> Completion JsValue)
    (ToString : JsValue -> Completion string)
    (key : option string) (content : Server.Content)
    (collaborator : Server.AiRequest -> Server.FetchReply) :
  truthy_str key = true ->
  Server.shouldUnlock
    (Server.evaluateUnlockRequirements
       (Server.calculateEvidenceMetrics (submitted content))) = true ->
  Server.run (Server.serve JSON_parse ToString key content) collaborator
  = (Server.Failure 500 "EVIDENCE_EXPLANATION_PROMPT is not defined", 0)
  /\ isValidUnlockedResponse
       (fst (Server.run (Server.serve JSON_parse ToString key content) collaborator))
     = false.
Proof.
  intros K U.
  rewrite (ServeFacts.run_unlockable JSON_parse ToString key content collaborator K U).
  split; reflexivity.
Qed.

Lemma C7_witness :
  truthy_str (Some "secret") = true
  /\ Server.shouldUnlock
       (Server.evaluateUnlockRequirements
          (Server.calculateEvidenceMetrics Examples.at_threshold)) = true
  /\ Server.run
       (Server.serve Examples.JSON_parse Examples.ToString (Some "secret")
          (Examples.request Examples.at_threshold)) Examples.unavailable
     = (Server.Failure 500 "EVIDENCE_EXPLANATION_PROMPT is not defined", 0)
  /\ Server.run
       (Server.serve Examples.JSON_parse Examples.ToString (Some "secret")
          (Examples.request Examples.at_threshold)) Examples.chatty
     = (Server.Failure 500 "EVIDENCE_EXPLANATION_PROMPT is not defined", 0).
Proof.
  split; [reflexivity|]. split; [reflexivity|]. split.
  - exact (proj1 (C7_fallback_is_not_reached Examples.JSON_parse Examples.ToString
                    (Some "secret") (Examples.request Examples.at_threshold)
                    Examples.unavailable eq_refl eq_refl)).
  - exact (proj1 (C7_fallback_is_not_reached Examples.JSON_parse Examples.ToString
                    (Some "secret") (Examples.request Examples.at_threshold)
                    Examples.chatty eq_refl eq_refl)).
Defined.




(** Outside unlocked responses the code and the wording part: two dated
    activities on one day give a range from the day to itself. *)
Lemma timeSpan_same_day :
  Server.timeSpan
    [ Examples.summary "2025-01-01T08:00:00.000Z" None None;
      Examples.summary "2025-01-01T20:00:00.000Z" None None ]
  = "2025-01-01 to 2025-01-01".
Proof. reflexivity. Qed.

(** ** The checklist of missing requirements *)

(** C8, as the code has it.  [getMissingRequirements] appends one message
    for each unmet requirement and none for a met one, in the order days,
    sessions, observed evidence, growth signal, consistency.  The days and
    sessions messages state the current count and the threshold 3; the
    other three are fixed sentences with no number in them.  In both
    modules. *)
Theorem C8_missing_requirements_in_order :
  (forall (r : UnlockRequirements) (m : Server.EvidenceMetrics),
     Server.getMissingRequirements r m
     = (if multiple_days r then []
        else [("Evidence spans only " ++ number_text (Server.uniqueDays m)
               ++ " day(s). Need at least 3 distinct days.")%string])
       ++ (if multiple_sessions r then []
           else [("Only " ++ number_text (Server.sessionCount m)
                  ++ " session(s) recorded. Need at least 3 sessions.")%string])
       ++ (if observed_evidence r then []
           else ["No observed learning process evidence. Use a Learning Space to generate process signals."])
       ++ (if growth_signal r then []
           else ["No clear growth signal detected. Continue practicing to demonstrate improvement over time."])
       ++ (if consistency r then []
           else ["Insufficient consistent practice detected across sessions."]))
  /\ (forall (r : UnlockRequirements) (m : Client.EvidenceMetrics),
     Client.getMissingRequirements r m
     = (if multiple_days r then []
        else [("Evidence spans only " ++ number_text (Client.uniqueDays m)
               ++ " day(s). Need at least 3 distinct days.")%string])
       ++ (if multiple_sessions r then []
           else [("Only " ++ number_text (Client.sessionCount m)
                  ++ " session(s) recorded. Need at least 3 sessions.")%string])
       ++ (if observed_evidence r then []
           else ["No observed learning process evidence. Use a Learning Space to generate process signals."])
       ++ (if growth_signal r then []
           else ["No clear growth signal detected. Continue practicing to demonstrate improvement over time."])
       ++ (if consistency r then []
           else ["Insufficient consistent practice detected across sessions."]))
  /\ (forall (r : UnlockRequirements) (m : Server.EvidenceMetrics),
        List.length (Server.getMissingRequirements r m)
        = List.length
            (filter (fun q => negb (met r q))
               [Days; Sessions; ObservedEvidence; GrowthSignal; Consistency]))
  /\ has_digit "No observed learning process evidence. Use a Learning Space to generate process signals." = false
  /\ has_digit "No clear growth signal detected. Continue practicing to demonstrate improvement over time." = false
  /\ has_digit "Insufficient consistent practice detected across sessions." = false.
Proof.
  split; [|split; [|split]].
  - intros [[|] [|] [|] [|] [|]] m; reflexivity.
  - intros [[|] [|] [|] [|] [|]] m; reflexivity.
  - intros [[|] [|] [|] [|] [|]] m; reflexivity.
  - repeat split; reflexivity.
Qed.

(** C8 as stated fails: with observed evidence as the only unmet
    requirement the one message appended has no number in it, neither a
    current value nor a threshold. *)
Lemma C8_counterexample :
  exists message,
    Server.getMissingRequirements
      {| multiple_days := true; multiple_sessions := true;
         observed_evidence := false; growth_signal := true; consistency := true |}
      {| Server.uniqueDays := 3; Server.sessionCount := 3;
         Server.hasObservedEvidence := false; Server.observedSessionCount := 0;
         Server.hasErrorCorrectionCycles := true;
         Server.activityTypes := ["code"] |} = [message]
    /\ Client.getMissingRequirements
         {| multiple_days := true; multiple_sessions := true;
            observed_evidence := false; growth_signal := true; consistency := true |}
         {| Client.uniqueDays := 3; Client.sessionCount := 3;
            Client.hasObservedEvidence := false; Client.observedSessionCount := 0;
            Client.totalDuration := 0%Z; Client.hasErrorCorrectionCycles := true;
            Client.activityTypes := ["code"] |} = [message]
    /\ has_digit message = false.
Proof.
  eexists. split; [reflexivity|]. split; reflexivity.
Qed.

(** ** The rounding model against the primitive floats *)

(** The literals of the program and the score on every combination of
    counters up to 5 have the values the kernel's binary64 arithmetic
    gives. *)
Lemma literals_match_floats :
  same_as_float (Binary64.lit (2 # 10)) 0.2%float = true
  /\ same_as_float (Binary64.lit (15 # 100)) 0.15%float = true
  /\ same_as_float (Binary64.lit (1 # 10)) 0.1%float = true
  /\ same_as_float (Binary64.lit (5 # 100)) 0.05%float = true
  /\ same_as_float (Binary64.lit (6 # 10)) 0.6%float = true
  /\ same_as_float (Binary64.lit (3 # 10)) 0.3%float = true
  /\ same_as_float (Binary64.lit (45 # 100)) 0.45%float = true.
Proof. repeat split; vm_compute; reflexivity. Qed.

(** The sum behind the score of an unlocked list without error
    correction, on the kernel's floats: 0.5499999999999999. *)
Lemma unlocked_sum_in_floats :
  Binary64.of_float (0.2 + 0.15 + 0.1 + 0.1)%float
  = Some (4953959590107545 # 9007199254740992)%Q
  /\ PrimFloat.ltb (0.2 + 0.15 + 0.1 + 0.1) 0.55 = true.
Proof. split; vm_compute; reflexivity. Qed.

Lemma score_matches_floats :
  forallb (fun '(d, s, o, e) =>
             same_as_float (spec_confidence d s o e) (float_confidence d s o e)
             && same_as_float
                  (Server.calculateConfidenceScore
                     {| Server.uniqueDays := d; Server.sessionCount := s;
                        Server.hasObservedEvidence := (0 <? o);
                        Server.observedSessionCount := o;
                        Server.hasErrorCorrectionCycles := e;
                        Server.activityTypes := [] |})
                  (float_confidence d s o e))
    score_grid = true.
Proof. vm_compute. reflexivity. Qed.

(** ** The scenarios of the specification *)

Lemma scenario_empty_input :
  Server.run (Server.serve Examples.JSON_parse Examples.ToString (Some "secret")
                (Examples.request [])) Examples.unavailable
  = (Server.Locked
       (Server.lockedResponse
          {| multiple_days := false; multiple_sessions := false;
             observed_evidence := false; growth_signal := false;
             consistency := false |}
          {| Server.uniqueDays := 0; Server.sessionCount := 0;
             Server.hasObservedEvidence := false; Server.observedSessionCount := 0;
             Server.hasErrorCorrectionCycles := false; Server.activityTypes := [] |}),
     0).
Proof. reflexivity. Qed.

Lemma scenario_at_threshold :
  Server.evaluateUnlockRequirements (Server.calculateEvidenceMetrics Examples.at_threshold)
  = {| multiple_days := true; multiple_sessions := true; observed_evidence := true;
       growth_signal := true; consistency := true |}
  /\ Server.calculateConfidenceScore (Server.calculateEvidenceMetrics Examples.at_threshold)
     = Binary64.lit (6 # 10)
  /\ Server.getConfidenceLevel
       (Server.calculateConfidenceScore
          (Server.calculateEvidenceMetrics Examples.at_threshold)) = "early_evidence".
Proof. repeat split; vm_compute; reflexivity. Qed.

Lemma scenario_level_boundaries :
  Server.getConfidenceLevel (Binary64.lit (29999 # 100000)) = "emerging"
  /\ Server.getConfidenceLevel (Binary64.lit (3 # 10)) = "developing"
  /\ Server.getConfidenceLevel (Binary64.lit (44999 # 100000)) = "developing"
  /\ Server.getConfidenceLevel (Binary64.lit (45 # 100)) = "early_evidence"
  /\ Server.getConfidenceLevel (Binary64.lit (6 # 10)) = "early_evidence".
Proof. repeat split; vm_compute; reflexivity. Qed.

Lemma scenario_two_days_only :
  Server.getMissingRequirements
    {| multiple_days := false; multiple_sessions := true; observed_evidence := true;
       growth_signal := true; consistency := true |}
    {| Server.uniqueDays := 2; Server.sessionCount := 3;
       Server.hasObservedEvidence := true; Server.observedSessionCount := 2;
       Server.hasErrorCorrectionCycles := false; Server.activityTypes := ["code"] |}
  = ["Evidence spans only 2 day(s). Need at least 3 distinct days."].
Proof. reflexivity. Qed.

Lemma scenario_two_sessions_on_two_days :
  Server.getMissingRequirements
    (Server.evaluateUnlockRequirements
       {| Server.uniqueDays := 2; Server.sessionCount := 2;
          Server.hasObservedEvidence := true; Server.observedSessionCount := 2;
          Server.hasErrorCorrectionCycles := false; Server.activityTypes := ["code"] |})
    {| Server.uniqueDays := 2; Server.sessionCount := 2;
       Server.hasObservedEvidence := true; Server.observedSessionCount := 2;
       Server.hasErrorCorrectionCycles := false; Server.activityTypes := ["code"] |}
  = ["Evidence spans only 2 day(s). Need at least 3 distinct days.";
     "Only 2 session(s) recorded. Need at least 3 sessions.";
     "Insufficient consistent practice detected across sessions."].
Proof. reflexivity. Qed.

(* ================================================================== *)
(** * Part III: further properties of the code                          *)
(* ================================================================== *)

(** ** What the aggregator counts *)

Module AggregatorFacts.

Import Server.

Lemma loop_closed_form (l : list Activity) (st : Locals) :
  let st' := fold_left loopBody l st in
  typeSet st' = fold_left (fun s t => Set_add t s) (typeParts l) (typeSet st)
  /\ seenObservedEvidence st' = existsb isObserved l || seenObservedEvidence st
  /\ observedCount st' = List.length (filter isObserved l) + observedCount st
  /\ seenErrorCorrection st' = existsb hasCorrectionCycle l || seenErrorCorrection st.
Proof.
  revert st. induction l as [|a l IH]; intros st; cbn [fold_left].
  - cbn. repeat split; reflexivity.
  - destruct (IH (loopBody st a)) as [E1 [E2 [E3 E4]]]. cbv zeta.
    rewrite E1, E2, E3, E4.
    unfold loopBody.
    cbn [typeSet seenObservedEvidence observedCount seenErrorCorrection
         existsb filter].
    unfold typeParts at 2. cbn [flat_map]. fold (typeParts l).
    rewrite fold_left_app.
    split; [|split; [|split]].
    + f_equal. destruct (type a) as [t|]; [|reflexivity].
      destruct (negb (String.eqb t "")); reflexivity.
    + destruct (isObserved a); [rewrite orb_true_r|]; reflexivity.
    + destruct (isObserved a); cbn [List.length]; lia.
    + destruct (hasCorrectionCycle a); [rewrite orb_true_r|]; reflexivity.
Qed.

Lemma signals_are_observed (a : Activity) :
  hasCorrectionCycle a = true -> isObserved a = true.
Proof.
  unfold hasCorrectionCycle, isObserved.
  destruct (learning_signals a); [intros _; apply orb_true_r | discriminate].
Qed.

Lemma parts_at_most_one {A} (f : Activity -> list A) (l : list Activity) :
  (forall a, List.length (f a) <= 1) -> List.length (flat_map f l) <= List.length l.
Proof.
  intros H. induction l as [|a l IH]; [apply le_n|].
  cbn [flat_map]. rewrite length_app. cbn [List.length]. specialize (H a). lia.
Qed.

Lemma dateParts_length (l : list Activity) :
  List.length (dateParts l) <= List.length l.
Proof.
  apply parts_at_most_one. intros a.
  destruct (dateStr a) as [d|]; [destruct (negb (String.eqb d ""))|]; cbn; lia.
Qed.

Lemma typeParts_length (l : list Activity) :
  List.length (typeParts l) <= List.length l.
Proof.
  apply (parts_at_most_one (fun a => match type a with
                                      | Some t => if negb (String.eqb t "") then [t] else []
                                      | None => []
                                      end)).
  intros a. destruct (type a) as [t|]; [destruct (negb (String.eqb t ""))|]; cbn; lia.
Qed.

Lemma set_length (l : list string) :
  List.length (fold_left (fun s d => Set_add d s) l [])
  = List.length (nodup string_dec l).
Proof.
  apply Permutation_length, NoDup_Permutation.
  - apply DateFacts.fold_add_NoDup. constructor.
  - apply NoDup_nodup.
  - intros x. rewrite DateFacts.fold_add_In, nodup_In. simpl. tauto.
Qed.

End AggregatorFacts.

Lemma aggregate_closed_form (activities : list Activity) :
  let m := Server.calculateEvidenceMetrics activities in
  Server.uniqueDays m
  = List.length (nodup string_dec (Server.dateParts activities))
  /\ Server.sessionCount m = List.length activities
  /\ Server.observedSessionCount m = List.length (filter isObserved activities)
  /\ Server.hasObservedEvidence m = existsb isObserved activities
  /\ Server.hasErrorCorrectionCycles m = existsb hasCorrectionCycle activities
  /\ NoDup (Server.activityTypes m)
  /\ (forall t, In t (Server.activityTypes m) <-> In t (typeParts activities)).
Proof.
  intros m.
  destruct (AggregatorFacts.loop_closed_form activities
              {| Server.uniqueDates := []; Server.seenObservedEvidence := false;
                 Server.observedCount := 0; Server.seenErrorCorrection := false;
                 Server.typeSet := [] |}) as [E1 [E2 [E3 E4]]].
  cbn [Server.typeSet Server.seenObservedEvidence Server.observedCount
       Server.seenErrorCorrection] in E1, E2, E3, E4.
  split; [apply DateFacts.uniqueDays_distinct|].
  split; [reflexivity|].
  unfold m, Server.calculateEvidenceMetrics.
  cbn [Server.observedSessionCount Server.hasObservedEvidence
       Server.hasErrorCorrectionCycles Server.activityTypes].
  rewrite E1, E2, E3, E4, !orb_false_r, Nat.add_0_r.
  split; [reflexivity|]. split; [reflexivity|]. split; [reflexivity|].
  split; [apply DateFacts.fold_add_NoDup; constructor|].
  intros t. rewrite DateFacts.fold_add_In. simpl. tauto.
Qed.

(** X1. What [calculateEvidenceMetrics] computes, without the loop:
    [uniqueDays] is the number of distinct non-empty day parts of the
    dates, [sessionCount] the number of activities, [observedSessionCount]
    the number of observed activities, the two flags say whether some
    activity is observed and whether some activity has an error-correction
    cycle, and [activityTypes] lists each non-empty type tag once. *)
Theorem metrics_closed_form (activities : list Activity) :
  let m := Server.calculateEvidenceMetrics activities in
  Server.uniqueDays m
  = List.length (nodup string_dec (Server.dateParts activities))
  /\ Server.sessionCount m = List.length activities
  /\ Server.observedSessionCount m = List.length (filter isObserved activities)
  /\ Server.hasObservedEvidence m = existsb isObserved activities
  /\ Server.hasErrorCorrectionCycles m = existsb hasCorrectionCycle activities
  /\ NoDup (Server.activityTypes m)
  /\ (forall t, In t (Server.activityTypes m) <-> In t (typeParts activities)).
Proof. exact (aggregate_closed_form activities). Qed.

Lemma aggregate_bounds (activities : list Activity) :
  let m := Server.calculateEvidenceMetrics activities in
  Server.uniqueDays m <= Server.sessionCount m
  /\ Server.observedSessionCount m <= Server.sessionCount m
  /\ List.length (Server.activityTypes m) <= Server.sessionCount m
  /\ Server.hasObservedEvidence m = (1 <=? Server.observedSessionCount m)
  /\ Bool.le (Server.hasErrorCorrectionCycles m) (Server.hasObservedEvidence m).
Proof.
  intros m.
  destruct (aggregate_closed_form activities) as [E1 [E2 [E3 [E4 [E5 [N T]]]]]].
  fold m in E1, E2, E3, E4, E5, N, T.
  split.
  { rewrite E1, E2.
    pose proof (DateFacts.nodup_length_le (Server.dateParts activities)).
    pose proof (AggregatorFacts.dateParts_length activities). lia. }
  split.
  { rewrite E2, E3. apply filter_length_le. }
  split.
  { rewrite E2.
    apply Nat.le_trans with (List.length (typeParts activities));
      [|apply AggregatorFacts.typeParts_length].
    apply NoDup_incl_length; [exact N|]. intros t. apply T. }
  split.
  { unfold m. apply observed_flag_counter. }
  rewrite E4, E5.
  destruct (existsb hasCorrectionCycle activities) eqn:H; [|exact I].
  cbn [Bool.le]. apply existsb_exists in H. destruct H as [a [Ia Ha]].
  apply existsb_exists. exists a. split; [exact Ia|].
  apply AggregatorFacts.signals_are_observed, Ha.
Qed.

(** X2. Bounds that every computed metrics record satisfies: there are no
    more days, observed sessions or type tags than activities; the flag of
    observed evidence is set exactly when the counter of observed sessions is
    positive; and an error-correction cycle is only ever found on an
    observed activity. *)
Theorem metrics_bounds (activities : list Activity) :
  let m := Server.calculateEvidenceMetrics activities in
  Server.uniqueDays m <= Server.sessionCount m
  /\ Server.observedSessionCount m <= Server.sessionCount m
  /\ List.length (Server.activityTypes m) <= Server.sessionCount m
  /\ Server.hasObservedEvidence m = (1 <=? Server.observedSessionCount m)
  /\ Bool.le (Server.hasErrorCorrectionCycles m) (Server.hasObservedEvidence m).
Proof. exact (aggregate_bounds activities). Qed.

(** ** The order of the activities, and adding activities *)

Module OrderFacts.

Lemma filter_length_perm {A} (f : A -> bool) (l l' : list A) :
  Permutation l l' -> List.length (filter f l) = List.length (filter f l').
Proof.
  induction 1 as [|x l l' _ IH|x y l|l l' l'' _ IH1 _ IH2]; cbn [filter].
  - reflexivity.
  - destruct (f x); cbn [List.length]; lia.
  - destruct (f x), (f y); reflexivity.
  - lia.
Qed.

Lemma existsb_perm {A} (f : A -> bool) (l l' : list A) :
  Permutation l l' -> existsb f l = existsb f l'.
Proof.
  intros P. apply eq_true_iff_eq. rewrite !existsb_exists.
  split; intros [x [I H]]; exists x; split; try exact H.
  - apply (Permutation_in _ P), I.
  - apply (Permutation_in _ (Permutation_sym P)), I.
Qed.

Lemma nodup_length_incl (l l' : list string) :
  incl l l' ->
  List.length (nodup string_dec l) <= List.length (nodup string_dec l').
Proof.
  intros H. apply NoDup_incl_length; [apply NoDup_nodup|].
  intros x Hx. apply nodup_In. apply H. apply nodup_In in Hx. exact Hx.
Qed.

Lemma nodup_length_perm (l l' : list string) :
  Permutation l l' ->
  List.length (nodup string_dec l) = List.length (nodup string_dec l').
Proof.
  intros P. apply Nat.le_antisymm; apply nodup_length_incl; intros x Hx.
  - apply (Permutation_in _ P), Hx.
  - apply (Permutation_in _ (Permutation_sym P)), Hx.
Qed.

Lemma types_length (activities : list Activity) :
  List.length (Server.activityTypes (Server.calculateEvidenceMetrics activities))
  = List.length (nodup string_dec (typeParts activities)).
Proof.
  destruct (AggregatorFacts.loop_closed_form activities
              {| Server.uniqueDates := []; Server.seenObservedEvidence := false;
                 Server.observedCount := 0; Server.seenErrorCorrection := false;
                 Server.typeSet := [] |}) as [E1 _].
  unfold Server.calculateEvidenceMetrics. cbn [Server.activityTypes].
  rewrite E1. apply AggregatorFacts.set_length.
Qed.

(** The earliest and the latest date do not depend on the order. *)
Lemma extremes_perm (d d' : string) (rest rest' : list string) :
  Permutation (d :: rest) (d' :: rest') ->
  minimum d rest = minimum d' rest' /\ maximum d rest = maximum d' rest'.
Proof.
  intros P.
  destruct (DateFacts.minimum_spec d rest) as [I1 L1].
  destruct (DateFacts.minimum_spec d' rest') as [I2 L2].
  destruct (DateFacts.maximum_spec d rest) as [J1 U1].
  destruct (DateFacts.maximum_spec d' rest') as [J2 U2].
  split; apply String.leb_antisym.
  - apply L1, (Permutation_in _ (Permutation_sym P)), I2.
  - apply L2, (Permutation_in _ P), I1.
  - apply U2, (Permutation_in _ P), J1.
  - apply U1, (Permutation_in _ (Permutation_sym P)), J2.
Qed.

End OrderFacts.

Lemma timeSpan_by_dates (activities : list Activity) :
  Server.timeSpan activities
  = match Server.dateParts activities with
    | [] => "Recent"
    | [d] => d
    | d :: rest => (minimum d rest ++ " to " ++ maximum d rest)%string
    end.
Proof.
  unfold Server.timeSpan.
  destruct (Server.dateParts activities) as [|d [|x r]]; [reflexivity | reflexivity |].
  destruct (DateFacts.sort_first_last d (x :: r) "undefined") as [F L].
  rewrite F, L.
  assert (G : (1 <? List.length (StringSort.sort (d :: x :: r))) = true).
  { apply Nat.ltb_lt. rewrite DateFacts.sort_length. cbn [List.length]. lia. }
  rewrite G. reflexivity.
Qed.

(** X3. [time_span] read off the code, for every activity list: "Recent"
    when no activity has a non-empty date part, that date when exactly one
    has, and otherwise the earliest and the latest date part joined by
    " to ", also when they are the same day. *)
Theorem timeSpan_cases (activities : list Activity) :
  Server.timeSpan activities
  = match Server.dateParts activities with
    | [] => "Recent"
    | [d] => d
    | d :: rest => (minimum d rest ++ " to " ++ maximum d rest)%string
    end.
Proof. exact (timeSpan_by_dates activities). Qed.

(** X4. The evaluation does not depend on the order in which the
    activities are listed: a permutation of the list has the same counters
    and flags, the same number of type tags, the same five requirements, the
    same decision, the same score and the same [time_span]. *)
Theorem evaluation_ignores_order (activities activities' : list Activity) :
  Permutation activities activities' ->
  let m := Server.calculateEvidenceMetrics activities in
  let m' := Server.calculateEvidenceMetrics activities' in
  Server.uniqueDays m = Server.uniqueDays m'
  /\ Server.sessionCount m = Server.sessionCount m'
  /\ Server.observedSessionCount m = Server.observedSessionCount m'
  /\ Server.hasObservedEvidence m = Server.hasObservedEvidence m'
  /\ Server.hasErrorCorrectionCycles m = Server.hasErrorCorrectionCycles m'
  /\ List.length (Server.activityTypes m) = List.length (Server.activityTypes m')
  /\ Server.evaluateUnlockRequirements m = Server.evaluateUnlockRequirements m'
  /\ Server.shouldUnlock (Server.evaluateUnlockRequirements m)
     = Server.shouldUnlock (Server.evaluateUnlockRequirements m')
  /\ Server.calculateConfidenceScore m = Server.calculateConfidenceScore m'
  /\ Server.timeSpan activities = Server.timeSpan activities'.
Proof.
  intros P m m'.
  destruct (aggregate_closed_form activities) as [E1 [E2 [E3 [E4 [E5 _]]]]].
  destruct (aggregate_closed_form activities') as [F1 [F2 [F3 [F4 [F5 _]]]]].
  fold m in E1, E2, E3, E4, E5. fold m' in F1, F2, F3, F4, F5.
  assert (PD : Permutation (Server.dateParts activities) (Server.dateParts activities'))
    by (apply Permutation_flat_map, P).
  assert (PT : Permutation (typeParts activities) (typeParts activities'))
    by (apply Permutation_flat_map, P).
  assert (G1 : Server.uniqueDays m = Server.uniqueDays m')
    by (rewrite E1, F1; apply OrderFacts.nodup_length_perm, PD).
  assert (G2 : Server.sessionCount m = Server.sessionCount m')
    by (rewrite E2, F2; apply Permutation_length, P).
  assert (G3 : Server.observedSessionCount m = Server.observedSessionCount m')
    by (rewrite E3, F3; apply OrderFacts.filter_length_perm, P).
  assert (G4 : Server.hasObservedEvidence m = Server.hasObservedEvidence m')
    by (rewrite E4, F4; apply OrderFacts.existsb_perm, P).
  assert (G5 : Server.hasErrorCorrectionCycles m = Server.hasErrorCorrectionCycles m')
    by (rewrite E5, F5; apply OrderFacts.existsb_perm, P).
  assert (G6 : List.length (Server.activityTypes m)
               = List.length (Server.activityTypes m')).
  { unfold m, m'. rewrite !OrderFacts.types_length.
    apply OrderFacts.nodup_length_perm, PT. }
  assert (R : Server.evaluateUnlockRequirements m = Server.evaluateUnlockRequirements m').
  { unfold Server.evaluateUnlockRequirements. rewrite G1, G2, G3, G4, G5, G6.
    reflexivity. }
  repeat (split; [assumption|]).
  split; [rewrite R; reflexivity|].
  split.
  { unfold Server.calculateConfidenceScore. rewrite G1, G2, G3, G5. reflexivity. }
  rewrite !timeSpan_by_dates.
  destruct (Server.dateParts activities) as [|d [|x r]] eqn:D;
    destruct (Server.dateParts activities') as [|d' [|x' r']] eqn:D';
    try reflexivity;
    try (apply Permutation_length in PD; cbn [List.length] in PD; lia).
  - apply Permutation_length_1 in PD. exact PD.
  - destruct (OrderFacts.extremes_perm d d' (x :: r) (x' :: r') PD) as [A B].
    rewrite A, B. reflexivity.
Qed.

Lemma evaluation_ignores_order_witness :
  Permutation Examples.at_threshold (rev Examples.at_threshold)
  /\ Server.timeSpan Examples.at_threshold = Server.timeSpan (rev Examples.at_threshold).
Proof.
  assert (P : Permutation Examples.at_threshold (rev Examples.at_threshold))
    by apply Permutation_rev.
  split; [exact P|].
  apply (evaluation_ignores_order _ _ P).
Defined.

Lemma bonus_raises_score (d s o : nat) :
  (spec_confidence d s o false <= spec_confidence d s o true)%Q.
Proof.
  unfold spec_confidence. apply Q.min_le_compat_r.
  apply Binary64Facts.fadd_mono.
  - apply ScoreFacts.sum3_nonneg.
  - rewrite ScoreFacts.lit_zero. apply Qle_refl.
  - apply Qle_refl.
  - rewrite ScoreFacts.lit_zero. exact ScoreFacts.lit_005_nonneg.
Qed.

(** X5. More evidence never takes anything away: when activities are
    added to a list, every counter stays or grows, every requirement that
    was met stays met, a list that unlocked still unlocks, and the score does
    not go down. *)
Theorem more_activities_never_lock (activities more : list Activity) :
  let m := Server.calculateEvidenceMetrics activities in
  let m' := Server.calculateEvidenceMetrics (activities ++ more) in
  Server.uniqueDays m <= Server.uniqueDays m'
  /\ Server.sessionCount m <= Server.sessionCount m'
  /\ Server.observedSessionCount m <= Server.observedSessionCount m'
  /\ (forall q, Bool.le (met (Server.evaluateUnlockRequirements m) q)
                        (met (Server.evaluateUnlockRequirements m') q))
  /\ Bool.le (Server.shouldUnlock (Server.evaluateUnlockRequirements m))
             (Server.shouldUnlock (Server.evaluateUnlockRequirements m'))
  /\ (Server.calculateConfidenceScore m <= Server.calculateConfidenceScore m')%Q.
Proof.
  intros m m'.
  destruct (aggregate_closed_form activities) as [E1 [E2 [E3 [E4 [E5 _]]]]].
  destruct (aggregate_closed_form (activities ++ more)) as [F1 [F2 [F3 [F4 [F5 _]]]]].
  fold m in E1, E2, E3, E4, E5. fold m' in F1, F2, F3, F4, F5.
  assert (G1 : Server.uniqueDays m <= Server.uniqueDays m').
  { rewrite E1, F1. apply OrderFacts.nodup_length_incl.
    unfold Server.dateParts. rewrite flat_map_app. apply incl_appl, incl_refl. }
  assert (G2 : Server.sessionCount m <= Server.sessionCount m')
    by (rewrite E2, F2, length_app; lia).
  assert (G3 : Server.observedSessionCount m <= Server.observedSessionCount m')
    by (rewrite E3, F3, filter_app, length_app; lia).
  assert (G4 : Bool.le (Server.hasObservedEvidence m) (Server.hasObservedEvidence m')).
  { rewrite E4, F4, existsb_app.
    destruct (existsb isObserved activities); [reflexivity | exact I]. }
  assert (G5 : Bool.le (Server.hasErrorCorrectionCycles m)
                       (Server.hasErrorCorrectionCycles m')).
  { rewrite E5, F5, existsb_app.
    destruct (existsb hasCorrectionCycle activities); [reflexivity | exact I]. }
  assert (G6 : List.length (Server.activityTypes m)
               <= List.length (Server.activityTypes m')).
  { unfold m, m'. rewrite !OrderFacts.types_length.
    apply OrderFacts.nodup_length_incl.
    unfold typeParts. rewrite flat_map_app. apply incl_appl, incl_refl. }
  assert (R : forall q, Bool.le (met (Server.evaluateUnlockRequirements m) q)
                                (met (Server.evaluateUnlockRequirements m') q)).
  { intros q.
    destruct (met (Server.evaluateUnlockRequirements m) q) eqn:H; [|exact I].
    cbn [Bool.le].
    destruct q;
      cbn [met Server.evaluateUnlockRequirements multiple_days multiple_sessions
           observed_evidence growth_signal consistency] in H |- *;
      unfold Server.MIN_UNIQUE_DAYS, Server.MIN_SESSIONS in *.
    - apply Nat.leb_le in H. apply Nat.leb_le. lia.
    - apply Nat.leb_le in H. apply Nat.leb_le. lia.
    - rewrite H in G4. exact G4.
    - apply orb_true_iff in H. apply orb_true_iff. destruct H as [H|H].
      + left. rewrite H in G5. exact G5.
      + right. apply Nat.leb_le in H. apply Nat.leb_le. lia.
    - apply andb_true_iff in H. destruct H as [H1 H2].
      apply Nat.leb_le in H1. apply Nat.leb_le in H2.
      apply andb_true_iff. split; apply Nat.leb_le; lia. }
  split; [exact G1|]. split; [exact G2|]. split; [exact G3|]. split; [exact R|].
  split.
  { destruct (Server.shouldUnlock (Server.evaluateUnlockRequirements m)) eqn:U; [|exact I].
    cbn [Bool.le]. apply shouldUnlock_met. intros q.
    pose proof (proj1 (shouldUnlock_met _) U q) as Hq.
    specialize (R q). rewrite Hq in R. exact R. }
  rewrite !ScoreFacts.server_score_spec.
  destruct (Server.hasErrorCorrectionCycles m) eqn:C.
  - cbn [Bool.le] in G5. rewrite G5.
    apply ScoreFacts.score_monotone; assumption.
  - apply Qle_trans with
      (spec_confidence (Server.uniqueDays m') (Server.sessionCount m')
         (Server.observedSessionCount m') false).
    + apply ScoreFacts.score_monotone; assumption.
    + destruct (Server.hasErrorCorrectionCycles m');
        [apply bonus_raises_score | apply Qle_refl].
Qed.

(** X6. On computed metrics two of the five requirements follow from the
    others: the card unlocks exactly when there are three distinct days, a
    growth signal, and at least one activity with a type tag.  In
    particular a list of fewer than three activities never unlocks. *)
Theorem unlock_criterion (activities : list Activity) :
  let m := Server.calculateEvidenceMetrics activities in
  let r := Server.evaluateUnlockRequirements m in
  (Server.shouldUnlock r = true <->
     3 <= Server.uniqueDays m /\ growth_signal r = true /\ Server.activityTypes m <> [])
  /\ Bool.le (multiple_days r) (multiple_sessions r)
  /\ Bool.le (growth_signal r) (observed_evidence r)
  /\ (List.length activities < 3 -> Server.shouldUnlock r = false).
Proof.
  intros m r.
  destruct (aggregate_bounds activities) as [B1 [B2 [B3 [B4 B5]]]].
  fold m in B1, B2, B3, B4, B5.
  assert (D : multiple_days r = true <-> 3 <= Server.uniqueDays m) by apply Nat.leb_le.
  assert (S : multiple_sessions r = true <-> 3 <= Server.sessionCount m)
    by apply Nat.leb_le.
  assert (DS : Bool.le (multiple_days r) (multiple_sessions r)).
  { unfold r. cbn [Server.evaluateUnlockRequirements multiple_days multiple_sessions].
    unfold Server.MIN_UNIQUE_DAYS, Server.MIN_SESSIONS.
    destruct (3 <=? Server.uniqueDays m) eqn:H; [|exact I]. cbn [Bool.le].
    apply Nat.leb_le in H. apply Nat.leb_le. lia. }
  assert (GO : Bool.le (growth_signal r) (observed_evidence r)).
  { unfold r. cbn [Server.evaluateUnlockRequirements growth_signal observed_evidence].
    destruct (Server.hasErrorCorrectionCycles m || (2 <=? Server.observedSessionCount m))
      eqn:H; [|exact I].
    cbn [Bool.le]. apply orb_true_iff in H. destruct H as [H|H].
    - rewrite H in B5. exact B5.
    - rewrite B4. apply Nat.leb_le in H. apply Nat.leb_le. lia. }
  assert (C : consistency r = true <->
              Server.activityTypes m <> [] /\ 3 <= Server.sessionCount m).
  { unfold r. cbn [Server.evaluateUnlockRequirements consistency].
    rewrite andb_true_iff, length_pos_iff, Nat.leb_le. reflexivity. }
  assert (Crit : Server.shouldUnlock r = true <->
     3 <= Server.uniqueDays m /\ growth_signal r = true /\ Server.activityTypes m <> []).
  { rewrite shouldUnlock_met. split.
    - intros H. split; [apply D, (H Days)|].
      split; [apply (H GrowthSignal)|]. apply C, (H Consistency).
    - intros [H1 [H2 H3]] q.
      assert (M : multiple_days r = true) by (apply D, H1).
      assert (N : multiple_sessions r = true) by (rewrite M in DS; exact DS).
      destruct q; cbn [met]; try assumption.
      + rewrite H2 in GO. exact GO.
      + apply C. split; [exact H3 | apply S, N]. }
  split; [exact Crit|]. split; [exact DS|]. split; [exact GO|].
  intros L. apply not_true_is_false. intros U.
  apply Crit in U. destruct U as [U _].
  assert (Server.sessionCount m = List.length activities) by reflexivity. lia.
Qed.

Lemma unlock_criterion_witness :
  List.length [Examples.summary "2025-01-01T18:00:00.000Z" None None] < 3
  /\ Server.shouldUnlock
       (Server.evaluateUnlockRequirements
          (Server.calculateEvidenceMetrics
             [Examples.summary "2025-01-01T18:00:00.000Z" None None])) = false.
Proof.
  assert (L : List.length [Examples.summary "2025-01-01T18:00:00.000Z" None None] < 3)
    by (cbn; lia).
  split; [exact L|].
  apply (unlock_criterion [Examples.summary "2025-01-01T18:00:00.000Z" None None]), L.
Defined.

(** X7. The checklist is empty exactly when the card unlocks: a locked
    response always names at least one missing requirement, and the number
    of its messages is the number of unmet requirements. *)
Theorem missing_empty_iff_unlocked (r : UnlockRequirements) (m : Server.EvidenceMetrics) :
  (Server.getMissingRequirements r m = [] <-> Server.shouldUnlock r = true)
  /\ List.length (Server.getMissingRequirements r m)
     + List.length (filter (met r)
                      [Days; Sessions; ObservedEvidence; GrowthSignal; Consistency])
     = 5.
Proof.
  destruct r as [[|] [|] [|] [|] [|]]; cbn; split;
    try reflexivity; split; intros H; try reflexivity; discriminate H.
Qed.

(** ** The handler, for every request *)

(** X8. Which response the generate_proof_card branch gives, for every
    key, request and collaborator: the Locked response exactly when the key
    is set and the rules lock; the 500 error of the key guard exactly when
    the key is missing; the 500 error of the ReferenceError exactly when the
    key is set and the rules unlock.  The handler never answers Unlocked and
    never calls the collaborator. *)
Theorem response_kinds
    (JSON_parse : JsValue -> Completion JsValue)
    (ToString : JsValue -> Completion string)
    (key : option string) (content : Server.Content)
    (collaborator : Server.AiRequest -> Server.FetchReply) :
  let metrics := Server.calculateEvidenceMetrics (submitted content) in
  let requirements := Server.evaluateUnlockRequirements metrics in
  let outcome := Server.run (Server.serve JSON_parse ToString key content) collaborator in
  (fst outcome = Server.Locked (Server.lockedResponse requirements metrics) <->
     truthy_str key = true /\ Server.shouldUnlock requirements = false)
  /\ (fst outcome = Server.Failure 500 "LOVABLE_API_KEY is not configured" <->
        truthy_str key = false)
  /\ (fst outcome = Server.Failure 500 "EVIDENCE_EXPLANATION_PROMPT is not defined" <->
        truthy_str key = true /\ Server.shouldUnlock requirements = true)
  /\ (forall body, fst outcome <> Server.Unlocked body)
  /\ (forall body, fst outcome = Server.Locked body ->
                   body = Server.lockedResponse requirements metrics)
  /\ snd outcome = 0
  /\ requests (Server.serve JSON_parse ToString key content) collaborator = [].
Proof.
  intros metrics requirements outcome.
  assert (Q : requests (Server.serve JSON_parse ToString key content) collaborator = []).
  { unfold Server.serve. destruct (truthy_str key); [|reflexivity]. cbn [negb].
    destruct (Server.shouldUnlock _); reflexivity. }
  unfold outcome. rewrite ServeFacts.run_cases. fold metrics requirements.
  destruct (truthy_str key); cbn [negb fst snd].
  - destruct (Server.shouldUnlock requirements).
    + split; [split; [intros E; discriminate E | intros [_ E]; discriminate E]|].
      split; [split; intros E; discriminate E|].
      split; [split; [intros _; split; reflexivity | reflexivity]|].
      split; [intros body E; discriminate E|].
      split; [intros body E; discriminate E|].
      split; [reflexivity | exact Q].
    + split; [split; [intros _; split; reflexivity | reflexivity]|].
      split; [split; intros E; discriminate E|].
      split; [split; [intros E; discriminate E | intros [_ E]; discriminate E]|].
      split; [intros body E; discriminate E|].
      split; [intros body E; injection E as <-; reflexivity|].
      split; [reflexivity | exact Q].
  - split; [split; [intros E; discriminate E | intros [E _]; discriminate E]|].
    split; [split; reflexivity|].
    split; [split; [intros E; discriminate E | intros [E _]; discriminate E]|].
    split; [intros body E; discriminate E|].
    split; [intros body E; discriminate E|].
    split; [reflexivity | exact Q].
Qed.

Lemma unlocked_score_floor (activities : list Activity) :
  let m := Server.calculateEvidenceMetrics activities in
  Server.shouldUnlock (Server.evaluateUnlockRequirements m) = true ->
  (5499999999999999 # 10000000000000000 <= Server.calculateConfidenceScore m)%Q.
Proof.
  intros m U.
  destruct (unlocked_counters activities U) as [Hd [Hs Ho]]. fold m in Hd, Hs, Ho.
  rewrite ScoreFacts.server_score_spec.
  apply Qle_trans with (spec_confidence 3 3 1 (Server.hasErrorCorrectionCycles m)).
  - destruct (Server.hasErrorCorrectionCycles m); ScoreFacts.qdecide.
  - apply ScoreFacts.score_monotone; assumption.
Qed.

(** X12. The label on a saved card: for the score of any activity list
    that unlocks, [getConfidenceLabel] of the card component is
    "Developing", its top band; the bands "Emerging" and "Early Evidence" of
    that component are never shown for a score the engine gave. *)
Theorem card_label_of_unlocked (activities : list Activity) :
  let m := Server.calculateEvidenceMetrics activities in
  Server.shouldUnlock (Server.evaluateUnlockRequirements m) = true ->
  getConfidenceLabel (Server.calculateConfidenceScore m) = "Developing".
Proof.
  intros m U. pose proof (unlocked_score_floor activities U) as L. fold m in L.
  unfold getConfidenceLabel, Binary64.ltb.
  assert (H : (Binary64.lit (5 # 10) <= 5499999999999999 # 10000000000000000)%Q)
    by ScoreFacts.qdecide.
  assert (E : Qle_bool (Binary64.lit (5 # 10)) (Server.calculateConfidenceScore m) = true)
    by (apply Qle_bool_iff; lra).
  rewrite E. reflexivity.
Qed.

Lemma card_label_of_unlocked_witness :
  Server.shouldUnlock
    (Server.evaluateUnlockRequirements
       (Server.calculateEvidenceMetrics Examples.two_observed)) = true
  /\ getConfidenceLabel
       (Server.calculateConfidenceScore
          (Server.calculateEvidenceMetrics Examples.two_observed)) = "Developing".
Proof.
  split; [reflexivity|].
  apply (card_label_of_unlocked Examples.two_observed). reflexivity.
Defined.

(** ** The run-python handler *)

(** X13. The handler calls the execution service only for a request whose
    [code] is a non-empty string, once, with that string as the program;
    any other value of [code] is answered 400 without a call. *)
Theorem piston_called_only_with_code (code : Completion JsValue)
    (piston : string -> RunPython.PistonReply) :
  snd (RunPython.run (RunPython.serve code) piston)
  = match code with
    | Normal (JsString (String c rest)) => [String c rest]
    | _ => []
    end
  /\ match code with
     | Normal (JsString (String _ _)) => True
     | Normal _ =>
         fst (RunPython.run (RunPython.serve code) piston)
         = RunPython.Refused 400 "Code is required" "" "No code provided"
     | Throw message =>
         fst (RunPython.run (RunPython.serve code) piston)
         = RunPython.Refused 500 message "" ("Execution error: " ++ message)
     end.
Proof.
  destruct code as [v|message]; [|split; reflexivity].
  destruct v as [| | | |s| |]; try (split; reflexivity).
  destruct s as [|c rest]; [split; reflexivity|].
  split; [|exact I].
  cbn [RunPython.serve RunPython.run].
  destruct (piston (String c rest)) as [msg|[|] text json]; cbn [RunPython.run snd].
  - reflexivity.
  - destruct json as [result|msg]; [|reflexivity].
    destruct (RunPython.executed result); reflexivity.
  - destruct text; reflexivity.
Qed.

(** X14. What a result of a run says: [success] is true exactly when the
    exit code is the number 0 (Piston's [run.code], or 0 when it is absent)
    and there is no error output from the run or the compilation;
    [stdout] and [stderr] are never missing (an absent or empty output is the
    empty string), the exit code is never null, and the client's
    [hadError] is the negation of [success]. *)
Theorem success_means_clean_exit (code : Completion JsValue)
    (piston : string -> RunPython.PistonReply)
    (stdout stderr exitCode : JsValue) (success : bool) :
  fst (RunPython.run (RunPython.serve code) piston)
  = RunPython.Ran stdout stderr exitCode success ->
  (success = true <-> RunPython.is_zero exitCode = true /\ stderr = JsString "")
  /\ (Js.truthy stdout = true \/ stdout = JsString "")
  /\ (Js.truthy stderr = true \/ stderr = JsString "")
  /\ nullish exitCode = false
  /\ RunPython.hadError stderr success = negb success.
Proof.
  intros H.
  assert (E : exists result, RunPython.executed result
                             = Normal (RunPython.Ran stdout stderr exitCode success)).
  { destruct code as [v|message]; [|discriminate H].
    destruct v as [| | | |s| |]; try discriminate H.
    destruct s as [|c rest]; [discriminate H|].
    cbn [RunPython.serve RunPython.run] in H.
    destruct (piston (String c rest)) as [msg|[|] text json];
      cbn [RunPython.run fst] in H.
    - discriminate H.
    - destruct json as [result|msg]; [|discriminate H].
      exists result. destruct (RunPython.executed result) as [r|msg];
        cbn [RunPython.run fst] in H; [rewrite H; reflexivity | discriminate H].
    - destruct text; discriminate H. }
  destruct E as [result E]. unfold RunPython.executed in E.
  destruct (get result "run") as [ran|msg]; [|discriminate E]. cbn [Js.bind] in E.
  injection E as E1 E2 E3 E4.
  assert (T : forall a, Js.truthy (Js.or a (JsString "")) = true
                        \/ Js.or a (JsString "") = JsString "").
  { intros a. unfold Js.or. destruct (Js.truthy a) eqn:Ta; [left; exact Ta | right; reflexivity]. }
  assert (S : Js.truthy stderr = true \/ stderr = JsString "")
    by (rewrite <- E2; apply T).
  assert (N : nullish exitCode = false).
  { rewrite <- E3. unfold RunPython.coalesce.
    destruct (opt_get ran "code"); reflexivity. }
  split.
  { rewrite <- E4, E2, E3. rewrite andb_true_iff, negb_true_iff.
    split; intros [Z F]; (split; [exact Z|]).
    - destruct S as [S|S]; [congruence | exact S].
    - rewrite F. reflexivity. }
  split; [rewrite <- E1; apply T|]. split; [exact S|]. split; [exact N|].
  unfold RunPython.hadError. rewrite <- E4, E2, E3.
  destruct (Js.truthy stderr); [rewrite andb_false_r|]; reflexivity.
Qed.

Lemma success_means_clean_exit_witness :
  fst (RunPython.run (RunPython.serve (Normal (JsString "print(1)")))
         (fun _ => RunPython.Resolved true (Normal "")
                     (Normal (JsObject
                        [("run", JsObject [("stdout", JsString "1"); ("stderr", JsString "");
                                           ("code", JsNumber 0)])]))))
  = RunPython.Ran (JsString "1") (JsString "") (JsNumber 0) true
  /\ RunPython.hadError (JsString "") true = negb true.
Proof.
  assert (H : fst (RunPython.run (RunPython.serve (Normal (JsString "print(1)")))
         (fun _ => RunPython.Resolved true (Normal "")
                     (Normal (JsObject
                        [("run", JsObject [("stdout", JsString "1"); ("stderr", JsString "");
                                           ("code", JsNumber 0)])]))))
  = RunPython.Ran (JsString "1") (JsString "") (JsNumber 0) true) by reflexivity.
  split; [exact H|].
  apply (success_means_clean_exit _ _ _ _ _ _ H).
Defined.

(** ** The coding signal extractor *)

Module CodingFacts.

Import Coding.

Lemma replay_from (events : list Event) (s : CodingSessionState) :
  let s' := fold_left step events s in
  editCount s' = editCount s + List.length (filter (fun e => match e with
                                                             | Edit => true
                                                             | Run _ _ => false
                                                             end) events)
  /\ runCount s' = runCount s + List.length (outcomes events)
  /\ errorCount s' = errorCount s + List.length (filter (fun b => b) (outcomes events))
  /\ successfulRuns s'
     = successfulRuns s + List.length (filter negb (outcomes events))
  /\ List.length (runTimestamps s')
     = List.length (runTimestamps s) + List.length (outcomes events)
  /\ errorCorrectionCycles s'
     = errorCorrectionCycles s + corrections (lastRunHadError s) (outcomes events)
  /\ sessionStartTime s' = sessionStartTime s.
Proof.
  revert s. induction events as [|e events IH]; intros s; cbn [fold_left].
  - cbn. repeat split; lia.
  - destruct (IH (step s e)) as [E1 [E2 [E3 [E4 [E5 [E6 E7]]]]]]. cbv zeta.
    rewrite E1, E2, E3, E4, E5, E6, E7.
    destruct e as [|hadError now]; cbn [step].
    + unfold recordEdit. cbn. repeat split; lia.
    + unfold recordRun.
      cbn [editCount runCount errorCount successfulRuns errorCorrectionCycles
           runTimestamps lastRunHadError sessionStartTime outcomes flat_map filter
           app List.length corrections].
      rewrite length_app. cbn [List.length].
      fold (outcomes events).
      destruct hadError, (lastRunHadError s); cbn [filter negb andb List.length];
        repeat split; lia.
Qed.

(** Corrections need an error before and a run without error after. *)
Lemma corrections_bounds (previous : bool) (l : list bool) :
  corrections previous l <= List.length (filter negb l)
  /\ corrections previous l
     <= List.length (filter (fun b => b) l) + (if previous then 1 else 0).
Proof.
  revert previous. induction l as [|b l IH]; intros previous; cbn [corrections filter].
  - cbn. lia.
  - destruct (IH b) as [A B].
    destruct previous, b; cbn [andb negb List.length] in *; lia.
Qed.

Lemma corrections_positive (previous : bool) (l : list bool) :
  0 < corrections previous l <->
  (previous = true /\ exists rest, l = false :: rest)
  \/ exists before after, l = before ++ true :: false :: after.
Proof.
  revert previous. induction l as [|b l IH]; intros previous; cbn [corrections].
  - split; [lia|].
    intros [[_ [rest E]]|[before [after E]]]; [discriminate E|].
    destruct before; discriminate E.
  - split.
    + intros H.
      destruct (previous && negb b) eqn:P.
      * apply andb_true_iff in P. destruct P as [P1 P2].
        apply negb_true_iff in P2. subst. left. split; [reflexivity | eexists; reflexivity].
      * assert (H' : 0 < corrections b l) by lia.
        apply IH in H'. right.
        destruct H' as [[Hb [rest E]]|[before [after E]]].
        -- subst. exists [], rest. reflexivity.
        -- subst. exists (b :: before), after. reflexivity.
    + intros [[P [rest E]]|[before [after E]]].
      * injection E as -> _. subst. cbn. lia.
      * destruct before as [|x before]; cbn [app] in E; injection E as -> ->.
        -- assert (0 < corrections true (false :: after)) by (cbn; lia). lia.
        -- assert (0 < corrections x (before ++ true :: false :: after)).
           { apply IH. right. exists before, after. reflexivity. }
           lia.
Qed.

End CodingFacts.

Lemma replay_counters (start : Z) (events : list Coding.Event) :
  let s := Coding.replay start events in
  Coding.runCount s = Coding.errorCount s + Coding.successfulRuns s
  /\ Coding.runCount s = List.length (Coding.outcomes events)
  /\ List.length (Coding.runTimestamps s) = Coding.runCount s
  /\ Coding.errorCount s
     = List.length (filter (fun b => b) (Coding.outcomes events))
  /\ Coding.editCount s + Coding.runCount s = List.length events
  /\ Coding.sessionStartTime s = start.
Proof.
  intros s.
  destruct (CodingFacts.replay_from events (Coding.createInitialCodingState start))
    as [E1 [E2 [E3 [E4 [E5 [_ E7]]]]]].
  fold (Coding.replay start events) in E1, E2, E3, E4, E5, E7. fold s in E1, E2, E3, E4, E5, E7.
  cbn [Coding.createInitialCodingState Coding.editCount Coding.runCount
       Coding.errorCount Coding.successfulRuns Coding.runTimestamps
       Coding.sessionStartTime List.length Nat.add] in E1, E2, E3, E4, E5, E7.
  assert (P : forall l : list bool,
            List.length l
            = List.length (filter (fun b => b) l) + List.length (filter negb l)).
  { induction l as [|b l IH]; [reflexivity|].
    destruct b; cbn [filter negb List.length]; lia. }
  assert (Q : List.length (filter (fun e => match e with
                                            | Coding.Edit => true
                                            | Coding.Run _ _ => false
                                            end) events)
              + List.length (Coding.outcomes events) = List.length events).
  { clear. induction events as [|e events IH]; [reflexivity|].
    destruct e; cbn [filter Coding.outcomes flat_map app List.length] in *;
      fold (Coding.outcomes events) in *; lia. }
  rewrite E1, E2, E3, E4, E5, E7.
  split; [apply P|]. repeat split; try reflexivity. exact Q.
Qed.

(** X15. The counters of a coding session, after any sequence of edits
    and runs: every run is either an error or a success
    ([runCount = errorCount + successfulRuns]), there is one timestamp per
    run, [editCount] is the number of edits, and the start time is kept. *)
Theorem coding_counters (start : Z) (events : list Coding.Event) :
  let s := Coding.replay start events in
  Coding.runCount s = Coding.errorCount s + Coding.successfulRuns s
  /\ Coding.runCount s = List.length (Coding.outcomes events)
  /\ List.length (Coding.runTimestamps s) = Coding.runCount s
  /\ Coding.errorCount s
     = List.length (filter (fun b => b) (Coding.outcomes events))
  /\ Coding.editCount s + Coding.runCount s = List.length events
  /\ Coding.sessionStartTime s = start.
Proof. exact (replay_counters start events). Qed.

Lemma replay_corrections (start : Z) (events : list Coding.Event) :
  let s := Coding.replay start events in
  Coding.errorCorrectionCycles s = Coding.corrections false (Coding.outcomes events)
  /\ Coding.errorCorrectionCycles s <= Coding.errorCount s
  /\ Coding.errorCorrectionCycles s <= Coding.successfulRuns s
  /\ (0 < Coding.errorCorrectionCycles s <->
        exists before after,
          Coding.outcomes events = before ++ true :: false :: after).
Proof.
  intros s.
  destruct (CodingFacts.replay_from events (Coding.createInitialCodingState start))
    as [_ [_ [E3 [E4 [_ [E6 _]]]]]].
  fold (Coding.replay start events) in E3, E4, E6. fold s in E3, E4, E6.
  cbn [Coding.createInitialCodingState Coding.errorCount Coding.successfulRuns
       Coding.errorCorrectionCycles Coding.lastRunHadError Nat.add] in E3, E4, E6.
  destruct (CodingFacts.corrections_bounds false (Coding.outcomes events)) as [B1 B2].
  rewrite E3, E4, E6.
  split; [reflexivity|]. split; [lia|]. split; [exact B1|].
  rewrite CodingFacts.corrections_positive.
  split; [intros [[H _]|H]; [discriminate H | exact H] | intros H; right; exact H].
Qed.

(** X16. What an error-correction cycle is: [errorCorrectionCycles]
    counts the runs without error that come right after a run with an
    error (edits in between do not matter).  It is at most the number of
    errors and at most the number of successful runs, and it is positive
    exactly when some failed run is directly followed by a successful one. *)
Theorem correction_cycles_counted (start : Z) (events : list Coding.Event) :
  let s := Coding.replay start events in
  Coding.errorCorrectionCycles s = Coding.corrections false (Coding.outcomes events)
  /\ Coding.errorCorrectionCycles s <= Coding.errorCount s
  /\ Coding.errorCorrectionCycles s <= Coding.successfulRuns s
  /\ (0 < Coding.errorCorrectionCycles s <->
        exists before after,
          Coding.outcomes events = before ++ true :: false :: after).
Proof. exact (replay_corrections start events). Qed.

(** X17. The signals stored for a session: the average time between runs
    is null exactly when the session has fewer than two runs, and the
    counters handed over satisfy
    [run_count = error_count + successful_runs] and
    [error_correction_cycles <= min error_count successful_runs]. *)
Theorem extracted_signals (start now : Z) (events : list Coding.Event)
    (finalCodeLength : nat) :
  let signals :=
    Coding.extractSignals (Coding.replay start events) finalCodeLength now in
  (Coding.time_between_runs_avg_seconds signals = None <-> Coding.run_count signals < 2)
  /\ Coding.run_count signals
     = Coding.error_count signals + Coding.successful_runs signals
  /\ Coding.error_correction_cycles signals
     <= Nat.min (Coding.error_count signals) (Coding.successful_runs signals)
  /\ Coding.final_code_length signals = finalCodeLength.
Proof.
  intros signals.
  destruct (replay_counters start events) as [C1 [_ [C3 _]]].
  destruct (replay_corrections start events) as [_ [D2 [D3 _]]].
  cbv zeta in C1, C3, D2, D3.
  unfold signals, Coding.extractSignals.
  cbn [Coding.time_between_runs_avg_seconds Coding.run_count Coding.error_count
       Coding.successful_runs Coding.error_correction_cycles Coding.final_code_length].
  rewrite C3.
  split.
  { destruct (1 <? Coding.runCount (Coding.replay start events)) eqn:L.
    - apply Nat.ltb_lt in L. split; [discriminate | lia].
    - apply Nat.ltb_ge in L. split; [lia | reflexivity]. }
  split; [exact C1|]. split; [lia | reflexivity].
Qed.

(** X18. From the session to the decision: the activity stored for a
    coding session in which a failed run was directly followed by a
    successful one carries an error-correction cycle, and every activity list
    that contains it has observed evidence and a growth signal. *)
Theorem corrected_session_is_a_growth_signal
    (start now : Z) (events : list Coding.Event) (finalCodeLength : nat)
    (a : Activity) (activities : list Activity) :
  learning_signals a
  = Some (storedSignals
            (Coding.extractSignals (Coding.replay start events) finalCodeLength now)) ->
  (hasCorrectionCycle a = true <->
     exists before after,
       Coding.outcomes events = before ++ true :: false :: after)
  /\ (In a activities ->
      (exists before after,
         Coding.outcomes events = before ++ true :: false :: after) ->
      let r := Server.evaluateUnlockRequirements
                 (Server.calculateEvidenceMetrics activities) in
      observed_evidence r = true /\ growth_signal r = true).
Proof.
  intros L.
  destruct (replay_corrections start events) as [_ [_ [_ P]]]. cbv zeta in P.
  assert (H : hasCorrectionCycle a = true <->
     exists before after,
       Coding.outcomes events = before ++ true :: false :: after).
  { rewrite <- P. unfold hasCorrectionCycle. rewrite L.
    unfold storedSignals, Coding.extractSignals.
    cbn [error_correction_cycles Coding.error_correction_cycles].
    rewrite Z.ltb_lt. lia. }
  split; [exact H|].
  intros I X r.
  destruct (aggregate_closed_form activities) as [_ [_ [_ [E4 [E5 _]]]]].
  cbv zeta in E4, E5.
  assert (C : hasCorrectionCycle a = true) by (apply H, X).
  unfold r. cbn [Server.evaluateUnlockRequirements observed_evidence growth_signal].
  rewrite E4, E5. split.
  - apply existsb_exists. exists a. split; [exact I|].
    apply AggregatorFacts.signals_are_observed, C.
  - apply orb_true_iff. left. apply existsb_exists. exists a. split; assumption.
Qed.

Lemma corrected_session_is_a_growth_signal_witness :
  learning_signals
    (Examples.summary "2025-01-03T09:30:00.000Z" (Some "observed_in_proof")
       (Some (storedSignals
                (Coding.extractSignals
                   (Coding.replay 0
                      [Coding.Run true 1000; Coding.Edit; Coding.Run false 5000])
                   12 9000))))
  = Some (storedSignals
            (Coding.extractSignals
               (Coding.replay 0
                  [Coding.Run true 1000; Coding.Edit; Coding.Run false 5000])
               12 9000))
  /\ hasCorrectionCycle
       (Examples.summary "2025-01-03T09:30:00.000Z" (Some "observed_in_proof")
          (Some (storedSignals
                   (Coding.extractSignals
                      (Coding.replay 0
                         [Coding.Run true 1000; Coding.Edit; Coding.Run false 5000])
                      12 9000)))) = true.
Proof.
  split; [reflexivity|].
  apply (proj1 (corrected_session_is_a_growth_signal 0 9000
                  [Coding.Run true 1000; Coding.Edit; Coding.Run false 5000] 12
                  (Examples.summary "2025-01-03T09:30:00.000Z"
                     (Some "observed_in_proof")
                     (Some (storedSignals
                              (Coding.extractSignals
                                 (Coding.replay 0
                                    [Coding.Run true 1000; Coding.Edit;
                                     Coding.Run false 5000])
                                 12 9000))))
                  [] eq_refl)).
  exists [], []. reflexivity.
Defined.

(** ** The writing signal extractor *)

Module WritingFacts.

Import Writing.

Section Counters.

Variable countWords : string -> nat.
Variable countParagraphs : string -> nat.
Variable countHeadings : string -> nat.
Variable length : string -> nat.

Local Abbreviation step := (step countWords countParagraphs countHeadings length).
Local Abbreviation invariant := (invariant countWords).

Lemma step_invariant (s : WritingSessionState) (e : Event) :
  invariant s -> invariant (step s e).
Proof.
  intros [I1 [I2 [I3 [I4 I5]]]].
  destruct e as [newContent newHtml now|]; cbn [Writing.step].
  - unfold recordRevision. cbv zeta.
    destruct (_ && _); [repeat split; assumption|].
    unfold Writing.invariant.
    cbn [wordCountChanges revisionTimestamps revisionCount structuralChanges
         paragraphRewrites lastContent].
    rewrite !length_app, last_last. cbn [List.length].
    repeat split; try lia.
    + destruct (_ || _); lia.
    + destruct (_ && _); lia.
  - repeat split; assumption.
Qed.

Lemma revisions_from (events : list Event) (s : WritingSessionState) :
  let s' := fold_left step events s in
  (invariant s -> invariant s')
  /\ revisionCount s <= revisionCount s'
  /\ revisionCount s'
     <= revisionCount s
        + List.length (filter (fun e => match e with
                                        | Revision _ _ _ => true
                                        | AutoSave => false
                                        end) events)
  /\ autoSaveCount s'
     = autoSaveCount s
       + List.length (filter (fun e => match e with
                                       | Revision _ _ _ => false
                                       | AutoSave => true
                                       end) events)
  /\ sessionStartTime s' = sessionStartTime s.
Proof.
  revert s. induction events as [|e events IH]; intros s; cbn [fold_left].
  - cbn. split; [intros I; exact I|]. repeat split; lia.
  - destruct (IH (step s e)) as [E0 [E1 [E2 [E3 E4]]]]. cbv zeta.
    split; [intros I; apply E0, step_invariant, I|].
    rewrite E3, E4.
    destruct e as [newContent newHtml now|]; cbn [Writing.step filter List.length] in *.
    + unfold recordRevision in *. cbv zeta in *.
      destruct (_ && _);
        cbn [revisionCount autoSaveCount sessionStartTime] in *;
        repeat split; lia.
    + cbn [recordAutoSave revisionCount autoSaveCount sessionStartTime] in *.
      repeat split; lia.
Qed.

End Counters.

End WritingFacts.

(** X19. The bookkeeping of a writing session, after any sequence of
    revisions and auto-saves and whatever the counters of words, paragraphs
    and headings count: one word count and one timestamp per recorded
    revision; neither structural changes nor paragraph rewrites outnumber the
    recorded revisions; the last recorded word count is that of the content
    the next revision is compared with; a revision is recorded at most once
    per call, an auto-save exactly once; the start time is kept. *)
Theorem writing_counters
    (countWords countParagraphs countHeadings length : string -> nat)
    (start : Z) (events : list Writing.Event) :
  let s := Writing.replay countWords countParagraphs countHeadings length start events in
  List.length (Writing.wordCountChanges s) = Writing.revisionCount s
  /\ List.length (Writing.revisionTimestamps s) = Writing.revisionCount s
  /\ Writing.structuralChanges s <= Writing.revisionCount s
  /\ Writing.paragraphRewrites s <= Writing.revisionCount s
  /\ last (Writing.wordCountChanges s) (countWords "")
     = countWords (Writing.lastContent s)
  /\ Writing.revisionCount s
     <= List.length (filter (fun e => match e with
                                      | Writing.Revision _ _ _ => true
                                      | Writing.AutoSave => false
                                      end) events)
  /\ Writing.autoSaveCount s
     = List.length (filter (fun e => match e with
                                     | Writing.Revision _ _ _ => false
                                     | Writing.AutoSave => true
                                     end) events)
  /\ Writing.sessionStartTime s = start.
Proof.
  intros s.
  pose proof (WritingFacts.revisions_from countWords countParagraphs countHeadings length
                events (Writing.createInitialWritingState start)) as H.
  cbv zeta in H.
  change (fold_left (Writing.step countWords countParagraphs countHeadings length)
            events (Writing.createInitialWritingState start)) with s in H.
  destruct H as [I [_ [R [A T]]]].
  destruct I as [I1 [I2 [I3 [I4 I5]]]].
  { repeat split; cbn; lia. }
  cbn [Writing.createInitialWritingState Writing.revisionCount Writing.autoSaveCount
       Writing.sessionStartTime Nat.add] in R, A, T.
  repeat (split; [assumption|]). exact T.
Qed.

(** X20. The signals stored for a writing session: the average time
    between revisions is null exactly when fewer than two revisions were
    recorded, [word_count_changes] has one entry per recorded revision, and
    [final_word_count] is the word count of the final content. *)
Theorem writing_signals_extracted
    (countWords countParagraphs countHeadings length : string -> nat)
    (start now : Z) (events : list Writing.Event) (finalContent : string) :
  let signals :=
    Writing.extractSignals countWords
      (Writing.replay countWords countParagraphs countHeadings length start events)
      finalContent now in
  (Writing.time_between_revisions_avg_seconds signals = None
   <-> Writing.revision_count signals < 2)
  /\ List.length (Writing.word_count_changes signals) = Writing.revision_count signals
  /\ Writing.structural_changes signals <= Writing.revision_count signals
  /\ Writing.paragraph_rewrites signals <= Writing.revision_count signals
  /\ Writing.final_word_count signals = countWords finalContent.
Proof.
  intros signals.
  pose proof (WritingFacts.revisions_from countWords countParagraphs countHeadings length
                events (Writing.createInitialWritingState start)) as H.
  cbv zeta in H.
  change (fold_left (Writing.step countWords countParagraphs countHeadings length)
            events (Writing.createInitialWritingState start))
    with (Writing.replay countWords countParagraphs countHeadings length start events)
    in H.
  destruct H as [I _].
  destruct I as [I1 [I2 [I3 [I4 _]]]].
  { repeat split; cbn; lia. }
  unfold signals, Writing.extractSignals.
  cbn [Writing.time_between_revisions_avg_seconds Writing.revision_count
       Writing.word_count_changes Writing.structural_changes Writing.paragraph_rewrites
       Writing.final_word_count].
  rewrite I2.
  split.
  { destruct (1 <? Writing.revisionCount _) eqn:L.
    - apply Nat.ltb_lt in L. split; [discriminate | lia].
    - apply Nat.ltb_ge in L. split; [lia | reflexivity]. }
  repeat (split; [assumption|]). reflexivity.
Qed.

(** X21. Writing sessions and the growth signal: the stored signals of a
    writing session make the activity observed but never give an
    error-correction cycle.  So in a list whose signals all come from writing
    sessions the growth signal is met exactly when at least two activities
    are observed, and the score gets no bonus. *)
Theorem writing_sessions_need_two (activities : list Activity) :
  (forall a signals,
     In a activities -> learning_signals a = Some signals ->
     exists w, signals = storedWritingSignals w) ->
  let m := Server.calculateEvidenceMetrics activities in
  let r := Server.evaluateUnlockRequirements m in
  Server.hasErrorCorrectionCycles m = false
  /\ growth_signal r = (2 <=? Server.observedSessionCount m)
  /\ (Server.calculateConfidenceScore m
      == spec_confidence (Server.uniqueDays m) (Server.sessionCount m)
           (Server.observedSessionCount m) false)%Q
  /\ (forall a, In a activities -> learning_signals a <> None -> isObserved a = true).
Proof.
  intros W m r.
  destruct (aggregate_closed_form activities) as [_ [_ [_ [_ [E5 _]]]]].
  fold m in E5.
  assert (N : Server.hasErrorCorrectionCycles m = false).
  { rewrite E5. apply not_true_is_false. intros H.
    apply existsb_exists in H. destruct H as [a [Ia Ha]].
    unfold hasCorrectionCycle in Ha.
    destruct (learning_signals a) as [signals|] eqn:L; [|discriminate Ha].
    destruct (W a signals Ia L) as [w ->]. discriminate Ha. }
  split; [exact N|].
  split.
  { unfold r. cbn [Server.evaluateUnlockRequirements growth_signal].
    rewrite N. reflexivity. }
  split.
  { rewrite ScoreFacts.server_score_spec, N. reflexivity. }
  intros a _ L. unfold isObserved.
  destruct (learning_signals a); [apply orb_true_r | contradiction L; reflexivity].
Qed.

Lemma writing_sessions_need_two_witness :
  (forall a signals,
     In a Examples.two_observed -> learning_signals a = Some signals ->
     exists w, signals = storedWritingSignals w)
  /\ growth_signal
       (Server.evaluateUnlockRequirements
          (Server.calculateEvidenceMetrics Examples.two_observed))
     = (2 <=? Server.observedSessionCount
                (Server.calculateEvidenceMetrics Examples.two_observed)).
Proof.
  assert (W : forall a signals,
             In a Examples.two_observed -> learning_signals a = Some signals ->
             exists w, signals = storedWritingSignals w).
  { intros a signals I L.
    exists (Writing.extractSignals (fun _ => 0)
              (Writing.createInitialWritingState 0) "" 0).
    destruct I as [<-|[<-|[<-|[]]]]; cbn in L; try discriminate L;
      injection L as <-; reflexivity. }
  split; [exact W|].
  apply (writing_sessions_need_two Examples.two_observed W).
Defined.

(** ** The refusals of the run-python handler *)

Module RunFacts.

Import RunPython.

Lemma executed_ran (result : JsValue) (r : Response) :
  executed result = Normal r ->
  exists stdout stderr exitCode success, r = Ran stdout stderr exitCode success.
Proof.
  unfold executed. destruct (get result "run") as [ran|msg]; [|discriminate].
  cbn [Js.bind]. intros E. injection E as <-. repeat eexists.
Qed.

End RunFacts.

(** X22. The refusals of the run-python handler.  A response that is
    not the result of a run has status 400, 503 or 500, an empty [stdout] and
    a non-empty [stderr].  It is the 503 exactly when the request carried a
    program and the execution service answered with a status that is not ok
    and a readable body; when [fetch] rejects, the body of the service cannot
    be read or is not JSON, the answer is the 500 of the catch handler with
    the message of what was thrown. *)
Theorem run_python_refusals (code : Completion JsValue)
    (piston : string -> RunPython.PistonReply) :
  let response := fst (RunPython.run (RunPython.serve code) piston) in
  (forall status error stdout stderr,
     response = RunPython.Refused status error stdout stderr ->
     (status = 400 \/ status = 503 \/ status = 500)%Z
     /\ stdout = "" /\ stderr <> "")
  /\ ((exists error stdout stderr,
         response = RunPython.Refused 503 error stdout stderr) <->
      exists c rest text json,
        code = Normal (JsString (String c rest))
        /\ piston (String c rest) = RunPython.Resolved false (Normal text) json)
  /\ (forall c rest message,
        code = Normal (JsString (String c rest)) ->
        piston (String c rest) = RunPython.Rejected message
        \/ (exists json, piston (String c rest)
                         = RunPython.Resolved false (Throw message) json)
        \/ (exists text, piston (String c rest)
                         = RunPython.Resolved true text (Throw message)) ->
        response = RunPython.caught message).
Proof.
  intros response.
  assert (C : forall message status error stdout stderr,
             RunPython.caught message = RunPython.Refused status error stdout stderr ->
             ((status = 400 \/ status = 503 \/ status = 500)%Z
              /\ stdout = "" /\ stderr <> "")
             /\ status <> 503%Z).
  { intros message status error stdout stderr E. injection E as <- _ <- <-.
    repeat split; try (right; right; reflexivity); discriminate. }
  destruct code as [v|message].
  2:{ split; [intros status error stdout stderr E; apply (C _ _ _ _ _ E)|].
      split; [|intros c rest msg E; discriminate E].
      split; [intros [e [o [s E]]]; discriminate E
             | intros [c [rest [text [json [E _]]]]]; discriminate E]. }
  assert (B : forall status error stdout stderr,
             RunPython.Refused 400 "Code is required" "" "No code provided"
             = RunPython.Refused status error stdout stderr ->
             (status = 400 \/ status = 503 \/ status = 500)%Z
             /\ stdout = "" /\ stderr <> "").
  { intros status error stdout stderr E. injection E as <- _ <- <-.
    repeat split; try (left; reflexivity); discriminate. }
  destruct v as [| |b|n|s|l|l];
    try (split; [exact B|];
         split; [|intros c rest msg E; discriminate E];
         split; [intros [e [o [s E]]]; discriminate E
                | intros [c [rest [text [json [E _]]]]]; discriminate E]).
  destruct s as [|c rest].
  { split; [exact B|].
    split; [|intros c rest msg E; discriminate E].
    split; [intros [e [o [s E]]]; discriminate E
           | intros [c [rest [text [json [E _]]]]]; discriminate E]. }
  unfold response. cbn [RunPython.serve RunPython.run].
  destruct (piston (String c rest)) as [msg|[|] text json] eqn:P;
    cbn [RunPython.run fst].
  - split; [intros status error stdout stderr E; apply (C _ _ _ _ _ E)|].
    split.
    + split.
      * intros [e [o [s E]]]. destruct (C _ _ _ _ _ E) as [_ N]. contradiction N; reflexivity.
      * intros [c' [rest' [text [json [E Q]]]]]. injection E as <- <-.
        rewrite P in Q. discriminate Q.
    + intros c' rest' message E H. injection E as <- <-. rewrite P in H.
      destruct H as [H|[[j H]|[t H]]]; try discriminate H.
      injection H as <-. reflexivity.
  - destruct json as [result|msg].
    + destruct (RunPython.executed result) as [r|msg] eqn:X; cbn [RunPython.run fst].
      * destruct (RunFacts.executed_ran result r X) as [o [e [x [s ->]]]].
        split; [intros status error stdout stderr E; discriminate E|].
        split.
        -- split.
           ++ intros [e' [o' [s' E]]]. discriminate E.
           ++ intros [c' [rest' [text' [json [E Q]]]]]. injection E as <- <-.
              rewrite P in Q. discriminate Q.
        -- intros c' rest' message E H. injection E as <- <-. rewrite P in H.
           destruct H as [H|[[j H]|[t H]]]; discriminate H.
      * split; [intros status error stdout stderr E; apply (C _ _ _ _ _ E)|].
        split.
        -- split.
           ++ intros [e [o [s E]]]. destruct (C _ _ _ _ _ E) as [_ N].
              contradiction N; reflexivity.
           ++ intros [c' [rest' [text' [json [E Q]]]]]. injection E as <- <-.
              rewrite P in Q. discriminate Q.
        -- intros c' rest' message E H. injection E as <- <-. rewrite P in H.
           destruct H as [H|[[j H]|[t H]]]; discriminate H.
    + cbn [RunPython.run fst].
      split; [intros status error stdout stderr E; apply (C _ _ _ _ _ E)|].
      split.
      * split.
        -- intros [e [o [s E]]]. destruct (C _ _ _ _ _ E) as [_ N].
           contradiction N; reflexivity.
        -- intros [c' [rest' [text' [json [E Q]]]]]. injection E as <- <-.
           rewrite P in Q. discriminate Q.
      * intros c' rest' message E H. injection E as <- <-. rewrite P in H.
        destruct H as [H|[[j H]|[t H]]]; try discriminate H.
        injection H as _ <-. reflexivity.
  - destruct text as [t|msg]; cbn [RunPython.run fst].
    + split.
      { intros status error stdout stderr E. injection E as <- _ <- <-.
        repeat split; try (right; left; reflexivity); discriminate. }
      split.
      * split; [intros _; exists c, rest, t, json; split; [reflexivity | exact P]
               | intros _; repeat eexists].
      * intros c' rest' message E H. injection E as <- <-. rewrite P in H.
        destruct H as [H|[[j H]|[t' H]]]; discriminate H.
    + split; [intros status error stdout stderr E; apply (C _ _ _ _ _ E)|].
      split.
      * split.
        -- intros [e [o [s E]]]. destruct (C _ _ _ _ _ E) as [_ N].
           contradiction N; reflexivity.
        -- intros [c' [rest' [text' [json' [E Q]]]]]. injection E as <- <-.
           rewrite P in Q. discriminate Q.
      * intros c' rest' message E H. injection E as <- <-. rewrite P in H.
        destruct H as [H|[[j H]|[t' H]]]; try discriminate H.
        injection H as <- _. reflexivity.
Qed.

(** ** The progress bar of the locked view *)

Lemma progress_of_requirements (r : UnlockRequirements) (m : Server.EvidenceMetrics) :
  Server.shouldUnlock r = false ->
  let locked := Server.lockedResponse r m in
  (getRequirementProgress locked
   == inject_Z (20 * (5 - Z.of_nat (List.length (Server.missing_requirements locked)))))%Q
  /\ 1 <= List.length (Server.missing_requirements locked) <= 5.
Proof.
  intros U locked. unfold locked, getRequirementProgress.
  cbn [Server.lockedResponse Server.locked_requirements_met Server.missing_requirements].
  destruct r as [[|] [|] [|] [|] [|]]; try discriminate U;
    (split; [vm_compute; reflexivity | cbn; lia]).
Qed.

(** X23. The progress bar never lies: for every Locked response of the
    handler the value of [getRequirementProgress] is exactly 20 for each met
    requirement, without rounding error, that is 100 minus 20 for each message
    in [missing_requirements]; it is at most 80, since a Locked response
    names at least one missing requirement. *)
Theorem progress_of_locked
    (JSON_parse : JsValue -> Completion JsValue)
    (ToString : JsValue -> Completion string)
    (key : option string) (content : Server.Content)
    (collaborator : Server.AiRequest -> Server.FetchReply)
    (locked : Server.LockedResponse) :
  fst (Server.run (Server.serve JSON_parse ToString key content) collaborator)
  = Server.Locked locked ->
  (getRequirementProgress locked
   == inject_Z (20 * (5 - Z.of_nat (List.length (Server.missing_requirements locked)))))%Q
  /\ 1 <= List.length (Server.missing_requirements locked) <= 5
  /\ (getRequirementProgress locked <= 80)%Q.
Proof.
  intros H.
  rewrite ServeFacts.run_cases in H. cbn [fst] in H.
  destruct (truthy_str key); cbn [negb] in H; [|discriminate H].
  destruct (Server.shouldUnlock _) eqn:U; [discriminate H|].
  injection H as <-.
  destruct (progress_of_requirements _
              (Server.calculateEvidenceMetrics (submitted content)) U) as [P [B1 B2]].
  cbv zeta in P, B1, B2.
  split; [exact P|]. split; [split; assumption|].
  rewrite P. unfold Qle. cbn [Qnum Qden inject_Z]. lia.
Qed.

Lemma progress_of_locked_witness :
  fst (Server.run
         (Server.serve Examples.JSON_parse Examples.ToString (Some "secret")
            (Examples.request [Examples.summary "2025-01-01T18:00:00.000Z" None None]))
         Examples.unavailable)
  = Server.Locked
      (Server.lockedResponse
         (Server.evaluateUnlockRequirements
            (Server.calculateEvidenceMetrics
               [Examples.summary "2025-01-01T18:00:00.000Z" None None]))
         (Server.calculateEvidenceMetrics
            [Examples.summary "2025-01-01T18:00:00.000Z" None None]))
  /\ (getRequirementProgress
        (Server.lockedResponse
           (Server.evaluateUnlockRequirements
              (Server.calculateEvidenceMetrics
                 [Examples.summary "2025-01-01T18:00:00.000Z" None None]))
           (Server.calculateEvidenceMetrics
              [Examples.summary "2025-01-01T18:00:00.000Z" None None])) <= 80)%Q.
Proof.
  assert (H : fst (Server.run
         (Server.serve Examples.JSON_parse Examples.ToString (Some "secret")
            (Examples.request [Examples.summary "2025-01-01T18:00:00.000Z" None None]))
         Examples.unavailable)
  = Server.Locked
      (Server.lockedResponse
         (Server.evaluateUnlockRequirements
            (Server.calculateEvidenceMetrics
               [Examples.summary "2025-01-01T18:00:00.000Z" None None]))
         (Server.calculateEvidenceMetrics
            [Examples.summary "2025-01-01T18:00:00.000Z" None None]))) by reflexivity.
  split; [exact H|].
  exact (proj2 (proj2 (progress_of_locked _ _ _ _ _ _ H))).
Defined.
